(** * LC-3 simulator core: [setcc] and [execute_next] of source/LC3.c

    A shallow embedding of the fetch-decode-execute engine, followed by the
    properties of it that the specification states.

    Conventions of the embedding.
    - A [uint16_t] is a [Z] in [0, 65536); a C expression over [uint16_t] and
      [int16_t] operands is evaluated in [int] (the integer promotions; [int]
      is taken to be at least 32 bits wide, so no intermediate result
      overflows) and is reduced modulo 2^16 only where the source stores it
      in a 16-bit object ([uint16]) or casts it ([int16]).
    - The arrays [memory] and [registers] are lists.  Indexing outside an
      array is undefined behaviour in C: the embedding makes it a [fault].
    - The curses window is a record of the pending keystrokes, the read
      mode, and the calls made so far. *)

From Stdlib Require Import ZArith Lia Ascii Bool List.
From stdpp Require Import base tactics option list.

#[local] Open Scope Z_scope.

(** ** Results of fallible code *)

Inductive fault : Type :=
| MemoryIndexOutOfRange (i : Z)
| RegisterIndexOutOfRange (i : Z)
| ReadNeverReturns.

Inductive result (A : Type) : Type :=
| Ok (a : A)
| Err (f : fault).

Arguments Ok {A} a.
Arguments Err {A} f.

#[global] Instance result_ret : MRet result := fun A a => Ok a.

#[global] Instance result_bind : MBind result := fun A B k m =>
  match m with
  | Ok a => k a
  | Err f => Err f
  end.

(** A computation that does not end in a register index out of range. *)
Definition reg_safe {A} (r : result A) : Prop :=
  forall i, r <> Err (RegisterIndexOutOfRange i).

(** ** 16-bit integers *)

(** Conversion of an [int] to [uint16_t]. *)
Definition uint16 (x : Z) : Z := x mod 65536.

(** Conversion of an [int] to [int16_t] (two's complement, as every compiler
    the simulator builds with defines it). *)
Definition int16 (x : Z) : Z := (x + 32768) mod 65536 - 32768.

Definition is_uint16 (x : Z) : bool := (0 <=? x) && (x <? 65536).

Definition u16 (x : Z) : Prop := 0 <= x < 65536.

(** ** Enums.h *)

(** Modelled from the spec: the header Enums.h, which declares the opcode
    constants that [execute_next] switches on, is not among the sources.
    The constants are the opcode numbers of the LC-3 instruction set, whose
    program images the spec requires binary compatibility with; the spec's
    own example (IR = 0x1042 is an ADD) agrees. *)
Module Enums.
Definition BR   : Z := 0.
Definition ADD  : Z := 1.
Definition LD   : Z := 2.
Definition ST   : Z := 3.
Definition JSR  : Z := 4.
Definition AND  : Z := 5.
Definition LDR  : Z := 6.
Definition STR  : Z := 7.
Definition NOT  : Z := 9.
Definition LDI  : Z := 10.
Definition STI  : Z := 11.
Definition JMP  : Z := 12.
Definition LEA  : Z := 14.
Definition TRAP : Z := 15.
End Enums.
Import Enums.

(** ** LC3.h *)

(** Modelled from the spec: the header LC3.h, which declares [struct LC3], is
    not among the sources.  The fields are those that LC3.c uses, with the
    types of the spec's data model: [memory] has 65536 cells, of which only
    the [value] field is used, and [registers] has 8 entries. *)
Record LC3 : Type := mkLC3 {
  memory : list Z;
  registers : list Z;
  PC : Z;
  IR : Z;
  CC : ascii;
  isHalted : bool
}.

Definition set_memory (m : list Z) (s : LC3) : LC3 :=
  mkLC3 m (registers s) (PC s) (IR s) (CC s) (isHalted s).
Definition set_registers (r : list Z) (s : LC3) : LC3 :=
  mkLC3 (memory s) r (PC s) (IR s) (CC s) (isHalted s).
Definition set_PC (v : Z) (s : LC3) : LC3 :=
  mkLC3 (memory s) (registers s) v (IR s) (CC s) (isHalted s).
Definition set_IR (v : Z) (s : LC3) : LC3 :=
  mkLC3 (memory s) (registers s) (PC s) v (CC s) (isHalted s).
Definition set_CC (c : ascii) (s : LC3) : LC3 :=
  mkLC3 (memory s) (registers s) (PC s) (IR s) c (isHalted s).
Definition set_isHalted (b : bool) (s : LC3) : LC3 :=
  mkLC3 (memory s) (registers s) (PC s) (IR s) (CC s) b.

(** The values that the C types of the fields admit. *)
Definition well_formed (s : LC3) : bool :=
  (Z.of_nat (length (memory s)) =? 65536)
  && forallb is_uint16 (memory s)
  && (Z.of_nat (length (registers s)) =? 8)
  && forallb is_uint16 (registers s)
  && is_uint16 (PC s)
  && is_uint16 (IR s).

Record wf (s : LC3) : Prop := {
  wf_memory_length : Z.of_nat (length (memory s)) = 65536;
  wf_memory : Forall u16 (memory s);
  wf_registers_length : Z.of_nat (length (registers s)) = 8;
  wf_registers : Forall u16 (registers s);
  wf_PC : u16 (PC s);
  wf_IR : u16 (IR s)
}.

(** ** Arrays *)

(** [a[i]] as an rvalue. *)
Definition array_get (out : Z -> fault) (a : list Z) (i : Z) : result Z :=
  if 0 <=? i then
    match a !! Z.to_nat i with
    | Some v => Ok v
    | None => Err (out i)
    end
  else Err (out i).

(** [a[i] = v]. *)
Definition array_set (out : Z -> fault) (a : list Z) (i v : Z) : result (list Z) :=
  if (0 <=? i) && (i <? Z.of_nat (length a)) then Ok (<[Z.to_nat i := v]> a)
  else Err (out i).

Definition mem_get := array_get MemoryIndexOutOfRange.
Definition mem_set := array_set MemoryIndexOutOfRange.
Definition reg_get := array_get RegisterIndexOutOfRange.
Definition reg_set := array_set RegisterIndexOutOfRange.

(** ** The curses window *)

Inductive call : Type :=
| Wtimeout (delay : Z)
| Wgetch (returned : Z)
| Wechochar (ch : Z).

(** [delay] is the read mode set by [wtimeout] (negative: blocking, zero:
    non-blocking); [typeahead] the keystrokes still to come; [calls] the
    calls made on the window, oldest first. *)
Record WINDOW : Type := mkWINDOW {
  delay : Z;
  typeahead : list Z;
  calls : list call
}.

Definition ERR : Z := -1.

Definition wtimeout (w : WINDOW) (d : Z) : WINDOW :=
  mkWINDOW d (typeahead w) (calls w ++ [Wtimeout d]).

(** A blocking read waits for a keystroke; with none to come it never
    returns.  A non-blocking read with nothing pending returns [ERR]. *)
Definition wgetch (w : WINDOW) : result (Z * WINDOW) :=
  match typeahead w with
  | k :: rest => Ok (k, mkWINDOW (delay w) rest (calls w ++ [Wgetch k]))
  | [] =>
      if delay w <? 0 then Err ReadNeverReturns
      else Ok (ERR, mkWINDOW (delay w) [] (calls w ++ [Wgetch ERR]))
  end.

Definition wechochar (w : WINDOW) (ch : Z) : WINDOW :=
  mkWINDOW (delay w) (typeahead w) (calls w ++ [Wechochar ch]).

(** The characters echoed so far, oldest first. *)
Fixpoint echoed (cs : list call) : list Z :=
  match cs with
  | [] => []
  | Wechochar ch :: cs => ch :: echoed cs
  | _ :: cs => echoed cs
  end.

(** ** LC3.c *)

Definition KBSR : Z := 0xFE00.
Definition KBDR : Z := 0xFE02.
Definition DSR  : Z := 0xFE04.
Definition DDR  : Z := 0xFE06.
Definition MCR  : Z := 0xFFFE.

(** [setcc]: the new condition code, from the value [*last_result]. *)
Definition setcc (last_result : Z) : ascii :=
  if last_result =? 0 then "Z"%char
  else if int16 last_result <? 0 then "N"%char
  else "P"%char.

(** The opcode: [(IR & 0xf000) >> 12]. *)
Definition opcode_of (ir : Z) : Z := Z.shiftr (Z.land ir 0xf000) 12.

(** [(IR >> k) & 7]. *)
Definition field3 (ir k : Z) : Z := Z.land (Z.shiftr ir k) 7.

(** [((int16_t) ((IR & 0x1ff) << 7)) >> 7] *)
Definition PCoffset9 (ir : Z) : Z :=
  Z.shiftr (int16 (Z.shiftl (Z.land ir 0x1ff) 7)) 7.

(** [((int16_t) ((IR & 0x3f) << 9)) >> 9] *)
Definition PCoffset6 (ir : Z) : Z :=
  Z.shiftr (int16 (Z.shiftl (Z.land ir 0x3f) 9)) 9.

(** [((int16_t) ((IR & 0x7ff) << 5)) >> 5] *)
Definition PCoffset11 (ir : Z) : Z :=
  Z.shiftr (int16 (Z.shiftl (Z.land ir 0x7ff) 5)) 5.

(** [*DR = v; setcc(DR, &simulator->CC);] with [DR = &registers[dr]]. *)
Definition write_DR (dr v : Z) (s : LC3) : result LC3 :=
  regs ← reg_set (registers s) dr v;
  let s := set_registers regs s in
  last_result ← reg_get (registers s) dr;
  Ok (set_CC (setcc last_result) s).

Definition do_TRAP (s : LC3) : result LC3 :=
  regs ← reg_set (registers s) 7 (PC s);
  let s := set_registers regs s in
  v ← mem_get (memory s) (Z.land (IR s) 0xff);
  Ok (set_PC v s).

Definition do_LEA (s : LC3) : result LC3 :=
  let dr := field3 (IR s) 9 in
  let off := PCoffset9 (IR s) in
  write_DR dr (uint16 (PC s + off)) s.

Definition do_LDI (s : LC3) (w : WINDOW) : result (LC3 * WINDOW) :=
  let dr := field3 (IR s) 9 in
  let off := PCoffset9 (IR s) in
  a ← mem_get (memory s) (PC s + off);
  if a =? KBDR then
    let w := wtimeout w (-1) in
    '(k, w) ← wgetch w;
    regs ← reg_set (registers s) dr (uint16 k);
    let s := set_registers regs s in
    let w := wtimeout w 0 in
    last_result ← reg_get (registers s) dr;
    Ok (set_CC (setcc last_result) s, w)
  else
    v ← mem_get (memory s) a;
    s ← write_DR dr v s;
    Ok (s, w).

Definition do_NOT (s : LC3) : result LC3 :=
  let dr := field3 (IR s) 9 in
  SR1 ← reg_get (registers s) (field3 (IR s) 6);
  write_DR dr (uint16 (Z.lnot SR1)) s.

Definition do_LD (s : LC3) : result LC3 :=
  let dr := field3 (IR s) 9 in
  let off := PCoffset9 (IR s) in
  v ← mem_get (memory s) (PC s + off);
  write_DR dr v s.

(** The second operand of ADD and AND. *)
Definition operand2 (s : LC3) : result Z :=
  if negb (Z.land (IR s) 0x0020 =? 0) then
    Ok (uint16 (Z.lor (Z.land (IR s) 0x1f)
                      (if negb (Z.land (IR s) 0x10 =? 0) then 0xffe0 else 0)))
  else reg_get (registers s) (Z.land (IR s) 7).

(** The shared body of ADD and AND; [opcode] tells them apart. *)
Definition do_ADD_AND (opcode : Z) (s : LC3) : result LC3 :=
  let dr := field3 (IR s) 9 in
  SR1 ← reg_get (registers s) (field3 (IR s) 6);
  SR2 ← operand2 s;
  write_DR dr (uint16 (if opcode =? ADD then SR1 + SR2 else Z.land SR1 SR2)) s.

(** The condition of BR. *)
Definition br_taken (ir : Z) (cc : ascii) : bool :=
  (negb (Z.land (Z.shiftr ir 11) 1 =? 0) && Ascii.eqb cc "N")
  || (negb (Z.land (Z.shiftr ir 10) 1 =? 0) && Ascii.eqb cc "Z")
  || (negb (Z.land (Z.shiftr ir 9) 1 =? 0) && Ascii.eqb cc "P").

Definition do_BR (s : LC3) : result LC3 :=
  if br_taken (IR s) (CC s) then
    let off := PCoffset9 (IR s) in
    Ok (set_PC (uint16 (PC s + off)) s)
  else Ok s.

Definition do_LDR (s : LC3) : result LC3 :=
  let dr := field3 (IR s) 9 in
  SR1 ← reg_get (registers s) (field3 (IR s) 6);
  let off := PCoffset6 (IR s) in
  v ← mem_get (memory s) (SR1 + off);
  write_DR dr v s.

Definition do_ST (s : LC3) : result LC3 :=
  SR1 ← reg_get (registers s) (field3 (IR s) 9);
  let off := PCoffset9 (IR s) in
  m ← mem_set (memory s) (PC s + off) SR1;
  Ok (set_memory m s).

Definition do_STR (s : LC3) : result LC3 :=
  SR1 ← reg_get (registers s) (field3 (IR s) 9);
  SR2 ← reg_get (registers s) (field3 (IR s) 6);
  let off := PCoffset6 (IR s) in
  m ← mem_set (memory s) (SR2 + off) SR1;
  Ok (set_memory m s).

Definition do_STI (s : LC3) : result LC3 :=
  SR1 ← reg_get (registers s) (field3 (IR s) 9);
  let off := PCoffset9 (IR s) in
  a ← mem_get (memory s) (PC s + off);
  m ← mem_set (memory s) a SR1;
  let s := set_memory m s in
  b ← mem_get (memory s) (PC s + off);
  if b =? MCR then Ok (set_isHalted true s) else Ok s.

Definition do_JMP (s : LC3) : result LC3 :=
  SR1 ← reg_get (registers s) (field3 (IR s) 6);
  Ok (set_PC SR1 s).

Definition do_JSR (s : LC3) : result LC3 :=
  regs ← reg_set (registers s) 7 (PC s);
  let s := set_registers regs s in
  if Z.land (IR s) 0x800 =? 0x800 then
    let off := PCoffset11 (IR s) in
    Ok (set_PC (uint16 (PC s + int16 off)) s)
  else
    SR1 ← reg_get (registers s) (field3 (IR s) 6);
    Ok (set_PC SR1 s).

(** The [switch] of [execute_next], its cases in the order of the source. *)
Definition dispatch (opcode : Z) (s : LC3) (w : WINDOW) : result (LC3 * WINDOW) :=
  if opcode =? TRAP then s ← do_TRAP s; Ok (s, w)
  else if opcode =? LEA then s ← do_LEA s; Ok (s, w)
  else if opcode =? LDI then do_LDI s w
  else if opcode =? NOT then s ← do_NOT s; Ok (s, w)
  else if opcode =? LD then s ← do_LD s; Ok (s, w)
  else if (opcode =? ADD) || (opcode =? AND) then s ← do_ADD_AND opcode s; Ok (s, w)
  else if opcode =? BR then s ← do_BR s; Ok (s, w)
  else if opcode =? LDR then s ← do_LDR s; Ok (s, w)
  else if opcode =? ST then s ← do_ST s; Ok (s, w)
  else if opcode =? STR then s ← do_STR s; Ok (s, w)
  else if opcode =? STI then s ← do_STI s; Ok (s, w)
  else if opcode =? JMP then s ← do_JMP s; Ok (s, w)
  else if opcode =? JSR then s ← do_JSR s; Ok (s, w)
  else Ok (s, w).

(** The opcodes that have a case in the [switch]. *)
Definition implemented (opcode : Z) : bool :=
  existsb (Z.eqb opcode)
    [TRAP; LEA; LDI; NOT; LD; ADD; AND; BR; LDR; ST; STR; STI; JMP; JSR].

(** The instructions that the spec lists as updating the condition code. *)
Definition updates_CC (opcode : Z) : bool :=
  existsb (Z.eqb opcode) [ADD; AND; NOT; LD; LDI; LDR; LEA].

(** The state in which the [switch] runs: [IR] loaded, [PC] incremented. *)
Definition fetched (ir : Z) (s : LC3) : LC3 :=
  set_IR ir (set_PC (uint16 (PC s + 1)) s).

(** [IR = memory[PC++].value] and the decoding and execution of [IR]: the
    function up to the end of its [switch]. *)
Definition fetch_execute (s : LC3) (w : WINDOW) : result (LC3 * WINDOW) :=
  ir ← mem_get (memory s) (PC s);
  let s := fetched ir s in
  dispatch (opcode_of (IR s)) s w.

(** The statements after the [switch]: the display and the status cells. *)
Definition devices (s : LC3) (w : WINDOW) : result (LC3 * WINDOW) :=
  d ← mem_get (memory s) DDR;
  '(s, w) ← (if negb (d =? 0) then
               ch ← mem_get (memory s) 0xFE06;
               let w := wechochar w (Z.land ch 0xff) in
               m ← mem_set (memory s) DDR 0x0;
               Ok (set_memory m s, w)
             else Ok (s, w));
  m ← mem_set (memory s) KBSR 0x8000;
  let s := set_memory m s in
  m ← mem_set (memory s) DSR 0x8000;
  Ok (set_memory m s, w).

(** The memory and the window that [devices] leaves, from the value [d] of
    the DDR cell it finds. *)
Definition flushed_memory (d : Z) (m : list Z) : list Z :=
  <[Z.to_nat DSR := 0x8000]>
    (<[Z.to_nat KBSR := 0x8000]>
       (if d =? 0 then m else <[Z.to_nat DDR := 0]> m)).

Definition flushed_window (d : Z) (w : WINDOW) : WINDOW :=
  if d =? 0 then w else wechochar w (Z.land d 0xff).

Definition execute_next (simulator : LC3) (output : WINDOW) : result (LC3 * WINDOW) :=
  '(s, w) ← fetch_execute simulator output;
  devices s w.

(** The index that the instruction in [IR] computes for its access to
    [memory], if it makes one through a computed index: [PC + PCoffset] for
    LD, LDI, ST and STI, base register plus [PCoffset] for LDR and STR.  The
    state is the one the [switch] runs in. *)
Definition computed_index (s : LC3) : option Z :=
  let opcode := opcode_of (IR s) in
  if (opcode =? LD) || (opcode =? LDI) || (opcode =? ST) || (opcode =? STI) then
    Some (PC s + PCoffset9 (IR s))
  else if (opcode =? LDR) || (opcode =? STR) then
    Some (default 0 (registers s !! Z.to_nat (field3 (IR s) 6)) + PCoffset6 (IR s))
  else None.

(** The instruction in [IR] is an LDI through a cell that holds [KBDR]. *)
Definition reads_keyboard (s : LC3) : bool :=
  (opcode_of (IR s) =? LDI)
  && (default 0 (memory s !! Z.to_nat (PC s + PCoffset9 (IR s))) =? KBDR).

Definition completes (s : LC3) (w : WINDOW) : bool :=
  match computed_index s with
  | Some i => is_uint16 i
  | None => true
  end
  && (if reads_keyboard s then negb (bool_decide (typeahead w = [])) else true).

Definition step_completes (s : LC3) (w : WINDOW) : bool :=
  match memory s !! Z.to_nat (PC s) with
  | Some ir => completes (fetched ir s) w
  | None => false
  end.

(** ** The vocabulary of the spec *)

(** Bits [hi:lo] of an instruction. *)
Definition bits (hi lo x : Z) : Z := (x / 2 ^ lo) mod 2 ^ (hi - lo + 1).

(** Sign extension of the low [n] bits of [x], as the spec words it: the
    field read as an [n]-bit two's complement number. *)
Definition sign_extend (n x : Z) : Z :=
  let field := x mod 2 ^ n in
  if field <? 2 ^ (n - 1) then field else field - 2 ^ n.

(** A 16-bit value read as a signed number. *)
Definition signed16 (v : Z) : Z := if v <? 32768 then v else v - 65536.

(** The condition code as the spec words it. *)
Inductive condition : Type := Negative | Zero | Positive.

Definition condition_char (c : condition) : ascii :=
  match c with
  | Negative => "N"%char
  | Zero => "Z"%char
  | Positive => "P"%char
  end.

Definition condition_of (v : Z) : condition :=
  if v =? 0 then Zero else if signed16 v <? 0 then Negative else Positive.

(** ** A concrete machine to run examples on *)

(** [memory] zeroed, then the cells listed; [IR] is 0, [CC] is Zero and the
    machine is running. *)
Definition blank_memory : list Z := replicate (Z.to_nat 65536) 0.

Definition machine (pc : Z) (regs : list Z) (cells : list (Z * Z)) : LC3 :=
  mkLC3 (foldr (fun '(a, v) m => <[Z.to_nat a := v]> m) blank_memory cells)
        regs pc 0 "Z"%char false.

Definition quiet : WINDOW := mkWINDOW 0 [] [].

Definition no_registers : list Z := [0; 0; 0; 0; 0; 0; 0; 0].

(** What a test observes of a step: the registers, [PC], [CC], [isHalted]
    and the calls made on the window, or the fault. *)
Definition observe (r : result (LC3 * WINDOW))
  : result (list Z * Z * ascii * bool * list call) :=
  '(s, w) ← r; Ok (registers s, PC s, CC s, isHalted s, calls w).

(** The memory cell at [a] after a step, if the step returns. *)
Definition peek (r : result (LC3 * WINDOW)) (a : Z) : option Z :=
  match r with
  | Ok (s, _) => memory s !! Z.to_nat a
  | Err _ => None
  end.

(** The truth table of BR: the condition of the source on each of the 8 settings
    of the bits n, z, p (the instruction words 0x0000, 0x0200, ..., 0x0E00)
    and each of the 3 condition codes. *)
Definition br_table : list (list bool) :=
  map (fun nzp => map (fun c => br_taken (nzp * 512) (condition_char c))
                      [Negative; Zero; Positive])
      [0; 1; 2; 3; 4; 5; 6; 7].

(** ** Which instructions touch what *)

(** The cells that [devices] rewrites after every instruction. *)
Definition device_cell (a : Z) : bool := (a =? KBSR) || (a =? DSR) || (a =? DDR).

(** The opcodes whose case of the [switch] stores into [memory]. *)
Definition stores (opcode : Z) : bool := existsb (Z.eqb opcode) [ST; STR; STI].

(** The opcodes whose case of the [switch] assigns [PC]. *)
Definition jumps (opcode : Z) : bool := existsb (Z.eqb opcode) [TRAP; BR; JMP; JSR].

(** The opcodes whose case of the [switch] writes R7. *)
Definition links (opcode : Z) : bool := existsb (Z.eqb opcode) [TRAP; JSR].

(** What a fault of the switch says about the state it ran in. *)
Definition fault_explained (f : fault) (s : LC3) (w : WINDOW) : Prop :=
  match f with
  | MemoryIndexOutOfRange i => computed_index s = Some i /\ ~ (0 <= i < 65536)
  | ReadNeverReturns => reads_keyboard s = true /\ typeahead w = []
  | RegisterIndexOutOfRange _ => False
  end.

(** * Properties *)

(** ** The error monad *)

Lemma bind_Ok {A B} (m : result A) (k : A -> result B) (b : B) :
  (m ≫= k) = Ok b <-> exists a, m = Ok a /\ k a = Ok b.
Proof.
  destruct m as [a|f]; simpl; split.
  - intros H. exists a. split; [reflexivity | exact H].
  - intros (a' & Ha & H). inversion Ha. subst. exact H.
  - discriminate.
  - intros (a' & Ha & _). discriminate.
Qed.

Lemma bind_Err {A B} (m : result A) (k : A -> result B) (f : fault) :
  (m ≫= k) = Err f <-> m = Err f \/ exists a, m = Ok a /\ k a = Err f.
Proof.
  destruct m as [a|g]; simpl; split.
  - intros H. right. exists a. split; [reflexivity | exact H].
  - intros [H | (a' & Ha & H)]; [discriminate | inversion Ha; subst; exact H].
  - intros H. left. congruence.
  - intros [H | (a' & Ha & _)]; [congruence | discriminate].
Qed.

(** ** Arithmetic on 16 bits *)

Lemma is_uint16_u16 x : is_uint16 x = true <-> u16 x.
Proof. unfold is_uint16, u16. rewrite andb_true_iff. lia. Qed.

Lemma uint16_u16 x : u16 (uint16 x).
Proof. unfold u16, uint16. apply Z.mod_pos_bound. lia. Qed.

Lemma int16_range x : -32768 <= int16 x < 32768.
Proof.
  unfold int16. pose proof (Z.mod_pos_bound (x + 32768) 65536). lia.
Qed.

(** On a [uint16_t], [(int16_t)] is the two's complement reading. *)
Lemma int16_of_u16 x :
  u16 x -> int16 x = if x <? 32768 then x else x - 65536.
Proof.
  unfold u16, int16. intros H. destruct (Z.ltb_spec x 32768).
  - rewrite Z.mod_small by lia. lia.
  - replace (x + 32768) with (x - 32768 + 1 * 65536) by lia.
    rewrite Z.mod_add by lia. rewrite Z.mod_small by lia. lia.
Qed.

Lemma land_ones_range x n : 0 <= n -> 0 <= Z.land x (Z.ones n) < 2 ^ n.
Proof.
  intros Hn. rewrite Z.land_ones by exact Hn. apply Z.mod_pos_bound.
  apply Z.pow_pos_nonneg; lia.
Qed.

Lemma field3_range ir k : 0 <= field3 ir k < 8.
Proof. unfold field3. apply (land_ones_range _ 3). lia. Qed.

Lemma land_7_range ir : 0 <= Z.land ir 7 < 8.
Proof. apply (land_ones_range _ 3). lia. Qed.

Lemma land_0xff_range ir : 0 <= Z.land ir 0xff < 256.
Proof. apply (land_ones_range _ 8). lia. Qed.

Lemma PCoffset9_sign_extend ir : PCoffset9 ir = sign_extend 9 ir.
Proof.
  unfold PCoffset9, sign_extend.
  change 0x1ff with (Z.ones 9). rewrite Z.land_ones by lia.
  rewrite Z.shiftl_mul_pow2, Z.shiftr_div_pow2 by lia.
  change (2 ^ 9) with 512. change (2 ^ (9 - 1)) with 256. change (2 ^ 7) with 128.
  pose proof (Z.mod_pos_bound ir 512 ltac:(lia)) as Hf.
  set (f := ir mod 512) in *. clearbody f.
  unfold int16. destruct (Z.ltb_spec f 256).
  - rewrite Z.mod_small by lia.
    replace (f * 128 + 32768 - 32768) with (f * 128) by lia.
    apply Z.div_mul. lia.
  - replace (f * 128 + 32768) with (f * 128 - 32768 + 1 * 65536) by lia.
    rewrite Z.mod_add by lia. rewrite Z.mod_small by lia.
    replace (f * 128 - 32768 - 32768) with ((f - 512) * 128) by lia.
    apply Z.div_mul. lia.
Qed.

Lemma PCoffset11_sign_extend ir : PCoffset11 ir = sign_extend 11 ir.
Proof.
  unfold PCoffset11, sign_extend.
  change 0x7ff with (Z.ones 11). rewrite Z.land_ones by lia.
  rewrite Z.shiftl_mul_pow2, Z.shiftr_div_pow2 by lia.
  change (2 ^ 11) with 2048. change (2 ^ (11 - 1)) with 1024. change (2 ^ 5) with 32.
  pose proof (Z.mod_pos_bound ir 2048 ltac:(lia)) as Hf.
  set (f := ir mod 2048) in *. clearbody f.
  unfold int16. destruct (Z.ltb_spec f 1024).
  - rewrite Z.mod_small by lia.
    replace (f * 32 + 32768 - 32768) with (f * 32) by lia.
    apply Z.div_mul. lia.
  - replace (f * 32 + 32768) with (f * 32 - 32768 + 1 * 65536) by lia.
    rewrite Z.mod_add by lia. rewrite Z.mod_small by lia.
    replace (f * 32 - 32768 - 32768) with ((f - 2048) * 32) by lia.
    apply Z.div_mul. lia.
Qed.

(** The 6-bit offset of LDR and STR is shifted by 9, not 10, so its sign bit
    never reaches bit 15 of the [int16_t]: the field comes back unsigned. *)
Lemma PCoffset6_unsigned ir : PCoffset6 ir = ir mod 64.
Proof.
  unfold PCoffset6.
  change 0x3f with (Z.ones 6). rewrite Z.land_ones by lia.
  rewrite Z.shiftl_mul_pow2, Z.shiftr_div_pow2 by lia.
  change (2 ^ 6) with 64. change (2 ^ 9) with 512.
  pose proof (Z.mod_pos_bound ir 64 ltac:(lia)) as Hf.
  set (f := ir mod 64) in *. clearbody f.
  unfold int16. rewrite Z.mod_small by lia.
  replace (f * 512 + 32768 - 32768) with (f * 512) by lia.
  apply Z.div_mul. lia.
Qed.

Lemma PCoffset9_range ir : -256 <= PCoffset9 ir < 256.
Proof.
  rewrite PCoffset9_sign_extend. unfold sign_extend.
  change (2 ^ 9) with 512. change (2 ^ (9 - 1)) with 256.
  pose proof (Z.mod_pos_bound ir 512 ltac:(lia)).
  destruct (Z.ltb_spec (ir mod 512) 256); lia.
Qed.

Lemma PCoffset6_range ir : 0 <= PCoffset6 ir < 64.
Proof. rewrite PCoffset6_unsigned. apply Z.mod_pos_bound. lia. Qed.

(** ** Arrays *)

Section Arrays.
Variable out : Z -> fault.

Lemma array_get_Ok (a : list Z) i v :
  array_get out a i = Ok v <-> 0 <= i /\ a !! Z.to_nat i = Some v.
Proof.
  unfold array_get. destruct (Z.leb_spec 0 i) as [Hi|Hi].
  - destruct (a !! Z.to_nat i) as [v'|]; split.
    + intros [= ->]. split; [exact Hi | reflexivity].
    + intros [_ [= ->]]. reflexivity.
    + discriminate.
    + intros [_ H]. discriminate.
  - split; [discriminate | lia].
Qed.

Lemma array_get_in_range (a : list Z) i :
  0 <= i < Z.of_nat (length a) ->
  exists v, array_get out a i = Ok v /\ a !! Z.to_nat i = Some v.
Proof.
  intros Hi. destruct (lookup_lt_is_Some_2 a (Z.to_nat i)) as [v Hv]; [lia|].
  exists v. split; [|exact Hv]. apply array_get_Ok. split; [lia | exact Hv].
Qed.

Lemma array_get_Err (a : list Z) i f :
  array_get out a i = Err f ->
  f = out i /\ ~ (0 <= i < Z.of_nat (length a)).
Proof.
  unfold array_get. destruct (Z.leb_spec 0 i) as [Hi|Hi].
  - destruct (a !! Z.to_nat i) as [v'|] eqn:E; [discriminate|].
    intros [= <-]. split; [reflexivity|].
    apply lookup_ge_None_1 in E. lia.
  - intros [= <-]. split; [reflexivity | lia].
Qed.

Lemma array_set_Ok (a : list Z) i v a' :
  array_set out a i v = Ok a' <->
  (0 <= i < Z.of_nat (length a)) /\ a' = <[Z.to_nat i := v]> a.
Proof.
  unfold array_set.
  destruct ((0 <=? i) && (i <? Z.of_nat (length a))) eqn:E.
  - apply andb_true_iff in E as [E1 E2]. split.
    + intros [= <-]. split; [lia | reflexivity].
    + intros [_ ->]. reflexivity.
  - apply andb_false_iff in E. split; [discriminate|].
    intros [Hi _]. destruct E as [E|E]; lia.
Qed.

Lemma array_set_in_range (a : list Z) i v :
  0 <= i < Z.of_nat (length a) ->
  array_set out a i v = Ok (<[Z.to_nat i := v]> a).
Proof. intros Hi. apply array_set_Ok. split; [exact Hi | reflexivity]. Qed.

Lemma array_set_Err (a : list Z) i v f :
  array_set out a i v = Err f ->
  f = out i /\ ~ (0 <= i < Z.of_nat (length a)).
Proof.
  unfold array_set.
  destruct (Z.leb_spec 0 i), (Z.ltb_spec i (Z.of_nat (length a))); simpl;
    try discriminate; intros [= <-]; (split; [reflexivity | lia]).
Qed.
End Arrays.

(** Reading back the cell just written, and any other cell. *)
Lemma lookup_insert_Z (a : list Z) i j v :
  0 <= i < Z.of_nat (length a) -> 0 <= j ->
  <[Z.to_nat i := v]> a !! Z.to_nat j =
  if i =? j then Some v else a !! Z.to_nat j.
Proof.
  intros Hi Hj. destruct (Z.eqb_spec i j) as [->|Hne].
  - apply list_lookup_insert_eq. lia.
  - apply list_lookup_insert_ne. lia.
Qed.

(** ** Well-formed states *)

Lemma forallb_is_uint16 (l : list Z) : forallb is_uint16 l = true <-> Forall u16 l.
Proof.
  rewrite forallb_forall, Forall_forall. split; intros H x Hx.
  - apply is_uint16_u16, H, list_elem_of_In, Hx.
  - apply is_uint16_u16, H, list_elem_of_In, Hx.
Qed.

Lemma well_formed_wf s : well_formed s = true <-> wf s.
Proof.
  unfold well_formed. rewrite !andb_true_iff, !Z.eqb_eq, !forallb_is_uint16, !is_uint16_u16.
  split.
  - intros (((((? & ?) & ?) & ?) & ?) & ?). constructor; assumption.
  - intros [? ? ? ? ? ?]. tauto.
Qed.

Lemma Forall_u16_insert (a : list Z) n v : Forall u16 a -> u16 v -> Forall u16 (<[n := v]> a).
Proof. intros Ha Hv. apply Forall_insert; assumption. Qed.

Lemma Forall_u16_lookup (a : list Z) n v : Forall u16 a -> a !! n = Some v -> u16 v.
Proof. intros Ha Hv. exact (Forall_lookup_1 _ _ _ _ Ha Hv). Qed.

Lemma wf_mem_get s i :
  wf s -> u16 i -> exists v, mem_get (memory s) i = Ok v /\ memory s !! Z.to_nat i = Some v /\ u16 v.
Proof.
  intros Hwf Hi. destruct (array_get_in_range MemoryIndexOutOfRange (memory s) i) as (v & Hv & Hl).
  - rewrite (wf_memory_length s Hwf). exact Hi.
  - exists v. split; [exact Hv|]. split; [exact Hl|].
    exact (Forall_u16_lookup _ _ _ (wf_memory s Hwf) Hl).
Qed.

Lemma wf_reg_get s i :
  wf s -> 0 <= i < 8 -> exists v, reg_get (registers s) i = Ok v /\ registers s !! Z.to_nat i = Some v /\ u16 v.
Proof.
  intros Hwf Hi. destruct (array_get_in_range RegisterIndexOutOfRange (registers s) i) as (v & Hv & Hl).
  - rewrite (wf_registers_length s Hwf). exact Hi.
  - exists v. split; [exact Hv|]. split; [exact Hl|].
    exact (Forall_u16_lookup _ _ _ (wf_registers s Hwf) Hl).
Qed.

Lemma wf_set_memory s n v :
  wf s -> u16 v -> wf (set_memory (<[n := v]> (memory s)) s).
Proof.
  intros [] Hv. constructor; simpl; try assumption.
  - rewrite length_insert. assumption.
  - apply Forall_u16_insert; assumption.
Qed.

Lemma wf_set_registers s n v :
  wf s -> u16 v -> wf (set_registers (<[n := v]> (registers s)) s).
Proof.
  intros [] Hv. constructor; simpl; try assumption.
  - rewrite length_insert. assumption.
  - apply Forall_u16_insert; assumption.
Qed.

Lemma wf_set_PC s v : wf s -> u16 v -> wf (set_PC v s).
Proof. intros [] Hv. constructor; simpl; assumption. Qed.

Lemma wf_set_IR s v : wf s -> u16 v -> wf (set_IR v s).
Proof. intros [] Hv. constructor; simpl; assumption. Qed.

Lemma wf_set_CC s c : wf s -> wf (set_CC c s).
Proof. intros []. constructor; simpl; assumption. Qed.

Lemma wf_set_isHalted s b : wf s -> wf (set_isHalted b s).
Proof. intros []. constructor; simpl; assumption. Qed.

(** ** What each instruction does when it completes *)

Lemma write_DR_inv dr v s s' :
  write_DR dr v s = Ok s' ->
  0 <= dr < Z.of_nat (length (registers s)) /\
  s' = set_CC (setcc v) (set_registers (<[Z.to_nat dr := v]> (registers s)) s).
Proof.
  unfold write_DR. intros H.
  apply bind_Ok in H as (regs & Hset & H).
  apply bind_Ok in H as (last & Hget & H).
  apply array_set_Ok in Hset as [Hdr ->].
  apply array_get_Ok in Hget as [_ Hget]. simpl in Hget.
  rewrite list_lookup_insert_eq in Hget by lia.
  injection Hget as <-. injection H as <-. split; [exact Hdr | reflexivity].
Qed.

Lemma write_DR_Ok dr v s :
  0 <= dr < Z.of_nat (length (registers s)) ->
  write_DR dr v s =
  Ok (set_CC (setcc v) (set_registers (<[Z.to_nat dr := v]> (registers s)) s)).
Proof.
  intros Hdr. unfold write_DR, reg_set, reg_get.
  rewrite array_set_in_range by exact Hdr. simpl.
  destruct (array_get_in_range RegisterIndexOutOfRange
              (<[Z.to_nat dr := v]> (registers s)) dr) as (x & -> & Hx).
  - rewrite length_insert. exact Hdr.
  - rewrite list_lookup_insert_eq in Hx by lia. injection Hx as <-. reflexivity.
Qed.

Lemma do_TRAP_inv s s' :
  do_TRAP s = Ok s' ->
  exists v, memory s !! Z.to_nat (Z.land (IR s) 0xff) = Some v /\
    s' = set_PC v (set_registers (<[7%nat := PC s]> (registers s)) s).
Proof.
  unfold do_TRAP. intros H.
  apply bind_Ok in H as (regs & Hset & H).
  apply bind_Ok in H as (v & Hget & H).
  apply array_set_Ok in Hset as [_ ->].
  apply array_get_Ok in Hget as [_ Hget]. simpl in Hget.
  injection H as <-. exists v. split; [exact Hget | reflexivity].
Qed.

Lemma do_LEA_inv s s' :
  do_LEA s = Ok s' ->
  s' = set_CC (setcc (uint16 (PC s + PCoffset9 (IR s))))
         (set_registers (<[Z.to_nat (field3 (IR s) 9) := uint16 (PC s + PCoffset9 (IR s))]>
                           (registers s)) s).
Proof. unfold do_LEA. intros H. apply write_DR_inv in H as [_ ->]. reflexivity. Qed.

Lemma do_LDI_inv s w s' w' :
  do_LDI s w = Ok (s', w') ->
  exists a v,
    0 <= PC s + PCoffset9 (IR s) /\
    memory s !! Z.to_nat (PC s + PCoffset9 (IR s)) = Some a /\
    s' = set_CC (setcc v)
           (set_registers (<[Z.to_nat (field3 (IR s) 9) := v]> (registers s)) s) /\
    if a =? KBDR then
      exists k rest,
        typeahead w = k :: rest /\ v = uint16 k /\
        w' = mkWINDOW 0 rest (calls w ++ [Wtimeout (-1); Wgetch k; Wtimeout 0])
    else
      memory s !! Z.to_nat a = Some v /\ 0 <= a /\ w' = w.
Proof.
  unfold do_LDI. intros H.
  apply bind_Ok in H as (a & Hget & H).
  apply array_get_Ok in Hget as [Hp Hget].
  destruct (a =? KBDR) eqn:Ea.
  - apply bind_Ok in H as ([k w1] & Hk & H).
    apply bind_Ok in H as (regs & Hset & H).
    apply bind_Ok in H as (last & Hlast & H).
    apply array_set_Ok in Hset as [Hdr ->].
    apply array_get_Ok in Hlast as [_ Hlast]. simpl in Hlast.
    rewrite list_lookup_insert_eq in Hlast by lia. injection Hlast as <-.
    injection H as <- <-.
    exists a, (uint16 k). rewrite Ea. repeat split; try assumption.
    unfold wgetch in Hk. simpl in Hk.
    destruct (typeahead w) as [|k' rest] eqn:Et; [discriminate|].
    injection Hk as <- <-. exists k', rest. repeat split.
    unfold wtimeout. simpl. rewrite <- !app_assoc. reflexivity.
  - apply bind_Ok in H as (v & Hv & H).
    apply bind_Ok in H as (s1 & Hw & H).
    apply array_get_Ok in Hv as [Ha Hv].
    apply write_DR_inv in Hw as [_ ->]. injection H as <- <-.
    exists a, v. rewrite Ea. repeat split; assumption.
Qed.

Lemma do_NOT_inv s s' :
  do_NOT s = Ok s' ->
  exists SR1, registers s !! Z.to_nat (field3 (IR s) 6) = Some SR1 /\
    s' = set_CC (setcc (uint16 (Z.lnot SR1)))
           (set_registers (<[Z.to_nat (field3 (IR s) 9) := uint16 (Z.lnot SR1)]>
                             (registers s)) s).
Proof.
  unfold do_NOT. intros H.
  apply bind_Ok in H as (SR1 & Hget & H).
  apply array_get_Ok in Hget as [_ Hget].
  apply write_DR_inv in H as [_ ->]. exists SR1. split; [exact Hget | reflexivity].
Qed.

Lemma do_LD_inv s s' :
  do_LD s = Ok s' ->
  exists v,
    0 <= PC s + PCoffset9 (IR s) /\
    memory s !! Z.to_nat (PC s + PCoffset9 (IR s)) = Some v /\
    s' = set_CC (setcc v)
           (set_registers (<[Z.to_nat (field3 (IR s) 9) := v]> (registers s)) s).
Proof.
  unfold do_LD. intros H.
  apply bind_Ok in H as (v & Hget & H).
  apply array_get_Ok in Hget as [Hp Hget].
  apply write_DR_inv in H as [_ ->]. exists v. repeat split; assumption.
Qed.

Lemma do_ADD_AND_inv opcode s s' :
  do_ADD_AND opcode s = Ok s' ->
  exists SR1 SR2,
    registers s !! Z.to_nat (field3 (IR s) 6) = Some SR1 /\
    operand2 s = Ok SR2 /\
    let v := uint16 (if opcode =? ADD then SR1 + SR2 else Z.land SR1 SR2) in
    s' = set_CC (setcc v)
           (set_registers (<[Z.to_nat (field3 (IR s) 9) := v]> (registers s)) s).
Proof.
  unfold do_ADD_AND. intros H.
  apply bind_Ok in H as (SR1 & Hget & H).
  apply bind_Ok in H as (SR2 & Hop & H).
  apply array_get_Ok in Hget as [_ Hget].
  apply write_DR_inv in H as [_ ->].
  exists SR1, SR2. repeat split; assumption.
Qed.

Lemma do_BR_inv s s' :
  do_BR s = Ok s' ->
  s' = if br_taken (IR s) (CC s) then set_PC (uint16 (PC s + PCoffset9 (IR s))) s else s.
Proof. unfold do_BR. destruct (br_taken _ _); intros [= <-]; reflexivity. Qed.

Lemma do_LDR_inv s s' :
  do_LDR s = Ok s' ->
  exists SR1 v,
    registers s !! Z.to_nat (field3 (IR s) 6) = Some SR1 /\
    0 <= SR1 + PCoffset6 (IR s) /\
    memory s !! Z.to_nat (SR1 + PCoffset6 (IR s)) = Some v /\
    s' = set_CC (setcc v)
           (set_registers (<[Z.to_nat (field3 (IR s) 9) := v]> (registers s)) s).
Proof.
  unfold do_LDR. intros H.
  apply bind_Ok in H as (SR1 & Hget & H).
  apply bind_Ok in H as (v & Hv & H).
  apply array_get_Ok in Hget as [_ Hget].
  apply array_get_Ok in Hv as [Hp Hv].
  apply write_DR_inv in H as [_ ->]. exists SR1, v. repeat split; assumption.
Qed.

Lemma do_ST_inv s s' :
  do_ST s = Ok s' ->
  exists SR1,
    registers s !! Z.to_nat (field3 (IR s) 9) = Some SR1 /\
    0 <= PC s + PCoffset9 (IR s) < Z.of_nat (length (memory s)) /\
    s' = set_memory (<[Z.to_nat (PC s + PCoffset9 (IR s)) := SR1]> (memory s)) s.
Proof.
  unfold do_ST. intros H.
  apply bind_Ok in H as (SR1 & Hget & H).
  apply bind_Ok in H as (m & Hset & H).
  apply array_get_Ok in Hget as [_ Hget].
  apply array_set_Ok in Hset as [Hp ->]. injection H as <-.
  exists SR1. repeat split; solve [assumption | lia].
Qed.

Lemma do_STR_inv s s' :
  do_STR s = Ok s' ->
  exists SR1 SR2,
    registers s !! Z.to_nat (field3 (IR s) 9) = Some SR1 /\
    registers s !! Z.to_nat (field3 (IR s) 6) = Some SR2 /\
    0 <= SR2 + PCoffset6 (IR s) < Z.of_nat (length (memory s)) /\
    s' = set_memory (<[Z.to_nat (SR2 + PCoffset6 (IR s)) := SR1]> (memory s)) s.
Proof.
  unfold do_STR. intros H.
  apply bind_Ok in H as (SR1 & Hget & H).
  apply bind_Ok in H as (SR2 & Hget2 & H).
  apply bind_Ok in H as (m & Hset & H).
  apply array_get_Ok in Hget as [_ Hget].
  apply array_get_Ok in Hget2 as [_ Hget2].
  apply array_set_Ok in Hset as [Hp ->]. injection H as <-.
  exists SR1, SR2. repeat split; solve [assumption | lia].
Qed.

(** STI stores through the pointer cell [memory[PC + PCoffset]] and then
    reads the pointer cell again for the comparison with [MCR]: [b] is what
    it holds after the store. *)
Lemma do_STI_inv s s' :
  do_STI s = Ok s' ->
  exists SR1 a b,
    registers s !! Z.to_nat (field3 (IR s) 9) = Some SR1 /\
    0 <= PC s + PCoffset9 (IR s) /\
    memory s !! Z.to_nat (PC s + PCoffset9 (IR s)) = Some a /\
    0 <= a < Z.of_nat (length (memory s)) /\
    b = (if a =? PC s + PCoffset9 (IR s) then SR1 else a) /\
    s' = set_isHalted (isHalted s || (b =? MCR))
           (set_memory (<[Z.to_nat a := SR1]> (memory s)) s).
Proof.
  unfold do_STI. intros H.
  apply bind_Ok in H as (SR1 & Hget & H).
  apply bind_Ok in H as (a & Ha & H).
  apply bind_Ok in H as (m & Hset & H).
  apply bind_Ok in H as (b & Hb & H).
  apply array_get_Ok in Hget as [_ Hget].
  apply array_get_Ok in Ha as [Hp Ha].
  apply array_set_Ok in Hset as [Hin ->].
  apply array_get_Ok in Hb as [_ Hb]. simpl in Hb.
  rewrite lookup_insert_Z in Hb by assumption.
  exists SR1, a, b. repeat split; try solve [assumption | lia].
  - destruct (a =? PC s + PCoffset9 (IR s)); congruence.
  - destruct (b =? MCR); injection H as <-; destruct s as [? ? ? ? ? []]; reflexivity.
Qed.

Lemma do_JMP_inv s s' :
  do_JMP s = Ok s' ->
  exists SR1, registers s !! Z.to_nat (field3 (IR s) 6) = Some SR1 /\ s' = set_PC SR1 s.
Proof.
  unfold do_JMP. intros H.
  apply bind_Ok in H as (SR1 & Hget & H).
  apply array_get_Ok in Hget as [_ Hget]. injection H as <-.
  exists SR1. split; [exact Hget | reflexivity].
Qed.

(** JSR saves the return address in R7 before it reads the base register:
    with R7 as the base, the jump goes to the return address. *)
Lemma do_JSR_inv s s' :
  do_JSR s = Ok s' ->
  let regs := <[7%nat := PC s]> (registers s) in
  exists target,
    (if Z.land (IR s) 0x800 =? 0x800
     then target = uint16 (PC s + int16 (PCoffset11 (IR s)))
     else regs !! Z.to_nat (field3 (IR s) 6) = Some target) /\
    s' = set_PC target (set_registers regs s).
Proof.
  unfold do_JSR. intros H.
  apply bind_Ok in H as (regs & Hset & H).
  apply array_set_Ok in Hset as [_ ->]. simpl in *.
  destruct (Z.land (IR s) 0x800 =? 0x800).
  - injection H as <-. eexists. split; reflexivity.
  - apply bind_Ok in H as (SR1 & Hget & H).
    apply array_get_Ok in Hget as [_ Hget]. injection H as <-.
    exists SR1. split; [exact Hget | reflexivity].
Qed.

(** ** The switch *)

(** Closes the case of [dispatch_elim] for an instruction that leaves the
    window alone, from the hypothesis [H] for that instruction. *)
Ltac one_case H :=
  let s1 := fresh "s1" in
  let Hs1 := fresh "Hs1" in
  let E := fresh "E" in
  intros E; apply bind_Ok in E as (s1 & Hs1 & E); injection E as <- <-;
  apply H; exact Hs1.

(** Case analysis on a completed [dispatch]: one case for each case of the
    [switch] and one for its [default]. *)
Lemma dispatch_elim (P : Z -> LC3 -> WINDOW -> LC3 -> WINDOW -> Prop) :
  (forall s w s', do_TRAP s = Ok s' -> P TRAP s w s' w) ->
  (forall s w s', do_LEA s = Ok s' -> P LEA s w s' w) ->
  (forall s w s' w', do_LDI s w = Ok (s', w') -> P LDI s w s' w') ->
  (forall s w s', do_NOT s = Ok s' -> P NOT s w s' w) ->
  (forall s w s', do_LD s = Ok s' -> P LD s w s' w) ->
  (forall s w s', do_ADD_AND ADD s = Ok s' -> P ADD s w s' w) ->
  (forall s w s', do_ADD_AND AND s = Ok s' -> P AND s w s' w) ->
  (forall s w s', do_BR s = Ok s' -> P BR s w s' w) ->
  (forall s w s', do_LDR s = Ok s' -> P LDR s w s' w) ->
  (forall s w s', do_ST s = Ok s' -> P ST s w s' w) ->
  (forall s w s', do_STR s = Ok s' -> P STR s w s' w) ->
  (forall s w s', do_STI s = Ok s' -> P STI s w s' w) ->
  (forall s w s', do_JMP s = Ok s' -> P JMP s w s' w) ->
  (forall s w s', do_JSR s = Ok s' -> P JSR s w s' w) ->
  (forall opcode s w, implemented opcode = false -> P opcode s w s w) ->
  forall opcode s w s' w', dispatch opcode s w = Ok (s', w') -> P opcode s w s' w'.
Proof.
  intros HTRAP HLEA HLDI HNOT HLD HADD HAND HBR HLDR HST HSTR HSTI HJMP HJSR Hdefault
         opcode s w s' w'.
  unfold dispatch.
  destruct (Z.eqb_spec opcode TRAP) as [->|?]; [one_case HTRAP|].
  destruct (Z.eqb_spec opcode LEA) as [->|?]; [one_case HLEA|].
  destruct (Z.eqb_spec opcode LDI) as [->|?]; [apply HLDI|].
  destruct (Z.eqb_spec opcode NOT) as [->|?]; [one_case HNOT|].
  destruct (Z.eqb_spec opcode LD) as [->|?]; [one_case HLD|].
  destruct (Z.eqb_spec opcode ADD) as [->|?]; [one_case HADD|].
  destruct (Z.eqb_spec opcode AND) as [->|?]; [one_case HAND|].
  destruct (Z.eqb_spec opcode BR) as [->|?]; [one_case HBR|].
  destruct (Z.eqb_spec opcode LDR) as [->|?]; [one_case HLDR|].
  destruct (Z.eqb_spec opcode ST) as [->|?]; [one_case HST|].
  destruct (Z.eqb_spec opcode STR) as [->|?]; [one_case HSTR|].
  destruct (Z.eqb_spec opcode STI) as [->|?]; [one_case HSTI|].
  destruct (Z.eqb_spec opcode JMP) as [->|?]; [one_case HJMP|].
  destruct (Z.eqb_spec opcode JSR) as [->|?]; [one_case HJSR|].
  simpl. intros [= <- <-]. apply Hdefault.
  unfold implemented. simpl.
  repeat (rewrite (proj2 (Z.eqb_neq _ _)) by assumption). reflexivity.
Qed.

(** ** The display and the status cells *)

Lemma devices_inv s w s' w' :
  devices s w = Ok (s', w') ->
  exists d, memory s !! Z.to_nat DDR = Some d /\
    s' = set_memory (flushed_memory d (memory s)) s /\
    w' = flushed_window d w.
Proof.
  unfold devices, flushed_memory, flushed_window. intros H.
  apply bind_Ok in H as (d & Hd & H).
  apply bind_Ok in H as ([s1 w1] & Hflush & H).
  apply bind_Ok in H as (m1 & Hm1 & H).
  apply bind_Ok in H as (m2 & Hm2 & H).
  apply array_get_Ok in Hd as [_ Hd].
  apply array_set_Ok in Hm1 as [_ ->].
  apply array_set_Ok in Hm2 as [_ ->].
  injection H as <- <-. exists d. split; [exact Hd|].
  destruct (d =? 0); simpl in Hflush.
  - injection Hflush as <- <-. split; reflexivity.
  - apply bind_Ok in Hflush as (ch & Hch & Hflush).
    apply bind_Ok in Hflush as (m0 & Hm0 & Hflush).
    apply array_get_Ok in Hch as [_ Hch].
    apply array_set_Ok in Hm0 as [_ ->].
    change (Z.to_nat 0xFE06) with (Z.to_nat DDR) in Hch.
    rewrite Hd in Hch. injection Hch as <-.
    injection Hflush as <- <-. split; reflexivity.
Qed.

Lemma devices_Ok s w :
  Z.of_nat (length (memory s)) = 65536 ->
  exists d, memory s !! Z.to_nat DDR = Some d /\
    devices s w = Ok (set_memory (flushed_memory d (memory s)) s, flushed_window d w).
Proof.
  intros Hlen.
  destruct (array_get_in_range MemoryIndexOutOfRange (memory s) DDR) as (d & Hd & Hl).
  { rewrite Hlen. unfold DDR. lia. }
  exists d. split; [exact Hl|].
  unfold devices, flushed_memory, flushed_window, mem_get, mem_set.
  rewrite Hd. simpl. destruct (d =? 0); simpl.
  - rewrite array_set_in_range by (rewrite Hlen; unfold KBSR; lia). simpl.
    rewrite array_set_in_range by (rewrite length_insert, Hlen; unfold DSR; lia).
    reflexivity.
  - change 0xFE06 with DDR. rewrite Hd. simpl.
    rewrite array_set_in_range by (rewrite Hlen; unfold DDR; lia). simpl.
    rewrite array_set_in_range by (rewrite length_insert, Hlen; unfold KBSR; lia). simpl.
    rewrite array_set_in_range by (rewrite !length_insert, Hlen; unfold DSR; lia).
    reflexivity.
Qed.

Lemma flushed_memory_status d (m : list Z) :
  Z.of_nat (length m) = 65536 ->
  flushed_memory d m !! Z.to_nat KBSR = Some 0x8000 /\
  flushed_memory d m !! Z.to_nat DSR = Some 0x8000.
Proof.
  intros Hlen. unfold flushed_memory. split.
  - rewrite list_lookup_insert_ne by (unfold DSR, KBSR; lia).
    apply list_lookup_insert_eq.
    destruct (d =? 0); rewrite ?length_insert; unfold KBSR; lia.
  - apply list_lookup_insert_eq. rewrite length_insert.
    destruct (d =? 0); rewrite ?length_insert; unfold DSR; lia.
Qed.

Lemma flushed_memory_DDR d (m : list Z) :
  Z.of_nat (length m) = 65536 ->
  m !! Z.to_nat DDR = Some d ->
  flushed_memory d m !! Z.to_nat DDR = Some 0.
Proof.
  intros Hlen Hd. unfold flushed_memory.
  rewrite !list_lookup_insert_ne by (unfold DSR, KBSR, DDR; lia).
  destruct (Z.eqb_spec d 0) as [->|_]; [exact Hd|].
  apply list_lookup_insert_eq. unfold DDR. lia.
Qed.

Lemma flushed_memory_other d (m : list Z) (a : Z) :
  0 <= a -> a <> KBSR -> a <> DSR -> a <> DDR ->
  flushed_memory d m !! Z.to_nat a = m !! Z.to_nat a.
Proof.
  intros Ha H1 H2 H3. unfold flushed_memory.
  rewrite !list_lookup_insert_ne by (unfold DSR, KBSR in *; lia).
  destruct (d =? 0); [reflexivity|].
  apply list_lookup_insert_ne. unfold DDR in *. lia.
Qed.

(** ** The whole step *)

Lemma fetch_execute_inv s w s1 w1 :
  fetch_execute s w = Ok (s1, w1) ->
  exists ir, 0 <= PC s /\ memory s !! Z.to_nat (PC s) = Some ir /\
    dispatch (opcode_of ir) (fetched ir s) w = Ok (s1, w1).
Proof.
  unfold fetch_execute. intros H.
  apply bind_Ok in H as (ir & Hir & H).
  apply array_get_Ok in Hir as [Hpc Hir].
  exists ir. repeat split; assumption.
Qed.

Lemma fetch_execute_Ok s w ir :
  0 <= PC s -> memory s !! Z.to_nat (PC s) = Some ir ->
  fetch_execute s w = dispatch (opcode_of ir) (fetched ir s) w.
Proof.
  intros Hpc Hir. unfold fetch_execute, mem_get.
  rewrite (proj2 (array_get_Ok _ _ _ _) (conj Hpc Hir)). reflexivity.
Qed.

Lemma execute_next_inv s w s' w' :
  execute_next s w = Ok (s', w') ->
  exists ir s1 w1,
    0 <= PC s /\ memory s !! Z.to_nat (PC s) = Some ir /\
    dispatch (opcode_of ir) (fetched ir s) w = Ok (s1, w1) /\
    devices s1 w1 = Ok (s', w').
Proof.
  unfold execute_next. intros H.
  apply bind_Ok in H as ([s1 w1] & Hfe & H).
  apply fetch_execute_inv in Hfe as (ir & Hpc & Hir & Hd).
  exists ir, s1, w1. repeat split; assumption.
Qed.

Lemma wf_fetched s ir :
  wf s -> memory s !! Z.to_nat (PC s) = Some ir -> wf (fetched ir s).
Proof.
  intros Hwf Hir. unfold fetched. apply wf_set_IR.
  - apply wf_set_PC; [exact Hwf | apply uint16_u16].
  - exact (Forall_u16_lookup _ _ _ (wf_memory s Hwf) Hir).
Qed.

(** ** Well-formedness is an invariant of the step *)

Lemma wf_written s dr v :
  wf s -> u16 v ->
  wf (set_CC (setcc v) (set_registers (<[Z.to_nat dr := v]> (registers s)) s)).
Proof. intros Hwf Hv. apply wf_set_CC, wf_set_registers; assumption. Qed.

Lemma wf_dispatch opcode s w s' w' :
  wf s -> dispatch opcode s w = Ok (s', w') -> wf s'.
Proof.
  intros Hwf H. revert Hwf. revert opcode s w s' w' H.
  apply (dispatch_elim (fun _ s _ s' _ => wf s -> wf s')); intros s w s'.
  - intros H Hwf. apply do_TRAP_inv in H as (v & Hv & ->).
    apply wf_set_PC.
    + apply wf_set_registers; [exact Hwf | exact (wf_PC s Hwf)].
    + exact (Forall_u16_lookup _ _ _ (wf_memory s Hwf) Hv).
  - intros H Hwf. apply do_LEA_inv in H as ->.
    apply wf_written; [exact Hwf | apply uint16_u16].
  - intros w' H Hwf. apply do_LDI_inv in H as (a & v & _ & Ha & -> & Hcase).
    apply wf_written; [exact Hwf|].
    destruct (a =? KBDR).
    + destruct Hcase as (k & rest & _ & -> & _). apply uint16_u16.
    + destruct Hcase as (Hv & _ & _).
      exact (Forall_u16_lookup _ _ _ (wf_memory s Hwf) Hv).
  - intros H Hwf. apply do_NOT_inv in H as (SR1 & _ & ->).
    apply wf_written; [exact Hwf | apply uint16_u16].
  - intros H Hwf. apply do_LD_inv in H as (v & _ & Hv & ->).
    apply wf_written; [exact Hwf|].
    exact (Forall_u16_lookup _ _ _ (wf_memory s Hwf) Hv).
  - intros H Hwf. apply do_ADD_AND_inv in H as (SR1 & SR2 & _ & _ & ->).
    apply wf_written; [exact Hwf | apply uint16_u16].
  - intros H Hwf. apply do_ADD_AND_inv in H as (SR1 & SR2 & _ & _ & ->).
    apply wf_written; [exact Hwf | apply uint16_u16].
  - intros H Hwf. apply do_BR_inv in H as ->.
    destruct (br_taken _ _); [|exact Hwf].
    apply wf_set_PC; [exact Hwf | apply uint16_u16].
  - intros H Hwf. apply do_LDR_inv in H as (SR1 & v & _ & _ & Hv & ->).
    apply wf_written; [exact Hwf|].
    exact (Forall_u16_lookup _ _ _ (wf_memory s Hwf) Hv).
  - intros H Hwf. apply do_ST_inv in H as (SR1 & HSR1 & _ & ->).
    apply wf_set_memory; [exact Hwf|].
    exact (Forall_u16_lookup _ _ _ (wf_registers s Hwf) HSR1).
  - intros H Hwf. apply do_STR_inv in H as (SR1 & SR2 & HSR1 & _ & _ & ->).
    apply wf_set_memory; [exact Hwf|].
    exact (Forall_u16_lookup _ _ _ (wf_registers s Hwf) HSR1).
  - intros H Hwf. apply do_STI_inv in H as (SR1 & a & b & HSR1 & _ & _ & _ & _ & ->).
    apply wf_set_isHalted, wf_set_memory; [exact Hwf|].
    exact (Forall_u16_lookup _ _ _ (wf_registers s Hwf) HSR1).
  - intros H Hwf. apply do_JMP_inv in H as (SR1 & HSR1 & ->).
    apply wf_set_PC; [exact Hwf|].
    exact (Forall_u16_lookup _ _ _ (wf_registers s Hwf) HSR1).
  - intros H Hwf. apply do_JSR_inv in H as (target & Htarget & ->).
    assert (Hregs : wf (set_registers (<[7%nat := PC s]> (registers s)) s))
      by (apply wf_set_registers; [exact Hwf | exact (wf_PC s Hwf)]).
    apply wf_set_PC; [exact Hregs|].
    destruct (Z.land (IR s) 0x800 =? 0x800).
    + subst target. apply uint16_u16.
    + exact (Forall_u16_lookup _ _ _ (wf_registers _ Hregs) Htarget).
  - intros _ Hwf. exact Hwf.
Qed.

Lemma wf_devices s w s' w' : wf s -> devices s w = Ok (s', w') -> wf s'.
Proof.
  intros Hwf H. apply devices_inv in H as (d & Hd & -> & _).
  unfold flushed_memory. destruct Hwf. constructor; simpl; try assumption.
  - rewrite !length_insert. destruct (d =? 0); rewrite ?length_insert; assumption.
  - repeat apply Forall_u16_insert; try (unfold u16; lia).
    destruct (d =? 0); [assumption|].
    apply Forall_u16_insert; [assumption | unfold u16; lia].
Qed.

(** A step takes a well-formed state to a well-formed state. *)
Lemma wf_execute_next s w s' w' :
  wf s -> execute_next s w = Ok (s', w') -> wf s'.
Proof.
  intros Hwf H.
  apply execute_next_inv in H as (ir & s1 & w1 & _ & Hir & Hd & Hdev).
  apply (wf_devices s1 w1 s' w'); [|exact Hdev].
  apply (wf_dispatch _ _ _ _ _ (wf_fetched s ir Hwf Hir) Hd).
Qed.

(** ** When the step completes *)

Lemma bind_Ok_l {A B} (m : result A) (k : A -> result B) a :
  m = Ok a -> (m ≫= k) = k a.
Proof. intros ->. reflexivity. Qed.

Lemma wf_reg_field s k :
  wf s -> exists v, reg_get (registers s) (field3 (IR s) k) = Ok v /\
                    registers s !! Z.to_nat (field3 (IR s) k) = Some v /\ u16 v.
Proof. intros Hwf. apply wf_reg_get; [exact Hwf | apply field3_range]. Qed.

Lemma wf_write_DR s k v :
  wf s ->
  write_DR (field3 (IR s) k) v s =
  Ok (set_CC (setcc v)
        (set_registers (<[Z.to_nat (field3 (IR s) k) := v]> (registers s)) s)).
Proof.
  intros Hwf. apply write_DR_Ok.
  rewrite (wf_registers_length s Hwf). apply field3_range.
Qed.

Lemma wf_save_R7 s :
  wf s -> reg_set (registers s) 7 (PC s) = Ok (<[7%nat := PC s]> (registers s)).
Proof.
  intros Hwf. unfold reg_set. rewrite array_set_in_range; [reflexivity|].
  rewrite (wf_registers_length s Hwf). lia.
Qed.

Lemma do_TRAP_Ok s : wf s -> exists s', do_TRAP s = Ok s'.
Proof.
  intros Hwf. unfold do_TRAP. rewrite (bind_Ok_l _ _ _ (wf_save_R7 s Hwf)). simpl.
  destruct (wf_mem_get s (Z.land (IR s) 0xff) Hwf) as (v & Hv & _).
  { pose proof (land_0xff_range (IR s)). unfold u16. lia. }
  rewrite (bind_Ok_l _ _ _ Hv). eexists. reflexivity.
Qed.

Lemma do_LEA_Ok s : wf s -> exists s', do_LEA s = Ok s'.
Proof. intros Hwf. unfold do_LEA. rewrite wf_write_DR by exact Hwf. eexists. reflexivity. Qed.

Lemma do_NOT_Ok s : wf s -> exists s', do_NOT s = Ok s'.
Proof.
  intros Hwf. unfold do_NOT.
  destruct (wf_reg_field s 6 Hwf) as (SR1 & H1 & _). rewrite (bind_Ok_l _ _ _ H1).
  rewrite wf_write_DR by exact Hwf. eexists. reflexivity.
Qed.

Lemma operand2_Ok s : wf s -> exists SR2, operand2 s = Ok SR2.
Proof.
  intros Hwf. unfold operand2. destruct (negb _).
  - eexists. reflexivity.
  - destruct (wf_reg_get s (Z.land (IR s) 7) Hwf (land_7_range _)) as (v & Hv & _).
    exists v. exact Hv.
Qed.

Lemma do_ADD_AND_Ok opcode s : wf s -> exists s', do_ADD_AND opcode s = Ok s'.
Proof.
  intros Hwf. unfold do_ADD_AND.
  destruct (wf_reg_field s 6 Hwf) as (SR1 & H1 & _). rewrite (bind_Ok_l _ _ _ H1).
  destruct (operand2_Ok s Hwf) as (SR2 & H2).
  rewrite (bind_Ok_l _ _ _ H2).
  rewrite wf_write_DR by exact Hwf. eexists. reflexivity.
Qed.

Lemma do_BR_Ok s : exists s', do_BR s = Ok s'.
Proof. unfold do_BR. destruct (br_taken _ _); eexists; reflexivity. Qed.

Lemma do_JMP_Ok s : wf s -> exists s', do_JMP s = Ok s'.
Proof.
  intros Hwf. unfold do_JMP.
  destruct (wf_reg_field s 6 Hwf) as (SR1 & H1 & _). rewrite (bind_Ok_l _ _ _ H1).
  eexists. reflexivity.
Qed.

Lemma do_JSR_Ok s : wf s -> exists s', do_JSR s = Ok s'.
Proof.
  intros Hwf. unfold do_JSR. rewrite (bind_Ok_l _ _ _ (wf_save_R7 s Hwf)). simpl.
  destruct (Z.land (IR s) 0x800 =? 0x800); [eexists; reflexivity|].
  assert (Hregs : wf (set_registers (<[7%nat := PC s]> (registers s)) s))
    by (apply wf_set_registers; [exact Hwf | exact (wf_PC s Hwf)]).
  destruct (wf_reg_field _ 6 Hregs) as (SR1 & H1 & _). simpl in H1.
  rewrite (bind_Ok_l _ _ _ H1). eexists. reflexivity.
Qed.

Lemma do_LD_Ok s :
  wf s -> u16 (PC s + PCoffset9 (IR s)) -> exists s', do_LD s = Ok s'.
Proof.
  intros Hwf Hi. unfold do_LD.
  destruct (wf_mem_get s _ Hwf Hi) as (v & Hv & _). rewrite (bind_Ok_l _ _ _ Hv).
  rewrite wf_write_DR by exact Hwf. eexists. reflexivity.
Qed.

Lemma do_LDI_Ok s w :
  wf s -> u16 (PC s + PCoffset9 (IR s)) ->
  (memory s !! Z.to_nat (PC s + PCoffset9 (IR s)) = Some KBDR -> typeahead w <> []) ->
  exists s' w', do_LDI s w = Ok (s', w').
Proof.
  intros Hwf Hi Hkey. unfold do_LDI.
  destruct (wf_mem_get s _ Hwf Hi) as (a & Ha & Hla & Hua). rewrite (bind_Ok_l _ _ _ Ha).
  destruct (Z.eqb_spec a KBDR) as [->|_].
  - specialize (Hkey Hla). unfold wgetch. simpl.
    destruct (typeahead w) as [|k rest]; [congruence|]. simpl.
    unfold reg_set, reg_get. rewrite array_set_in_range
      by (rewrite (wf_registers_length s Hwf); apply field3_range). simpl.
    destruct (array_get_in_range RegisterIndexOutOfRange
                (<[Z.to_nat (field3 (IR s) 9) := uint16 k]> (registers s))
                (field3 (IR s) 9)) as (x & -> & _).
    { rewrite length_insert, (wf_registers_length s Hwf). apply field3_range. }
    simpl. eexists _, _. reflexivity.
  - destruct (wf_mem_get s a Hwf Hua) as (v & Hv & _). rewrite (bind_Ok_l _ _ _ Hv).
    rewrite wf_write_DR by exact Hwf. simpl. eexists _, _. reflexivity.
Qed.

Lemma do_LDR_Ok s :
  wf s ->
  (forall SR1, registers s !! Z.to_nat (field3 (IR s) 6) = Some SR1 ->
               u16 (SR1 + PCoffset6 (IR s))) ->
  exists s', do_LDR s = Ok s'.
Proof.
  intros Hwf Hi. unfold do_LDR.
  destruct (wf_reg_field s 6 Hwf) as (SR1 & H1 & Hl1 & _). rewrite (bind_Ok_l _ _ _ H1).
  destruct (wf_mem_get s _ Hwf (Hi SR1 Hl1)) as (v & Hv & _). rewrite (bind_Ok_l _ _ _ Hv).
  rewrite wf_write_DR by exact Hwf. eexists. reflexivity.
Qed.

Lemma wf_mem_set s i v :
  wf s -> u16 i -> mem_set (memory s) i v = Ok (<[Z.to_nat i := v]> (memory s)).
Proof.
  intros Hwf Hi. unfold mem_set. apply array_set_in_range.
  rewrite (wf_memory_length s Hwf). exact Hi.
Qed.

Lemma do_ST_Ok s :
  wf s -> u16 (PC s + PCoffset9 (IR s)) -> exists s', do_ST s = Ok s'.
Proof.
  intros Hwf Hi. unfold do_ST.
  destruct (wf_reg_field s 9 Hwf) as (SR1 & H1 & _). rewrite (bind_Ok_l _ _ _ H1).
  rewrite (bind_Ok_l _ _ _ (wf_mem_set s _ SR1 Hwf Hi)). eexists. reflexivity.
Qed.

Lemma do_STR_Ok s :
  wf s ->
  (forall SR2, registers s !! Z.to_nat (field3 (IR s) 6) = Some SR2 ->
               u16 (SR2 + PCoffset6 (IR s))) ->
  exists s', do_STR s = Ok s'.
Proof.
  intros Hwf Hi. unfold do_STR.
  destruct (wf_reg_field s 9 Hwf) as (SR1 & H1 & _). rewrite (bind_Ok_l _ _ _ H1).
  destruct (wf_reg_field s 6 Hwf) as (SR2 & H2 & Hl2 & _). rewrite (bind_Ok_l _ _ _ H2).
  rewrite (bind_Ok_l _ _ _ (wf_mem_set s _ SR1 Hwf (Hi SR2 Hl2))). eexists. reflexivity.
Qed.

Lemma do_STI_Ok s :
  wf s -> u16 (PC s + PCoffset9 (IR s)) -> exists s', do_STI s = Ok s'.
Proof.
  intros Hwf Hi. unfold do_STI.
  destruct (wf_reg_field s 9 Hwf) as (SR1 & H1 & _ & Hu1). rewrite (bind_Ok_l _ _ _ H1).
  destruct (wf_mem_get s _ Hwf Hi) as (a & Ha & _ & Hua). rewrite (bind_Ok_l _ _ _ Ha).
  rewrite (bind_Ok_l _ _ _ (wf_mem_set s a SR1 Hwf Hua)).
  destruct (wf_mem_get _ _ (wf_set_memory s (Z.to_nat a) SR1 Hwf Hu1) Hi) as (b & Hb & _).
  simpl in *. rewrite (bind_Ok_l _ _ _ Hb).
  destruct (b =? MCR); eexists; reflexivity.
Qed.

(** Closes a case of the [switch] from the lemma [L] that its instruction
    completes. *)
Ltac finish_with L :=
  let s1 := fresh "s1" in
  let H1 := fresh "H1" in
  destruct L as (s1 & H1); [..|rewrite H1; simpl; eexists _, _; reflexivity].

Lemma dispatch_completes_1 s w :
  wf s -> completes s w = true ->
  exists s' w', dispatch (opcode_of (IR s)) s w = Ok (s', w').
Proof.
  intros Hwf. unfold completes, computed_index, reads_keyboard, dispatch.
  destruct (Z.eqb_spec (opcode_of (IR s)) TRAP) as [->|?];
    [intros _; finish_with (do_TRAP_Ok s Hwf)|].
  destruct (Z.eqb_spec (opcode_of (IR s)) LEA) as [->|?];
    [intros _; finish_with (do_LEA_Ok s Hwf)|].
  destruct (Z.eqb_spec (opcode_of (IR s)) LDI) as [->|?].
  { simpl. rewrite andb_true_iff, is_uint16_u16. intros [Hi Hkey].
    apply do_LDI_Ok; [exact Hwf | exact Hi |].
    intros Ha. rewrite Ha in Hkey. simpl in Hkey.
    apply negb_true_iff, bool_decide_eq_false in Hkey. exact Hkey. }
  destruct (Z.eqb_spec (opcode_of (IR s)) NOT) as [->|?];
    [intros _; finish_with (do_NOT_Ok s Hwf)|].
  destruct (Z.eqb_spec (opcode_of (IR s)) LD) as [->|?].
  { simpl. rewrite andb_true_r, is_uint16_u16. intros Hi.
    finish_with (do_LD_Ok s Hwf Hi). }
  destruct (Z.eqb_spec (opcode_of (IR s)) ADD) as [->|?];
    [intros _; finish_with (do_ADD_AND_Ok ADD s Hwf)|].
  destruct (Z.eqb_spec (opcode_of (IR s)) AND) as [->|?];
    [intros _; finish_with (do_ADD_AND_Ok AND s Hwf)|].
  destruct (Z.eqb_spec (opcode_of (IR s)) BR) as [->|?];
    [intros _; finish_with (do_BR_Ok s)|].
  destruct (Z.eqb_spec (opcode_of (IR s)) LDR) as [->|?].
  { simpl. rewrite andb_true_r, is_uint16_u16. intros Hi.
    assert (Hr : forall SR1, registers s !! Z.to_nat (field3 (IR s) 6) = Some SR1 ->
                             u16 (SR1 + PCoffset6 (IR s)))
      by (intros SR1 E; rewrite E in Hi; exact Hi).
    finish_with (do_LDR_Ok s Hwf Hr). }
  destruct (Z.eqb_spec (opcode_of (IR s)) ST) as [->|?].
  { simpl. rewrite andb_true_r, is_uint16_u16. intros Hi.
    finish_with (do_ST_Ok s Hwf Hi). }
  destruct (Z.eqb_spec (opcode_of (IR s)) STR) as [->|?].
  { simpl. rewrite andb_true_r, is_uint16_u16. intros Hi.
    assert (Hr : forall SR2, registers s !! Z.to_nat (field3 (IR s) 6) = Some SR2 ->
                             u16 (SR2 + PCoffset6 (IR s)))
      by (intros SR2 E; rewrite E in Hi; exact Hi).
    finish_with (do_STR_Ok s Hwf Hr). }
  destruct (Z.eqb_spec (opcode_of (IR s)) STI) as [->|?].
  { simpl. rewrite andb_true_r, is_uint16_u16. intros Hi.
    finish_with (do_STI_Ok s Hwf Hi). }
  destruct (Z.eqb_spec (opcode_of (IR s)) JMP) as [->|?];
    [intros _; finish_with (do_JMP_Ok s Hwf)|].
  destruct (Z.eqb_spec (opcode_of (IR s)) JSR) as [->|?];
    [intros _; finish_with (do_JSR_Ok s Hwf)|].
  intros _. eexists _, _. reflexivity.
Qed.

Lemma lookup_u16_index (m : list Z) i v :
  Z.of_nat (length m) = 65536 -> 0 <= i -> m !! Z.to_nat i = Some v -> u16 i.
Proof.
  intros Hlen Hi Hv. apply lookup_lt_Some in Hv. unfold u16. lia.
Qed.

Lemma dispatch_completes_2 s w s' w' :
  wf s -> dispatch (opcode_of (IR s)) s w = Ok (s', w') -> completes s w = true.
Proof.
  intros Hwf H. pose proof (wf_memory_length s Hwf) as Hlen.
  remember (opcode_of (IR s)) as opcode eqn:Hop.
  revert Hwf Hlen Hop. revert opcode s w s' w' H.
  apply (dispatch_elim (fun opcode s w _ _ =>
           wf s -> Z.of_nat (length (memory s)) = 65536 ->
           opcode = opcode_of (IR s) -> completes s w = true));
    intros s w s'; unfold completes, computed_index, reads_keyboard.
  - intros _ _ _ <-. reflexivity.
  - intros _ _ _ <-. reflexivity.
  - intros w' H _ Hlen <-. simpl.
    apply do_LDI_inv in H as (a & v & Hp & Ha & _ & Hcase).
    rewrite Ha. simpl. apply andb_true_iff. split.
    + apply is_uint16_u16. exact (lookup_u16_index _ _ _ Hlen Hp Ha).
    + destruct (a =? KBDR); [|reflexivity].
      destruct Hcase as (k & rest & -> & _). reflexivity.
  - intros _ _ _ <-. reflexivity.
  - intros H _ Hlen <-. simpl.
    apply do_LD_inv in H as (v & Hp & Hv & _).
    rewrite andb_true_r. apply is_uint16_u16. exact (lookup_u16_index _ _ _ Hlen Hp Hv).
  - intros _ _ _ <-. reflexivity.
  - intros _ _ _ <-. reflexivity.
  - intros _ _ _ <-. reflexivity.
  - intros H _ Hlen <-. simpl.
    apply do_LDR_inv in H as (SR1 & v & -> & Hp & Hv & _). simpl.
    rewrite andb_true_r. apply is_uint16_u16. exact (lookup_u16_index _ _ _ Hlen Hp Hv).
  - intros H _ Hlen <-. simpl.
    apply do_ST_inv in H as (SR1 & _ & Hp & _).
    rewrite andb_true_r. apply is_uint16_u16. unfold u16. lia.
  - intros H _ Hlen <-. simpl.
    apply do_STR_inv in H as (SR1 & SR2 & _ & -> & Hp & _). simpl.
    rewrite andb_true_r. apply is_uint16_u16. unfold u16. lia.
  - intros H _ Hlen <-. simpl.
    apply do_STI_inv in H as (SR1 & a & b & _ & Hp & Ha & _).
    rewrite andb_true_r. apply is_uint16_u16. exact (lookup_u16_index _ _ _ Hlen Hp Ha).
  - intros _ _ _ <-. reflexivity.
  - intros _ _ _ <-. reflexivity.
  - intros Himpl _ _ <-. unfold implemented in Himpl. simpl in Himpl.
    repeat (apply orb_false_iff in Himpl as [?E Himpl]).
    repeat match goal with
           | E : (_ =? _) = false |- _ => rewrite ?E; clear E
           end.
    reflexivity.
Qed.

(** The step returns exactly from the states in which the computed index
    lies within [memory] and, when the keyboard is read, a key is to come. *)
Lemma execute_next_completes s w :
  wf s ->
  step_completes s w = true <-> exists s' w', execute_next s w = Ok (s', w').
Proof.
  intros Hwf. unfold step_completes.
  destruct (wf_mem_get s (PC s) Hwf (wf_PC s Hwf)) as (ir & _ & Hir & _).
  rewrite Hir. pose proof (wf_fetched s ir Hwf Hir) as Hwf1. split.
  - intros Hc.
    destruct (dispatch_completes_1 _ w Hwf1 Hc) as (s1 & w1 & Hd).
    change (IR (fetched ir s)) with ir in Hd.
    pose proof (wf_dispatch _ _ _ _ _ Hwf1 Hd) as Hwf2.
    destruct (devices_Ok s1 w1 (wf_memory_length s1 Hwf2)) as (d & _ & Hdev).
    unfold execute_next.
    rewrite (fetch_execute_Ok s w ir (proj1 (wf_PC s Hwf)) Hir), Hd. simpl.
    rewrite Hdev. eexists _, _. reflexivity.
  - intros (s' & w' & H).
    apply execute_next_inv in H as (ir' & s1 & w1 & _ & Hir' & Hd & _).
    rewrite Hir in Hir'. injection Hir' as <-.
    exact (dispatch_completes_2 _ _ _ _ Hwf1 Hd).
Qed.

Lemma fetch_execute_completes s w :
  wf s -> step_completes s w = true ->
  exists s1 w1, fetch_execute s w = Ok (s1, w1).
Proof.
  intros Hwf. unfold step_completes.
  destruct (wf_mem_get s (PC s) Hwf (wf_PC s Hwf)) as (ir & _ & Hir & _).
  rewrite Hir. intros Hc.
  rewrite (fetch_execute_Ok s w ir (proj1 (wf_PC s Hwf)) Hir).
  exact (dispatch_completes_1 _ w (wf_fetched s ir Hwf Hir) Hc).
Qed.

(** ** Register indexing *)

Lemma reg_safe_Ok {A} (a : A) : reg_safe (Ok a).
Proof. intros i. discriminate. Qed.

Lemma reg_safe_bind {A B} (m : result A) (k : A -> result B) :
  reg_safe m -> (forall a, m = Ok a -> reg_safe (k a)) -> reg_safe (m ≫= k).
Proof.
  intros Hm Hk i H. apply bind_Err in H as [H | (a & Ha & H)].
  - exact (Hm i H).
  - exact (Hk a Ha i H).
Qed.

Lemma reg_safe_mem_get m i : reg_safe (mem_get m i).
Proof. intros j H. apply array_get_Err in H as [H _]. discriminate. Qed.

Lemma reg_safe_mem_set m i v : reg_safe (mem_set m i v).
Proof. intros j H. apply array_set_Err in H as [H _]. discriminate. Qed.

Lemma reg_safe_reg_get r i :
  0 <= i < Z.of_nat (length r) -> reg_safe (reg_get r i).
Proof. intros Hi j H. apply array_get_Err in H as [_ H]. exact (H Hi). Qed.

Lemma reg_safe_reg_set r i v :
  0 <= i < Z.of_nat (length r) -> reg_safe (reg_set r i v).
Proof. intros Hi j H. apply array_set_Err in H as [_ H]. exact (H Hi). Qed.

Lemma reg_safe_wgetch w : reg_safe (wgetch w).
Proof.
  intros i. unfold wgetch.
  destruct (typeahead w); [destruct (delay w <? 0)|]; discriminate.
Qed.

Section EightRegisters.
Variable s : LC3.
Hypothesis Hlen : Z.of_nat (length (registers s)) = 8.

Lemma field3_in_registers k : 0 <= field3 (IR s) k < Z.of_nat (length (registers s)).
Proof. rewrite Hlen. apply field3_range. Qed.

Lemma reg_safe_write_DR k v : reg_safe (write_DR (field3 (IR s) k) v s).
Proof.
  unfold write_DR. apply reg_safe_bind.
  - apply reg_safe_reg_set, field3_in_registers.
  - intros regs Hregs. apply array_set_Ok in Hregs as [_ ->].
    apply reg_safe_bind; [|intros; apply reg_safe_Ok].
    apply reg_safe_reg_get. simpl. rewrite length_insert. apply field3_in_registers.
Qed.

Lemma reg_safe_TRAP : reg_safe (do_TRAP s).
Proof.
  unfold do_TRAP. apply reg_safe_bind.
  - apply reg_safe_reg_set. lia.
  - intros regs _. apply reg_safe_bind; [apply reg_safe_mem_get|].
    intros; apply reg_safe_Ok.
Qed.

Lemma reg_safe_LEA : reg_safe (do_LEA s).
Proof. apply reg_safe_write_DR. Qed.

Lemma reg_safe_LDI w : reg_safe (do_LDI s w).
Proof.
  unfold do_LDI. apply reg_safe_bind; [apply reg_safe_mem_get|].
  intros a _. destruct (a =? KBDR).
  - apply reg_safe_bind; [apply reg_safe_wgetch|]. intros [k w1] _.
    apply reg_safe_bind; [apply reg_safe_reg_set, field3_in_registers|].
    intros regs Hregs. apply array_set_Ok in Hregs as [_ ->].
    apply reg_safe_bind; [|intros; apply reg_safe_Ok].
    apply reg_safe_reg_get. simpl. rewrite length_insert. apply field3_in_registers.
  - apply reg_safe_bind; [apply reg_safe_mem_get|]. intros v _.
    apply reg_safe_bind; [apply reg_safe_write_DR|]. intros; apply reg_safe_Ok.
Qed.

Lemma reg_safe_NOT : reg_safe (do_NOT s).
Proof.
  unfold do_NOT. apply reg_safe_bind.
  - apply reg_safe_reg_get, field3_in_registers.
  - intros SR1 _. apply reg_safe_write_DR.
Qed.

Lemma reg_safe_LD : reg_safe (do_LD s).
Proof.
  unfold do_LD. apply reg_safe_bind; [apply reg_safe_mem_get|].
  intros v _. apply reg_safe_write_DR.
Qed.

Lemma reg_safe_ADD_AND opcode : reg_safe (do_ADD_AND opcode s).
Proof.
  unfold do_ADD_AND. apply reg_safe_bind.
  - apply reg_safe_reg_get, field3_in_registers.
  - intros SR1 _. apply reg_safe_bind.
    + unfold operand2. destruct (negb _); [apply reg_safe_Ok|].
      apply reg_safe_reg_get. rewrite Hlen. apply land_7_range.
    + intros SR2 _. apply reg_safe_write_DR.
Qed.

Lemma reg_safe_BR : reg_safe (do_BR s).
Proof. unfold do_BR. destruct (br_taken _ _); apply reg_safe_Ok. Qed.

Lemma reg_safe_LDR : reg_safe (do_LDR s).
Proof.
  unfold do_LDR. apply reg_safe_bind.
  - apply reg_safe_reg_get, field3_in_registers.
  - intros SR1 _. apply reg_safe_bind; [apply reg_safe_mem_get|].
    intros v _. apply reg_safe_write_DR.
Qed.

Lemma reg_safe_ST : reg_safe (do_ST s).
Proof.
  unfold do_ST. apply reg_safe_bind.
  - apply reg_safe_reg_get, field3_in_registers.
  - intros SR1 _. apply reg_safe_bind; [apply reg_safe_mem_set|].
    intros; apply reg_safe_Ok.
Qed.

Lemma reg_safe_STR : reg_safe (do_STR s).
Proof.
  unfold do_STR. apply reg_safe_bind.
  - apply reg_safe_reg_get, field3_in_registers.
  - intros SR1 _. apply reg_safe_bind.
    + apply reg_safe_reg_get, field3_in_registers.
    + intros SR2 _. apply reg_safe_bind; [apply reg_safe_mem_set|].
      intros; apply reg_safe_Ok.
Qed.

Lemma reg_safe_STI : reg_safe (do_STI s).
Proof.
  unfold do_STI. apply reg_safe_bind.
  - apply reg_safe_reg_get, field3_in_registers.
  - intros SR1 _. apply reg_safe_bind; [apply reg_safe_mem_get|].
    intros a _. apply reg_safe_bind; [apply reg_safe_mem_set|].
    intros m _. apply reg_safe_bind; [apply reg_safe_mem_get|].
    intros b _. destruct (b =? MCR); apply reg_safe_Ok.
Qed.

Lemma reg_safe_JMP : reg_safe (do_JMP s).
Proof.
  unfold do_JMP. apply reg_safe_bind.
  - apply reg_safe_reg_get, field3_in_registers.
  - intros; apply reg_safe_Ok.
Qed.

Lemma reg_safe_JSR : reg_safe (do_JSR s).
Proof.
  unfold do_JSR. apply reg_safe_bind.
  - apply reg_safe_reg_set. lia.
  - intros regs Hregs. apply array_set_Ok in Hregs as [_ ->]. simpl.
    destruct (Z.land (IR s) 0x800 =? 0x800); [apply reg_safe_Ok|].
    apply reg_safe_bind; [|intros; apply reg_safe_Ok].
    apply reg_safe_reg_get. rewrite length_insert. apply field3_in_registers.
Qed.

Lemma reg_safe_dispatch opcode w : reg_safe (dispatch opcode s w).
Proof.
  unfold dispatch.
  repeat match goal with
  | |- reg_safe (if ?c then _ else _) => destruct c
  | |- reg_safe (_ ≫= _) => apply reg_safe_bind; [|intros; apply reg_safe_Ok]
  end;
  auto using reg_safe_TRAP, reg_safe_LEA, reg_safe_LDI, reg_safe_NOT, reg_safe_LD,
    reg_safe_ADD_AND, reg_safe_BR, reg_safe_LDR, reg_safe_ST, reg_safe_STR,
    reg_safe_STI, reg_safe_JMP, reg_safe_JSR, reg_safe_Ok.
Qed.
End EightRegisters.

Lemma reg_safe_devices s w : reg_safe (devices s w).
Proof.
  unfold devices. apply reg_safe_bind; [apply reg_safe_mem_get|]. intros d _.
  apply reg_safe_bind.
  - destruct (negb _); [|apply reg_safe_Ok].
    apply reg_safe_bind; [apply reg_safe_mem_get|]. intros ch _.
    apply reg_safe_bind; [apply reg_safe_mem_set|]. intros; apply reg_safe_Ok.
  - intros [s1 w1] _. apply reg_safe_bind; [apply reg_safe_mem_set|]. intros m1 _.
    apply reg_safe_bind; [apply reg_safe_mem_set|]. intros; apply reg_safe_Ok.
Qed.

Lemma reg_safe_execute_next s w :
  Z.of_nat (length (registers s)) = 8 -> reg_safe (execute_next s w).
Proof.
  intros Hlen. unfold execute_next, fetch_execute.
  apply reg_safe_bind; [|intros [s1 w1] _; apply reg_safe_devices].
  apply reg_safe_bind; [apply reg_safe_mem_get|].
  intros ir _. apply reg_safe_dispatch. exact Hlen.
Qed.

(** ** The condition code *)

Lemma setcc_condition_of v : u16 v -> setcc v = condition_char (condition_of v).
Proof.
  intros Hv. unfold setcc, condition_of, signed16.
  rewrite (int16_of_u16 v Hv).
  destruct (v =? 0); [reflexivity|].
  destruct (v <? 32768); destruct (_ <? 0); reflexivity.
Qed.

Lemma dispatch_CC opcode s w s' w' :
  Z.of_nat (length (registers s)) = 8 ->
  dispatch opcode s w = Ok (s', w') ->
  if updates_CC opcode
  then exists v, registers s' !! Z.to_nat (field3 (IR s) 9) = Some v /\ CC s' = setcc v
  else CC s' = CC s.
Proof.
  intros Hlen H. revert Hlen. revert opcode s w s' w' H.
  assert (Hwritten : forall s v c,
    Z.of_nat (length (registers s)) = 8 ->
    exists v', registers (set_CC c (set_registers
                 (<[Z.to_nat (field3 (IR s) 9) := v]> (registers s)) s))
                 !! Z.to_nat (field3 (IR s) 9) = Some v' /\ setcc v = setcc v').
  { intros s v c Hlen. exists v. split; [|reflexivity]. simpl.
    apply list_lookup_insert_eq. pose proof (field3_range (IR s) 9). lia. }
  apply (dispatch_elim (fun opcode s _ s' _ =>
           Z.of_nat (length (registers s)) = 8 ->
           if updates_CC opcode
           then exists v, registers s' !! Z.to_nat (field3 (IR s) 9) = Some v /\
                          CC s' = setcc v
           else CC s' = CC s)); intros s w s'.
  - intros H _. apply do_TRAP_inv in H as (v & _ & ->). reflexivity.
  - intros H Hlen. apply do_LEA_inv in H as ->. apply Hwritten, Hlen.
  - intros w' H Hlen. apply do_LDI_inv in H as (a & v & _ & _ & -> & _).
    apply Hwritten, Hlen.
  - intros H Hlen. apply do_NOT_inv in H as (SR1 & _ & ->). apply Hwritten, Hlen.
  - intros H Hlen. apply do_LD_inv in H as (v & _ & _ & ->). apply Hwritten, Hlen.
  - intros H Hlen. apply do_ADD_AND_inv in H as (SR1 & SR2 & _ & _ & ->).
    apply Hwritten, Hlen.
  - intros H Hlen. apply do_ADD_AND_inv in H as (SR1 & SR2 & _ & _ & ->).
    apply Hwritten, Hlen.
  - intros H _. apply do_BR_inv in H as ->. simpl. destruct (br_taken _ _); reflexivity.
  - intros H Hlen. apply do_LDR_inv in H as (SR1 & v & _ & _ & _ & ->).
    apply Hwritten, Hlen.
  - intros H _. apply do_ST_inv in H as (SR1 & _ & _ & ->). reflexivity.
  - intros H _. apply do_STR_inv in H as (SR1 & SR2 & _ & _ & _ & ->). reflexivity.
  - intros H _. apply do_STI_inv in H as (SR1 & a & b & _ & _ & _ & _ & _ & ->). reflexivity.
  - intros H _. apply do_JMP_inv in H as (SR1 & _ & ->). reflexivity.
  - intros H _. apply do_JSR_inv in H as (target & _ & ->). reflexivity.
  - intros Himpl _. unfold implemented in Himpl. unfold updates_CC. simpl in *.
    repeat (apply orb_false_iff in Himpl as [?E Himpl]).
    repeat match goal with
           | E : (_ =? _) = false |- _ => rewrite ?E; clear E
           end.
    reflexivity.
Qed.

(** The [switch] leaves [IR] alone. *)
Lemma dispatch_IR opcode s w s' w' :
  dispatch opcode s w = Ok (s', w') -> IR s' = IR s.
Proof.
  revert opcode s w s' w'.
  apply (dispatch_elim (fun _ s _ s' _ => IR s' = IR s)); intros s w s'.
  - intros H. apply do_TRAP_inv in H as (v & _ & ->). reflexivity.
  - intros H. apply do_LEA_inv in H as ->. reflexivity.
  - intros w' H. apply do_LDI_inv in H as (a & v & _ & _ & -> & _). reflexivity.
  - intros H. apply do_NOT_inv in H as (SR1 & _ & ->). reflexivity.
  - intros H. apply do_LD_inv in H as (v & _ & _ & ->). reflexivity.
  - intros H. apply do_ADD_AND_inv in H as (SR1 & SR2 & _ & _ & ->). reflexivity.
  - intros H. apply do_ADD_AND_inv in H as (SR1 & SR2 & _ & _ & ->). reflexivity.
  - intros H. apply do_BR_inv in H as ->. destruct (br_taken _ _); reflexivity.
  - intros H. apply do_LDR_inv in H as (SR1 & v & _ & _ & _ & ->). reflexivity.
  - intros H. apply do_ST_inv in H as (SR1 & _ & _ & ->). reflexivity.
  - intros H. apply do_STR_inv in H as (SR1 & SR2 & _ & _ & _ & ->). reflexivity.
  - intros H. apply do_STI_inv in H as (SR1 & a & b & _ & _ & _ & _ & _ & ->). reflexivity.
  - intros H. apply do_JMP_inv in H as (SR1 & _ & ->). reflexivity.
  - intros H. apply do_JSR_inv in H as (target & _ & ->). reflexivity.
  - reflexivity.
Qed.

(** ** The halt flag *)

(** Only the STI case of the [switch] writes [isHalted]. *)
Lemma dispatch_isHalted opcode s w s' w' :
  dispatch opcode s w = Ok (s', w') ->
  opcode <> STI -> isHalted s' = isHalted s.
Proof.
  revert opcode s w s' w'.
  apply (dispatch_elim (fun opcode s _ s' _ => opcode <> STI -> isHalted s' = isHalted s));
    intros s w s'.
  - intros H _. apply do_TRAP_inv in H as (v & _ & ->). reflexivity.
  - intros H _. apply do_LEA_inv in H as ->. reflexivity.
  - intros w' H _. apply do_LDI_inv in H as (a & v & _ & _ & -> & _). reflexivity.
  - intros H _. apply do_NOT_inv in H as (SR1 & _ & ->). reflexivity.
  - intros H _. apply do_LD_inv in H as (v & _ & _ & ->). reflexivity.
  - intros H _. apply do_ADD_AND_inv in H as (SR1 & SR2 & _ & _ & ->). reflexivity.
  - intros H _. apply do_ADD_AND_inv in H as (SR1 & SR2 & _ & _ & ->). reflexivity.
  - intros H _. apply do_BR_inv in H as ->. destruct (br_taken _ _); reflexivity.
  - intros H _. apply do_LDR_inv in H as (SR1 & v & _ & _ & _ & ->). reflexivity.
  - intros H _. apply do_ST_inv in H as (SR1 & _ & _ & ->). reflexivity.
  - intros H _. apply do_STR_inv in H as (SR1 & SR2 & _ & _ & _ & ->). reflexivity.
  - intros _ Hne. contradiction Hne. reflexivity.
  - intros H _. apply do_JMP_inv in H as (SR1 & _ & ->). reflexivity.
  - intros H _. apply do_JSR_inv in H as (target & _ & ->). reflexivity.
  - reflexivity.
Qed.

(** The [switch] never clears [isHalted]. *)
Lemma dispatch_isHalted_mono opcode s w s' w' :
  dispatch opcode s w = Ok (s', w') -> isHalted s = true -> isHalted s' = true.
Proof.
  intros H Hh. destruct (Z.eq_dec opcode STI) as [->|Hne].
  - unfold dispatch in H. simpl in H.
    apply bind_Ok in H as (s1 & H1 & H). injection H as <- <-.
    apply do_STI_inv in H1 as (SR1 & a & b & _ & _ & _ & _ & _ & ->).
    simpl. rewrite Hh. reflexivity.
  - rewrite (dispatch_isHalted _ _ _ _ _ H Hne). exact Hh.
Qed.

Lemma devices_frame s w s' w' :
  devices s w = Ok (s', w') ->
  registers s' = registers s /\ PC s' = PC s /\ IR s' = IR s /\
  CC s' = CC s /\ isHalted s' = isHalted s.
Proof.
  intros H. apply devices_inv in H as (d & _ & -> & _). repeat split.
Qed.

(** A step never takes [isHalted] from true to false. *)
Lemma isHalted_monotonic s w s' w' :
  execute_next s w = Ok (s', w') -> isHalted s = true -> isHalted s' = true.
Proof.
  intros H Hh.
  apply execute_next_inv in H as (ir & s1 & w1 & _ & _ & Hd & Hdev).
  apply devices_frame in Hdev as (_ & _ & _ & _ & ->).
  exact (dispatch_isHalted_mono _ _ _ _ _ Hd Hh).
Qed.

(** A step that is not an STI leaves [isHalted] as it was. *)
Lemma isHalted_only_STI s w s' w' :
  execute_next s w = Ok (s', w') ->
  opcode_of (IR s') <> STI -> isHalted s' = isHalted s.
Proof.
  intros H Hne.
  apply execute_next_inv in H as (ir & s1 & w1 & _ & _ & Hd & Hdev).
  apply devices_frame in Hdev as (_ & _ & HIR & _ & ->).
  rewrite HIR, (dispatch_IR _ _ _ _ _ Hd) in Hne.
  exact (dispatch_isHalted _ _ _ _ _ Hd Hne).
Qed.

(** ** The bit fields, in the spec's notation *)

Lemma field3_bits ir k : 0 <= k -> field3 ir k = bits (k + 2) k ir.
Proof.
  intros Hk. unfold field3, bits.
  change 7 with (Z.ones 3). rewrite Z.land_ones, Z.shiftr_div_pow2 by lia.
  replace (k + 2 - k + 1) with 3 by lia. reflexivity.
Qed.

Lemma field3_9 ir : field3 ir 9 = bits 11 9 ir.
Proof. apply (field3_bits ir 9). lia. Qed.

Lemma field3_6 ir : field3 ir 6 = bits 8 6 ir.
Proof. apply (field3_bits ir 6). lia. Qed.

Lemma land_7_bits ir : Z.land ir 7 = bits 2 0 ir.
Proof.
  unfold bits. change 7 with (Z.ones 3). rewrite Z.land_ones by lia.
  change (2 ^ 0) with 1. rewrite Z.div_1_r. reflexivity.
Qed.

Lemma opcode_of_bits ir : opcode_of ir = bits 15 12 ir.
Proof.
  unfold opcode_of, bits. rewrite Z.shiftr_land.
  change (Z.shiftr 0xf000 12) with (Z.ones 4).
  rewrite Z.land_ones, Z.shiftr_div_pow2 by lia. reflexivity.
Qed.

Lemma land_pow2 ir n :
  0 <= n -> Z.land ir (2 ^ n) = if Z.testbit ir n then 2 ^ n else 0.
Proof.
  intros Hn. apply Z.bits_inj'. intros m Hm.
  rewrite Z.land_spec, Z.pow2_bits_eqb by exact Hn.
  destruct (Z.eqb_spec n m) as [->|Hne].
  - destruct (Z.testbit ir m); simpl.
    + symmetry. apply Z.pow2_bits_true. exact Hm.
    + symmetry. apply Z.bits_0.
  - rewrite andb_false_r. destruct (Z.testbit ir n).
    + symmetry. apply Z.pow2_bits_false. exact Hne.
    + symmetry. apply Z.bits_0.
Qed.

Lemma land_pow2_eqb_0 ir n :
  0 <= n -> (Z.land ir (2 ^ n) =? 0) = negb (Z.testbit ir n).
Proof.
  intros Hn. rewrite (land_pow2 ir n Hn).
  pose proof (Z.pow_pos_nonneg 2 n ltac:(lia) Hn).
  destruct (Z.testbit ir n); simpl; [apply Z.eqb_neq; lia | reflexivity].
Qed.

Lemma shiftr_land_1_eqb_0 ir n :
  0 <= n -> (Z.land (Z.shiftr ir n) 1 =? 0) = negb (Z.testbit ir n).
Proof.
  intros Hn. change 1 with (Z.ones 1) at 1.
  rewrite Z.land_ones, Z.shiftr_div_pow2 by lia.
  rewrite (Z.testbit_eqb ir n Hn). change (2 ^ 1) with 2.
  pose proof (Z.mod_pos_bound (ir / 2 ^ n) 2 ltac:(lia)).
  destruct (Z.eqb_spec ((ir / 2 ^ n) mod 2) 0), (Z.eqb_spec ((ir / 2 ^ n) mod 2) 1);
    simpl; solve [reflexivity | lia].
Qed.

(** A property checked on every number below [n] holds of each of them. *)
Lemma forall_below (P : Z -> bool) (n : nat) :
  forallb P (map Z.of_nat (seq 0 n)) = true ->
  forall f, 0 <= f < Z.of_nat n -> P f = true.
Proof.
  intros Hall f Hf. rewrite forallb_forall in Hall. apply Hall.
  rewrite <- (Z2Nat.id f) by lia. apply in_map, in_seq. lia.
Qed.

(** The immediate operand of ADD and AND is the 5-bit field, sign-extended
    and reduced to 16 bits. *)
Lemma imm5_sign_extend ir :
  uint16 (Z.lor (Z.land ir 0x1f) (if negb (Z.land ir 0x10 =? 0) then 0xffe0 else 0))
  = uint16 (sign_extend 5 ir).
Proof.
  replace (Z.land ir 0x10) with (Z.land (Z.land ir 0x1f) 0x10)
    by (rewrite <- Z.land_assoc; reflexivity).
  unfold sign_extend. change 0x1f with (Z.ones 5). rewrite Z.land_ones by lia.
  pose proof (Z.mod_pos_bound ir (2 ^ 5) ltac:(lia)) as Hf.
  set (f := ir mod 2 ^ 5) in *. clearbody f.
  apply Z.eqb_eq.
  apply (forall_below
           (fun f => uint16 (Z.lor f (if negb (Z.land f 0x10 =? 0) then 0xffe0 else 0))
                     =? uint16 (if f <? 2 ^ (5 - 1) then f else f - 2 ^ 5)) 32);
    [vm_compute; reflexivity | exact Hf].
Qed.

(** ** A step through one case of the switch *)

Lemma execute_next_through s w ir s2 w2 :
  wf s ->
  memory s !! Z.to_nat (PC s) = Some ir ->
  dispatch (opcode_of ir) (fetched ir s) w = Ok (s2, w2) ->
  exists d, memory s2 !! Z.to_nat DDR = Some d /\
    execute_next s w =
    Ok (set_memory (flushed_memory d (memory s2)) s2, flushed_window d w2).
Proof.
  intros Hwf Hir Hd.
  pose proof (wf_dispatch _ _ _ _ _ (wf_fetched s ir Hwf Hir) Hd) as Hwf2.
  destruct (devices_Ok s2 w2 (wf_memory_length s2 Hwf2)) as (d & Hdd & Hdev).
  exists d. split; [exact Hdd|]. unfold execute_next.
  rewrite (fetch_execute_Ok s w ir (proj1 (wf_PC s Hwf)) Hir), Hd. exact Hdev.
Qed.

(** ** ADD *)

Lemma ADD_effect s w ir :
  wf s ->
  memory s !! Z.to_nat (PC s) = Some ir ->
  opcode_of ir = ADD ->
  exists SR1 op2 s' w',
    registers s !! Z.to_nat (bits 8 6 ir) = Some SR1 /\
    (if Z.testbit ir 5 then op2 = sign_extend 5 ir
     else registers s !! Z.to_nat (bits 2 0 ir) = Some op2) /\
    execute_next s w = Ok (s', w') /\
    registers s' = <[Z.to_nat (bits 11 9 ir) := (SR1 + op2) mod 65536]> (registers s) /\
    CC s' = condition_char (condition_of ((SR1 + op2) mod 65536)).
Proof.
  intros Hwf Hir Hop. pose proof (wf_fetched s ir Hwf Hir) as Hwf1.
  destruct (do_ADD_AND_Ok ADD _ Hwf1) as (s2 & H2).
  destruct (execute_next_through s w ir s2 w Hwf Hir) as (d & _ & Hstep).
  { rewrite Hop. unfold dispatch. simpl. rewrite H2. reflexivity. }
  apply do_ADD_AND_inv in H2 as (SR1 & SR2 & H1 & Hop2 & Hs2). simpl in *.
  rewrite (field3_bits ir 6), (field3_bits ir 9) in * by lia.
  assert (Hsum : exists op2,
    (if Z.testbit ir 5 then op2 = sign_extend 5 ir
     else registers s !! Z.to_nat (bits 2 0 ir) = Some op2) /\
    uint16 (SR1 + SR2) = (SR1 + op2) mod 65536).
  { unfold operand2 in Hop2. simpl in Hop2.
    change 0x0020 with (2 ^ 5) in Hop2. rewrite land_pow2_eqb_0, negb_involutive in Hop2 by lia.
    destruct (Z.testbit ir 5).
    - exists (sign_extend 5 ir). split; [reflexivity|].
      injection Hop2 as <-. rewrite imm5_sign_extend. unfold uint16.
      apply Z.add_mod_idemp_r. lia.
    - exists SR2. split; [|reflexivity].
      apply array_get_Ok in Hop2 as [_ Hop2]. rewrite land_7_bits in Hop2. exact Hop2. }
  destruct Hsum as (op2 & Hop2' & Hsum). rewrite Hsum in Hs2.
  exists SR1, op2, (set_memory (flushed_memory d (memory s2)) s2), (flushed_window d w).
  repeat split; try assumption.
  - subst s2. reflexivity.
  - subst s2. simpl. apply setcc_condition_of. apply Z.mod_pos_bound. lia.
Qed.

(** C1: the claim is that every index into [memory] is reduced modulo 2^16
    and so stays within the array.  The source indexes with the [int]
    expression [PC + PCoffset], which is not reduced.  LD R0, #-1 fetched
    from 0xFFFF runs with PC = 0 and indexes [memory] at -1; LD R0, #1
    fetched from 0xFFFE runs with PC = 0xFFFF and indexes it at 65536. *)
Theorem memory_index_leaves_the_array :
  let below := machine 0xFFFF no_registers [(0xFFFF, 0x21FF)] in
  let above := machine 0xFFFE no_registers [(0xFFFE, 0x2001)] in
  well_formed below = true /\
  execute_next below quiet = Err (MemoryIndexOutOfRange (-1)) /\
  well_formed above = true /\
  execute_next above quiet = Err (MemoryIndexOutOfRange 65536).
Proof. vm_compute. repeat split; reflexivity. Qed.

(** C3, as the code has it: ADD sets DR (bits [11:9]) to SR1 (bits [8:6])
    plus the second operand modulo 2^16 and sets CC from the sum; the second
    operand is the sign-extended 5-bit immediate when bit 5 of IR is 1 and
    the register selected by bits [2:0] otherwise.  The instruction that
    adds the immediate 2 to R1 into R0 is 0x1062: from R1 = 5 it gives
    R0 = 7 and CC = Positive. *)
Theorem ADD_semantics s w ir :
  well_formed s = true ->
  memory s !! Z.to_nat (PC s) = Some ir ->
  opcode_of ir = ADD ->
  exists SR1 op2 s' w',
    registers s !! Z.to_nat (bits 8 6 ir) = Some SR1 /\
    (if Z.testbit ir 5 then op2 = sign_extend 5 ir
     else registers s !! Z.to_nat (bits 2 0 ir) = Some op2) /\
    execute_next s w = Ok (s', w') /\
    registers s' = <[Z.to_nat (bits 11 9 ir) := (SR1 + op2) mod 65536]> (registers s) /\
    CC s' = condition_char (condition_of ((SR1 + op2) mod 65536)) /\
    (ir = 0x1062 -> registers s !! 1%nat = Some 5 ->
     registers s' !! 0%nat = Some 7 /\ CC s' = condition_char Positive).
Proof.
  intros Hwf Hir Hop. apply well_formed_wf in Hwf.
  destruct (ADD_effect s w ir Hwf Hir Hop)
    as (SR1 & op2 & s' & w' & H1 & H2 & Hstep & Hregs & HCC).
  exists SR1, op2, s', w'.
  split; [exact H1|]. split; [exact H2|]. split; [exact Hstep|].
  split; [exact Hregs|]. split; [exact HCC|].
  intros -> HR1.
  change (Z.to_nat (bits 8 6 0x1062)) with 1%nat in H1.
  change (Z.testbit 0x1062 5) with true in H2. cbv beta iota in H2.
  rewrite HR1 in H1. injection H1 as <-. subst op2. split.
  - rewrite Hregs. change (Z.to_nat (bits 11 9 0x1062)) with 0%nat.
    apply list_lookup_insert_eq.
    pose proof (wf_registers_length s Hwf). lia.
  - rewrite HCC. reflexivity.
Qed.

Lemma ADD_semantics_witness :
  exists s' w',
    execute_next (machine 0x3000 [0; 5; 0; 0; 0; 0; 0; 0] [(0x3000, 0x1062)]) quiet
    = Ok (s', w') /\
    registers s' !! 0%nat = Some 7 /\ CC s' = condition_char Positive.
Proof.
  destruct (ADD_semantics (machine 0x3000 [0; 5; 0; 0; 0; 0; 0; 0] [(0x3000, 0x1062)])
              quiet 0x1062)
    as (SR1 & op2 & s' & w' & _ & _ & Hstep & _ & _ & Hexample).
  - vm_compute. reflexivity.
  - vm_compute. reflexivity.
  - vm_compute. reflexivity.
  - exists s', w'. split; [exact Hstep|]. apply Hexample; reflexivity.
Defined.

(** C3 as stated fails: 0x1042 has bit 5 clear, so it is the register-mode
    ADD R0, R1, R2.  From R1 = 5 and R2 = 0 it leaves 5 in R0, not 7. *)
Lemma ADD_0x1042_is_register_mode :
  let s := machine 0x3000 [0; 5; 0; 0; 0; 0; 0; 0] [(0x3000, 0x1042)] in
  well_formed s = true /\
  memory s !! Z.to_nat (PC s) = Some 0x1042 /\
  opcode_of 0x1042 = ADD /\
  Z.testbit 0x1042 5 = false /\
  registers s !! 1%nat = Some 5 /\
  observe (execute_next s quiet)
  = Ok ([5; 5; 0; 0; 0; 0; 0; 0], 0x3001, condition_char Positive, false, []) /\
  ~ (exists s' w', execute_next s quiet = Ok (s', w') /\ registers s' !! 0%nat = Some 7).
Proof.
  intros s.
  assert (Hobs : observe (execute_next s quiet)
                 = Ok ([5; 5; 0; 0; 0; 0; 0; 0], 0x3001, condition_char Positive, false, []))
    by (vm_compute; reflexivity).
  split; [vm_compute; reflexivity|].
  split; [vm_compute; reflexivity|].
  split; [reflexivity|]. split; [reflexivity|]. split; [reflexivity|].
  split; [exact Hobs|].
  intros (s' & w' & Hstep & HR0).
  rewrite Hstep in Hobs. injection Hobs as Hregs _ _ _ _.
  rewrite Hregs in HR0. discriminate.
Qed.

(** ** BR *)

Lemma br_taken_iff ir cc :
  br_taken ir cc = true <->
  (Z.testbit ir 11 = true /\ cc = condition_char Negative) \/
  (Z.testbit ir 10 = true /\ cc = condition_char Zero) \/
  (Z.testbit ir 9 = true /\ cc = condition_char Positive).
Proof.
  unfold br_taken. rewrite !shiftr_land_1_eqb_0, !negb_involutive by lia.
  rewrite !orb_true_iff, !andb_true_iff, !Ascii.eqb_eq. simpl. tauto.
Qed.

Lemma BR_effect s w ir :
  wf s ->
  memory s !! Z.to_nat (PC s) = Some ir ->
  opcode_of ir = BR ->
  exists s' w',
    execute_next s w = Ok (s', w') /\
    PC s' = (if br_taken ir (CC s)
             then uint16 (uint16 (PC s + 1) + PCoffset9 ir)
             else uint16 (PC s + 1)) /\
    registers s' = registers s /\ CC s' = CC s /\ isHalted s' = isHalted s.
Proof.
  intros Hwf Hir Hop.
  destruct (execute_next_through s w ir
              (if br_taken ir (CC s)
               then set_PC (uint16 (uint16 (PC s + 1) + PCoffset9 ir)) (fetched ir s)
               else fetched ir s) w Hwf Hir) as (d & _ & Hstep).
  { rewrite Hop. unfold dispatch, do_BR. simpl. destruct (br_taken ir (CC s)); reflexivity. }
  eexists _, _. split; [exact Hstep|]. simpl.
  destruct (br_taken ir (CC s)); repeat split.
Qed.

(** C6: BR adds the sign-extended 9-bit offset to the incremented PC exactly
    when a condition bit that is set (n = bit 11, z = bit 10, p = bit 9)
    matches the condition code; otherwise the step changes PC by the fetch
    increment only.  This holds for every instruction word and every value
    of CC, so for each of the 8 settings of n, z, p and each of the 3
    condition codes. *)
Theorem BR_truth_table s w ir :
  well_formed s = true ->
  memory s !! Z.to_nat (PC s) = Some ir ->
  opcode_of ir = BR ->
  let matches :=
    (Z.testbit ir 11 = true /\ CC s = condition_char Negative) \/
    (Z.testbit ir 10 = true /\ CC s = condition_char Zero) \/
    (Z.testbit ir 9 = true /\ CC s = condition_char Positive) in
  let incremented := (PC s + 1) mod 65536 in
  exists (taken : bool) s' w',
    execute_next s w = Ok (s', w') /\
    (taken = true <-> matches) /\
    PC s' = (if taken then (incremented + sign_extend 9 ir) mod 65536 else incremented) /\
    registers s' = registers s /\ CC s' = CC s /\ isHalted s' = isHalted s.
Proof.
  intros Hwf Hir Hop matches incremented. apply well_formed_wf in Hwf.
  destruct (BR_effect s w ir Hwf Hir Hop) as (s' & w' & Hstep & HPC & Hrest).
  exists (br_taken ir (CC s)), s', w'.
  split; [exact Hstep|]. split; [apply br_taken_iff|]. split; [|exact Hrest].
  rewrite HPC, PCoffset9_sign_extend. reflexivity.
Qed.

Lemma BR_truth_table_witness :
  exists (taken : bool) s' w',
    execute_next (machine 0x3000 no_registers [(0x3000, 0x0405)]) quiet = Ok (s', w') /\
    taken = true /\ PC s' = 0x3006.
Proof.
  destruct (BR_truth_table (machine 0x3000 no_registers [(0x3000, 0x0405)]) quiet 0x0405)
    as (taken & s' & w' & Hstep & Htaken & HPC & _).
  - vm_compute. reflexivity.
  - vm_compute. reflexivity.
  - vm_compute. reflexivity.
  - exists taken, s', w'. split; [exact Hstep|].
    assert (Ht : taken = true).
    { apply Htaken. right. left. split; reflexivity. }
    split; [exact Ht|]. rewrite HPC, Ht. reflexivity.
Defined.

Lemma br_table_value :
  br_table =
  [ [false; false; false];   (* no bit *)
    [false; false; true];    (* p *)
    [false; true; false];    (* z *)
    [false; true; true];     (* z p *)
    [true; false; false];    (* n *)
    [true; false; true];     (* n p *)
    [true; true; false];     (* n z *)
    [true; true; true] ].    (* n z p *)
Proof. reflexivity. Qed.

(** ** LEA *)

Lemma LEA_effect s w ir :
  wf s ->
  memory s !! Z.to_nat (PC s) = Some ir ->
  opcode_of ir = LEA ->
  let v := uint16 (uint16 (PC s + 1) + PCoffset9 ir) in
  exists s' w',
    execute_next s w = Ok (s', w') /\
    registers s' = <[Z.to_nat (bits 11 9 ir) := v]> (registers s) /\
    registers s' !! Z.to_nat (bits 11 9 ir) = Some v /\
    CC s' = setcc v /\ PC s' = uint16 (PC s + 1).
Proof.
  intros Hwf Hir Hop v. pose proof (wf_fetched s ir Hwf Hir) as Hwf1.
  destruct (do_LEA_Ok _ Hwf1) as (s2 & H2).
  destruct (execute_next_through s w ir s2 w Hwf Hir) as (d & _ & Hstep).
  { rewrite Hop. unfold dispatch. simpl. rewrite H2. reflexivity. }
  apply do_LEA_inv in H2. simpl in H2. rewrite (field3_bits ir 9) in H2 by lia.
  eexists _, _. split; [exact Hstep|]. subst s2. simpl. repeat split.
  apply list_lookup_insert_eq.
  rewrite <- (field3_bits ir 9) by lia.
  pose proof (field3_range ir 9). pose proof (wf_registers_length s Hwf). lia.
Qed.

(** C8: the 9-bit offset field is sign-extended to 16 bits before use: the
    offset that the code computes from any instruction word is the field
    (bits [8:0]) itself when the field is below 0x100 and the field minus
    0x200 otherwise, so the field 0x1FF is -1 and the field 0x100 is -256;
    LEA leaves the incremented PC plus that offset, modulo 2^16, in DR, and
    executed with the (incremented) PC at 0x3000 and the offset field 0x1FF
    it leaves 0x2FFF in DR. *)
Theorem LEA_sign_extends_offset9 s w ir :
  well_formed s = true ->
  memory s !! Z.to_nat (PC s) = Some ir ->
  opcode_of ir = LEA ->
  let field := bits 8 0 ir in
  let offset := if field <? 0x100 then field else field - 0x200 in
  PCoffset9 ir = offset /\
  offset = sign_extend 9 ir /\
  (field = 0x1FF -> offset = -1) /\
  (field = 0x100 -> offset = -256) /\
  exists s' w',
    execute_next s w = Ok (s', w') /\
    PC s' = (PC s + 1) mod 65536 /\
    registers s' !! Z.to_nat (bits 11 9 ir) = Some ((PC s' + offset) mod 65536) /\
    CC s' = condition_char (condition_of ((PC s' + offset) mod 65536)) /\
    (field = 0x1FF -> PC s' = 0x3000 ->
     registers s' !! Z.to_nat (bits 11 9 ir) = Some 0x2FFF).
Proof.
  intros Hwf Hir Hop field offset. apply well_formed_wf in Hwf.
  assert (Hsext : sign_extend 9 ir = offset).
  { unfold offset, field, sign_extend, bits.
    change (2 ^ 0) with 1. rewrite Z.div_1_r. reflexivity. }
  assert (Hoff : PCoffset9 ir = offset)
    by (rewrite PCoffset9_sign_extend; exact Hsext).
  split; [exact Hoff|]. split; [symmetry; exact Hsext|].
  split; [intros H; unfold offset; rewrite H; reflexivity|].
  split; [intros H; unfold offset; rewrite H; reflexivity|].
  destruct (LEA_effect s w ir Hwf Hir Hop) as (s' & w' & Hstep & _ & HDR & HCC & HPC).
  rewrite Hoff in HDR, HCC.
  exists s', w'. split; [exact Hstep|]. split; [exact HPC|].
  rewrite HPC. split; [exact HDR|].
  split; [rewrite HCC; apply setcc_condition_of, uint16_u16|].
  intros Hf H3000. rewrite HDR. unfold uint16 at 1. rewrite H3000.
  unfold offset. rewrite Hf. reflexivity.
Qed.

Lemma LEA_sign_extends_offset9_witness :
  PCoffset9 0xE1FF = -1 /\
  exists s' w',
    execute_next (machine 0x2FFF no_registers [(0x2FFF, 0xE1FF)]) quiet = Ok (s', w') /\
    registers s' !! 0%nat = Some 0x2FFF.
Proof.
  destruct (LEA_sign_extends_offset9
              (machine 0x2FFF no_registers [(0x2FFF, 0xE1FF)]) quiet 0xE1FF)
    as (Hoff & _ & Hm1 & _ & s' & w' & Hstep & HPC & HDR & _ & Hexample).
  - vm_compute. reflexivity.
  - vm_compute. reflexivity.
  - vm_compute. reflexivity.
  - split; [rewrite Hoff; apply Hm1; reflexivity|].
    exists s', w'. split; [exact Hstep|].
    apply Hexample; [reflexivity|]. rewrite HPC. reflexivity.
Defined.

(** Read as a state before the fetch, PC = 0x3000 gives another result: the
    fetch increments PC to 0x3001 and LEA with offset -1 leaves 0x3000. *)
Lemma LEA_fetched_from_0x3000 :
  observe (execute_next (machine 0x3000 no_registers [(0x3000, 0xE1FF)]) quiet)
  = Ok ([0x3000; 0; 0; 0; 0; 0; 0; 0], 0x3001, condition_char Positive, false, []).
Proof. vm_compute. reflexivity. Qed.

(** ** The claims on every step *)

Lemma land_0xff_mod d : Z.land d 0xff = d mod 256.
Proof. change 0xff with (Z.ones 8). rewrite Z.land_ones by lia. reflexivity. Qed.

(** C5: whatever instruction ran, once it has run the step goes on to the
    devices: a nonzero DDR cell has its low 8 bits echoed as one character
    and is cleared, and the cells KBSR and DSR hold 0x8000 when the step
    returns, whatever they held before.  [s1] and [w1] are the state and the
    window at the end of the instruction's execution, which is reached from
    every state in which [step_completes] holds. *)
Theorem devices_after_every_instruction s w :
  well_formed s = true ->
  (step_completes s w = true -> exists s1 w1, fetch_execute s w = Ok (s1, w1)) /\
  forall s1 w1,
    fetch_execute s w = Ok (s1, w1) ->
    exists d s' w',
      memory s1 !! Z.to_nat DDR = Some d /\
      execute_next s w = Ok (s', w') /\
      calls w' = calls w1 ++ (if d =? 0 then [] else [Wechochar (d mod 256)]) /\
      memory s' !! Z.to_nat DDR = Some 0 /\
      memory s' !! Z.to_nat KBSR = Some 0x8000 /\
      memory s' !! Z.to_nat DSR = Some 0x8000.
Proof.
  intros Hwf. apply well_formed_wf in Hwf.
  split; [apply fetch_execute_completes; exact Hwf|].
  intros s1 w1 Hfe. pose proof Hfe as Hfe'.
  apply fetch_execute_inv in Hfe' as (ir & _ & Hir & Hd).
  pose proof (wf_dispatch _ _ _ _ _ (wf_fetched s ir Hwf Hir) Hd) as Hwf1.
  pose proof (wf_memory_length s1 Hwf1) as Hlen.
  destruct (devices_Ok s1 w1 Hlen) as (d & Hdd & Hdev).
  exists d, (set_memory (flushed_memory d (memory s1)) s1), (flushed_window d w1).
  split; [exact Hdd|].
  split; [unfold execute_next; rewrite Hfe; exact Hdev|].
  split.
  { unfold flushed_window. destruct (d =? 0); simpl.
    - rewrite app_nil_r. reflexivity.
    - rewrite land_0xff_mod. reflexivity. }
  simpl. split; [exact (flushed_memory_DDR d _ Hlen Hdd)|].
  exact (flushed_memory_status d _ Hlen).
Qed.

Lemma devices_after_every_instruction_witness :
  exists s' w',
    execute_next (machine 0x3000 no_registers [(0x3000, 0x1020); (0xFE06, 0x0141)]) quiet
    = Ok (s', w') /\
    calls w' = [Wechochar 0x41] /\
    memory s' !! Z.to_nat DDR = Some 0 /\
    memory s' !! Z.to_nat KBSR = Some 0x8000 /\
    memory s' !! Z.to_nat DSR = Some 0x8000.
Proof.
  pose (s := machine 0x3000 no_registers [(0x3000, 0x1020); (0xFE06, 0x0141)]).
  assert (Hobs : observe (execute_next s quiet)
                 = Ok (no_registers, 0x3001, "Z"%char, false, [Wechochar 0x41]))
    by (vm_compute; reflexivity).
  destruct (devices_after_every_instruction s quiet) as [Hrun Hdev];
    [vm_compute; reflexivity|].
  destruct Hrun as (s1 & w1 & Hfe); [vm_compute; reflexivity|].
  destruct (Hdev s1 w1 Hfe) as (d & s' & w' & _ & Hstep & _ & Hrest).
  exists s', w'. split; [exact Hstep|]. split; [|exact Hrest].
  rewrite Hstep in Hobs. injection Hobs as _ _ _ _ Hcalls. exact Hcalls.
Defined.

(** C7: after a step, CC is the sign of the value just written to the
    destination register (Zero if it is 0, Negative if it is below 0 read as
    a signed 16-bit number, Positive otherwise) when the instruction is one
    of ADD, AND, NOT, LD, LDI, LDR, LEA; after any other instruction,
    implemented or not, CC is what it was.  The step returns from every
    state in which [step_completes] holds. *)
Theorem CC_after_step s w :
  well_formed s = true ->
  (step_completes s w = true -> exists s' w', execute_next s w = Ok (s', w')) /\
  forall s' w',
    execute_next s w = Ok (s', w') ->
    memory s !! Z.to_nat (PC s) = Some (IR s') /\
    if updates_CC (bits 15 12 (IR s'))
    then exists v,
           registers s' !! Z.to_nat (bits 11 9 (IR s')) = Some v /\
           CC s' = condition_char (condition_of v)
    else CC s' = CC s.
Proof.
  intros Hwf. apply well_formed_wf in Hwf.
  split; [apply execute_next_completes; exact Hwf|].
  intros s' w' Hstep.
  pose proof (wf_execute_next s w s' w' Hwf Hstep) as Hwf'.
  apply execute_next_inv in Hstep as (ir & s1 & w1 & _ & Hir & Hd & Hdev).
  apply devices_frame in Hdev as (Hregs & _ & HIR & HCC & _).
  pose proof (dispatch_IR _ _ _ _ _ Hd) as HIR1. simpl in HIR1.
  rewrite HIR, HIR1, Hregs, HCC. split; [exact Hir|].
  pose proof (dispatch_CC _ _ _ _ _ (wf_registers_length _ (wf_fetched s ir Hwf Hir)) Hd)
    as H.
  rewrite <- opcode_of_bits. simpl in H.
  rewrite (field3_bits ir 9) in H by lia.
  destruct (updates_CC (opcode_of ir)); [|exact H].
  destruct H as (v & Hv & Hc). exists v. split; [exact Hv|].
  rewrite Hc. apply setcc_condition_of.
  rewrite <- Hregs in Hv.
  exact (Forall_u16_lookup _ _ _ (wf_registers s' Hwf') Hv).
Qed.

Lemma CC_after_step_witness :
  exists s' w',
    execute_next (machine 0x3000 no_registers [(0x3000, 0x903F)]) quiet = Ok (s', w') /\
    registers s' !! 0%nat = Some 0xFFFF /\
    CC s' = condition_char Negative.
Proof.
  pose (s := machine 0x3000 no_registers [(0x3000, 0x903F)]).
  assert (Hobs : observe (execute_next s quiet)
                 = Ok ([0xFFFF; 0; 0; 0; 0; 0; 0; 0], 0x3001, condition_char Negative, false, []))
    by (vm_compute; reflexivity).
  destruct (CC_after_step s quiet) as [Hret Hcc]; [vm_compute; reflexivity|].
  destruct Hret as (s' & w' & Hstep); [vm_compute; reflexivity|].
  exists s', w'. split; [exact Hstep|].
  destruct (Hcc s' w' Hstep) as [_ H].
  rewrite Hstep in Hobs. injection Hobs as Hregs _ HCC _ _.
  rewrite Hregs, HCC. split; reflexivity.
Defined.

(** C10: every index into the register file is a 3-bit field of IR or the
    constant 7, so it lies in 0..7 and no step ends in a register index out
    of range, whatever the state and the instruction word. *)
Theorem register_index_in_bounds s w :
  Z.of_nat (length (registers s)) = 8 ->
  (forall ir k, 0 <= field3 ir k <= 7) /\
  (forall ir, 0 <= Z.land ir 7 <= 7) /\
  forall i, execute_next s w <> Err (RegisterIndexOutOfRange i).
Proof.
  intros Hlen. split; [|split].
  - intros ir k. pose proof (field3_range ir k). lia.
  - intros ir. pose proof (land_7_range ir). lia.
  - exact (reg_safe_execute_next s w Hlen).
Qed.

Lemma register_index_in_bounds_witness :
  0 <= field3 0x1FFF 9 <= 7 /\
  execute_next (machine 0x3000 no_registers [(0x3000, 0x1FFF)]) quiet
  <> Err (RegisterIndexOutOfRange 7).
Proof.
  destruct (register_index_in_bounds
              (machine 0x3000 no_registers [(0x3000, 0x1FFF)]) quiet)
    as (Hfield & _ & Hsafe).
  - reflexivity.
  - split; [apply Hfield | apply Hsafe].
Defined.

(** ** STI *)

Lemma flushed_window_frame d w :
  typeahead (flushed_window d w) = typeahead w /\
  delay (flushed_window d w) = delay w /\
  exists echo, calls (flushed_window d w) = calls w ++ echo.
Proof.
  unfold flushed_window. destruct (d =? 0); simpl.
  - repeat split. exists []. rewrite app_nil_r. reflexivity.
  - repeat split. eexists. reflexivity.
Qed.

(** What a completed step on an STI does.  [p] is the pointer cell, [a] the
    address it holds, [SR] the value stored.  The flag is set from the
    pointer cell as it is after the store: from [SR] when the pointer cell
    is its own target, from [a] otherwise. *)
Lemma STI_effect s w ir s' w' :
  wf s ->
  memory s !! Z.to_nat (PC s) = Some ir ->
  opcode_of ir = STI ->
  execute_next s w = Ok (s', w') ->
  let p := uint16 (PC s + 1) + PCoffset9 ir in
  exists SR a,
    registers s !! Z.to_nat (bits 11 9 ir) = Some SR /\
    0 <= p /\ memory s !! Z.to_nat p = Some a /\
    (a <> KBSR -> a <> DSR -> a <> DDR -> memory s' !! Z.to_nat a = Some SR) /\
    isHalted s' = isHalted s || ((if a =? p then SR else a) =? MCR).
Proof.
  intros Hwf Hir Hop Hstep p.
  apply execute_next_inv in Hstep as (ir' & s1 & w1 & _ & Hir' & Hd & Hdev).
  rewrite Hir in Hir'. injection Hir' as <-.
  rewrite Hop in Hd. unfold dispatch in Hd. simpl in Hd.
  apply bind_Ok in Hd as (s2 & H2 & Hd). injection Hd as <- <-.
  apply do_STI_inv in H2 as (SR & a & b & HSR & Hp & Ha & Hin & -> & ->).
  simpl in *. rewrite (field3_bits ir 9) in HSR by lia.
  apply devices_inv in Hdev as (d & _ & -> & _). simpl.
  exists SR, a. repeat split; try assumption.
  intros H1 H2 H3. rewrite flushed_memory_other by solve [assumption | lia].
  apply list_lookup_insert_eq. lia.
Qed.

(** Away from a pointer cell that is its own target, STI halts exactly on a
    store to MCR. *)
Lemma STI_halts_on_MCR s w ir s' w' :
  wf s ->
  memory s !! Z.to_nat (PC s) = Some ir ->
  opcode_of ir = STI ->
  execute_next s w = Ok (s', w') ->
  let p := uint16 (PC s + 1) + PCoffset9 ir in
  forall a, memory s !! Z.to_nat p = Some a -> a <> p ->
  isHalted s' = isHalted s || (a =? MCR).
Proof.
  intros Hwf Hir Hop Hstep p a Ha Hne.
  destruct (STI_effect s w ir s' w' Hwf Hir Hop Hstep) as (SR & a' & _ & _ & Ha' & _ & Hh).
  fold p in Ha', Hh. rewrite Ha in Ha'. injection Ha' as <-.
  rewrite Hh. destruct (Z.eqb_spec a p); [contradiction | reflexivity].
Qed.

(** C2: the claim is that STI sets isHalted exactly when the address it
    stores to is MCR.  The source compares the pointer cell with MCR after
    the store, so the two differ when the pointer cell is its own target.
    STI R0, #0 at 0x3000 with memory[0x3001] = 0x3001 and R0 = 0xFFFE stores
    to 0x3001 and halts; STI R0, #0 at 0xFFFD with memory[0xFFFE] = 0xFFFE
    and R0 = 7 stores 7 to MCR and does not halt. *)
Theorem STI_compares_after_the_store :
  let away := machine 0x3000 [0xFFFE; 0; 0; 0; 0; 0; 0; 0]
                [(0x3000, 0xB000); (0x3001, 0x3001)] in
  let onto := machine 0xFFFD [7; 0; 0; 0; 0; 0; 0; 0]
                [(0xFFFD, 0xB000); (0xFFFE, 0xFFFE)] in
  opcode_of 0xB000 = STI /\ bits 11 9 0xB000 = 0 /\ PCoffset9 0xB000 = 0 /\
  (well_formed away = true /\
   memory away !! Z.to_nat 0x3001 = Some 0x3001 /\ 0x3001 <> MCR /\
   isHalted away = false /\
   observe (execute_next away quiet)
   = Ok ([0xFFFE; 0; 0; 0; 0; 0; 0; 0], 0x3001, "Z"%char, true, []) /\
   peek (execute_next away quiet) 0x3001 = Some 0xFFFE) /\
  (well_formed onto = true /\
   memory onto !! Z.to_nat 0xFFFE = Some MCR /\
   observe (execute_next onto quiet)
   = Ok ([7; 0; 0; 0; 0; 0; 0; 0], 0xFFFE, "Z"%char, false, []) /\
   peek (execute_next onto quiet) MCR = Some 7).
Proof.
  intros away onto.
  split; [reflexivity|]. split; [reflexivity|]. split; [reflexivity|].
  split.
  - split; [vm_compute; reflexivity|]. split; [vm_compute; reflexivity|].
    split; [discriminate|]. split; [reflexivity|].
    split; vm_compute; reflexivity.
  - split; [vm_compute; reflexivity|]. split; [vm_compute; reflexivity|].
    split; vm_compute; reflexivity.
Qed.

(** C9: the claim is that isHalted goes from false to true only through an
    STI that stores to MCR.  STI R1, #0 at 0x4000 with memory[0x4001] =
    0x4001 and R1 = 0xFFFE stores to 0x4001, leaves the MCR cell alone, and
    sets isHalted: the same comparison after the store as in C2. *)
Theorem halt_without_a_store_to_MCR :
  let s := machine 0x4000 [0; 0xFFFE; 0; 0; 0; 0; 0; 0]
             [(0x4000, 0xB200); (0x4001, 0x4001)] in
  well_formed s = true /\
  opcode_of 0xB200 = STI /\ bits 11 9 0xB200 = 1 /\ PCoffset9 0xB200 = 0 /\
  memory s !! Z.to_nat 0x4001 = Some 0x4001 /\ 0x4001 <> MCR /\
  isHalted s = false /\
  memory s !! Z.to_nat MCR = Some 0 /\
  peek (execute_next s quiet) MCR = Some 0 /\
  peek (execute_next s quiet) 0x4001 = Some 0xFFFE /\
  observe (execute_next s quiet)
  = Ok ([0; 0xFFFE; 0; 0; 0; 0; 0; 0], 0x4001, "Z"%char, true, []).
Proof.
  intros s.
  split; [vm_compute; reflexivity|].
  split; [reflexivity|]. split; [reflexivity|]. split; [reflexivity|].
  split; [vm_compute; reflexivity|]. split; [discriminate|].
  split; [reflexivity|].
  split; [vm_compute; reflexivity|].
  split; [vm_compute; reflexivity|].
  split; vm_compute; reflexivity.
Qed.

(** ** LDI *)

(** What a completed step on an LDI does.  [p] is the pointer cell and [a]
    the address it holds. *)
Lemma LDI_effect s w ir s' w' :
  wf s ->
  memory s !! Z.to_nat (PC s) = Some ir ->
  opcode_of ir = LDI ->
  execute_next s w = Ok (s', w') ->
  let p := uint16 (PC s + 1) + PCoffset9 ir in
  exists a v,
    0 <= p /\ memory s !! Z.to_nat p = Some a /\
    registers s' = <[Z.to_nat (bits 11 9 ir) := v]> (registers s) /\
    CC s' = condition_char (condition_of v) /\
    if a =? KBDR then
      exists k rest echo,
        typeahead w = k :: rest /\ v = k mod 65536 /\
        typeahead w' = rest /\ delay w' = 0 /\
        calls w' = calls w ++ [Wtimeout (-1); Wgetch k; Wtimeout 0] ++ echo
    else
      memory s !! Z.to_nat a = Some v /\
      typeahead w' = typeahead w /\ delay w' = delay w.
Proof.
  intros Hwf Hir Hop Hstep p.
  apply execute_next_inv in Hstep as (ir' & s1 & w1 & _ & Hir' & Hd & Hdev).
  rewrite Hir in Hir'. injection Hir' as <-.
  rewrite Hop in Hd. unfold dispatch in Hd. simpl in Hd.
  apply do_LDI_inv in Hd as (a & v & Hp & Ha & -> & Hcase).
  simpl in *.
  apply devices_inv in Hdev as (d & _ & -> & ->). simpl.
  destruct (flushed_window_frame d w1) as (Ht & Hdl & echo & Hc).
  exists a, v. split; [exact Hp|]. split; [exact Ha|].
  split; [rewrite <- field3_9; reflexivity|].
  assert (Hv : u16 v).
  { destruct (a =? KBDR).
    - destruct Hcase as (k & rest & _ & -> & _). apply uint16_u16.
    - destruct Hcase as (Hv & _ & _).
      exact (Forall_u16_lookup _ _ _ (wf_memory s Hwf) Hv). }
  split; [apply setcc_condition_of; exact Hv|].
  destruct (a =? KBDR).
  - destruct Hcase as (k & rest & Hk & -> & ->). simpl in *.
    exists k, rest, echo. repeat split; try assumption.
    rewrite Hc. rewrite <- app_assoc. reflexivity.
  - destruct Hcase as (Hv' & _ & ->). repeat split; assumption.
Qed.

(** C4: the claim states what LDI loads from every state.  The source
    indexes [memory] with [PC + PCoffset] unreduced, as in C1: LDI R0, #-1
    fetched from 0xFFFF runs with PC = 0 and reads the pointer cell at
    index -1, outside the array, where the claim has it at 0xFFFF. *)
Theorem LDI_pointer_cell_outside_memory :
  let s := machine 0xFFFF no_registers [(0xFFFF, 0xA1FF)] in
  well_formed s = true /\
  opcode_of 0xA1FF = LDI /\ PCoffset9 0xA1FF = -1 /\
  uint16 (PC s + 1) + PCoffset9 0xA1FF = -1 /\
  (uint16 (PC s + 1) + PCoffset9 0xA1FF) mod 65536 = 0xFFFF /\
  execute_next s quiet = Err (MemoryIndexOutOfRange (-1)).
Proof.
  intros s.
  split; [vm_compute; reflexivity|].
  split; [reflexivity|]. split; [reflexivity|]. split; [reflexivity|].
  split; [reflexivity|]. vm_compute. reflexivity.
Qed.

(** * Further properties of [execute_next] *)

(** ** A step, in terms of the case of the switch it runs *)

Lemma device_cell_false a :
  device_cell a = false <-> a <> KBSR /\ a <> DSR /\ a <> DDR.
Proof.
  unfold device_cell. rewrite !orb_false_iff, !Z.eqb_neq. tauto.
Qed.

(** The step that runs the case [dispatch] ends in the state of the case,
    but for the device cells and the echo. *)
Lemma step_of_dispatch s w ir s2 w2 :
  wf s ->
  memory s !! Z.to_nat (PC s) = Some ir ->
  dispatch (opcode_of ir) (fetched ir s) w = Ok (s2, w2) ->
  exists s' w',
    execute_next s w = Ok (s', w') /\
    registers s' = registers s2 /\ PC s' = PC s2 /\ IR s' = IR s2 /\
    CC s' = CC s2 /\ isHalted s' = isHalted s2 /\
    (forall a, 0 <= a -> device_cell a = false ->
               memory s' !! Z.to_nat a = memory s2 !! Z.to_nat a) /\
    typeahead w' = typeahead w2 /\ delay w' = delay w2 /\
    exists d, memory s2 !! Z.to_nat DDR = Some d /\
              calls w' = calls w2 ++ (if d =? 0 then [] else [Wechochar (d mod 256)]).
Proof.
  intros Hwf Hir Hd.
  destruct (execute_next_through s w ir s2 w2 Hwf Hir Hd) as (d & Hdd & Hstep).
  eexists _, _. split; [exact Hstep|]. simpl.
  do 5 (split; [reflexivity|]).
  split.
  { intros a Ha Hdev. apply device_cell_false in Hdev as (H1 & H2 & H3).
    apply flushed_memory_other; assumption. }
  unfold flushed_window.
  destruct (d =? 0) eqn:E; simpl; (split; [reflexivity|]); (split; [reflexivity|]);
    exists d; rewrite E; (split; [exact Hdd|]).
  - rewrite app_nil_r. reflexivity.
  - rewrite land_0xff_mod. reflexivity.
Qed.

(** The same, read backwards from a step that returned. *)
Lemma dispatch_of_step s w s' w' :
  wf s ->
  execute_next s w = Ok (s', w') ->
  exists ir s2 w2,
    memory s !! Z.to_nat (PC s) = Some ir /\
    dispatch (opcode_of ir) (fetched ir s) w = Ok (s2, w2) /\
    registers s' = registers s2 /\ PC s' = PC s2 /\ IR s' = ir /\
    CC s' = CC s2 /\ isHalted s' = isHalted s2 /\
    (forall a, 0 <= a -> device_cell a = false ->
               memory s' !! Z.to_nat a = memory s2 !! Z.to_nat a) /\
    typeahead w' = typeahead w2 /\ delay w' = delay w2 /\
    exists d, memory s2 !! Z.to_nat DDR = Some d /\
              calls w' = calls w2 ++ (if d =? 0 then [] else [Wechochar (d mod 256)]).
Proof.
  intros Hwf Hstep. pose proof Hstep as Hstep'.
  apply execute_next_inv in Hstep' as (ir & s2 & w2 & _ & Hir & Hd & _).
  destruct (step_of_dispatch s w ir s2 w2 Hwf Hir Hd)
    as (s'' & w'' & Hstep'' & Hregs & HPC & HIR & Hrest).
  rewrite Hstep in Hstep''. injection Hstep'' as <- <-.
  exists ir, s2, w2. split; [exact Hir|]. split; [exact Hd|].
  split; [exact Hregs|]. split; [exact HPC|].
  split; [rewrite HIR; exact (dispatch_IR _ _ _ _ _ Hd)|]. exact Hrest.
Qed.

(** ** What the cases of the switch leave alone *)

Lemma not_in_opcodes opcode (l : list Z) :
  implemented opcode = false ->
  (forall x, In x l -> In x [TRAP; LEA; LDI; NOT; LD; ADD; AND; BR; LDR; ST; STR; STI; JMP; JSR]) ->
  existsb (Z.eqb opcode) l = false.
Proof.
  intros Himpl Hsub. destruct (existsb (Z.eqb opcode) l) eqn:E; [|reflexivity].
  apply existsb_exists in E as (x & Hx & Hxo).
  unfold implemented in Himpl.
  assert (existsb (Z.eqb opcode)
            [TRAP; LEA; LDI; NOT; LD; ADD; AND; BR; LDR; ST; STR; STI; JMP; JSR] = true)
    by (apply existsb_exists; exists x; split; [apply Hsub, Hx | exact Hxo]).
  congruence.
Qed.

(** Only ST, STR and STI store into [memory]. *)
Lemma dispatch_memory opcode s w s' w' :
  dispatch opcode s w = Ok (s', w') -> stores opcode = false -> memory s' = memory s.
Proof.
  revert opcode s w s' w'.
  apply (dispatch_elim (fun opcode s _ s' _ => stores opcode = false -> memory s' = memory s));
    intros s w s'.
  - intros H _. apply do_TRAP_inv in H as (v & _ & ->). reflexivity.
  - intros H _. apply do_LEA_inv in H as ->. reflexivity.
  - intros w' H _. apply do_LDI_inv in H as (a & v & _ & _ & -> & _). reflexivity.
  - intros H _. apply do_NOT_inv in H as (SR1 & _ & ->). reflexivity.
  - intros H _. apply do_LD_inv in H as (v & _ & _ & ->). reflexivity.
  - intros H _. apply do_ADD_AND_inv in H as (SR1 & SR2 & _ & _ & ->). reflexivity.
  - intros H _. apply do_ADD_AND_inv in H as (SR1 & SR2 & _ & _ & ->). reflexivity.
  - intros H _. apply do_BR_inv in H as ->. destruct (br_taken _ _); reflexivity.
  - intros H _. apply do_LDR_inv in H as (SR1 & v & _ & _ & _ & ->). reflexivity.
  - intros _ [=].
  - intros _ [=].
  - intros _ [=].
  - intros H _. apply do_JMP_inv in H as (SR1 & _ & ->). reflexivity.
  - intros H _. apply do_JSR_inv in H as (target & _ & ->). reflexivity.
  - reflexivity.
Qed.

(** Only TRAP, BR, JMP and JSR assign [PC]. *)
Lemma dispatch_PC opcode s w s' w' :
  dispatch opcode s w = Ok (s', w') -> jumps opcode = false -> PC s' = PC s.
Proof.
  revert opcode s w s' w'.
  apply (dispatch_elim (fun opcode s _ s' _ => jumps opcode = false -> PC s' = PC s));
    intros s w s'.
  - intros _ [=].
  - intros H _. apply do_LEA_inv in H as ->. reflexivity.
  - intros w' H _. apply do_LDI_inv in H as (a & v & _ & _ & -> & _). reflexivity.
  - intros H _. apply do_NOT_inv in H as (SR1 & _ & ->). reflexivity.
  - intros H _. apply do_LD_inv in H as (v & _ & _ & ->). reflexivity.
  - intros H _. apply do_ADD_AND_inv in H as (SR1 & SR2 & _ & _ & ->). reflexivity.
  - intros H _. apply do_ADD_AND_inv in H as (SR1 & SR2 & _ & _ & ->). reflexivity.
  - intros _ [=].
  - intros H _. apply do_LDR_inv in H as (SR1 & v & _ & _ & _ & ->). reflexivity.
  - intros H _. apply do_ST_inv in H as (SR1 & _ & _ & ->). reflexivity.
  - intros H _. apply do_STR_inv in H as (SR1 & SR2 & _ & _ & _ & ->). reflexivity.
  - intros H _. apply do_STI_inv in H as (SR1 & a & b & _ & _ & _ & _ & _ & ->). reflexivity.
  - intros _ [=].
  - intros _ [=].
  - reflexivity.
Qed.

Lemma lookup_insert_other (l : list Z) i j v :
  0 <= i -> 0 <= j -> i <> j -> <[Z.to_nat i := v]> l !! Z.to_nat j = l !! Z.to_nat j.
Proof. intros Hi Hj Hne. apply list_lookup_insert_ne. lia. Qed.

(** A case writes no register but the one named by bits [11:9], when it
    updates CC, and R7, when it is TRAP or JSR. *)
Lemma dispatch_registers opcode s w s' w' :
  dispatch opcode s w = Ok (s', w') ->
  forall r, 0 <= r ->
    (updates_CC opcode = true -> r <> field3 (IR s) 9) ->
    (links opcode = true -> r <> 7) ->
    registers s' !! Z.to_nat r = registers s !! Z.to_nat r.
Proof.
  revert opcode s w s' w'.
  apply (dispatch_elim (fun opcode s _ s' _ =>
           forall r, 0 <= r ->
             (updates_CC opcode = true -> r <> field3 (IR s) 9) ->
             (links opcode = true -> r <> 7) ->
             registers s' !! Z.to_nat r = registers s !! Z.to_nat r));
    intros s w s'.
  - intros H r Hr _ H7. apply do_TRAP_inv in H as (v & _ & ->). simpl.
    apply (lookup_insert_other _ 7 r); [lia | exact Hr |].
    specialize (H7 eq_refl). lia.
  - intros H r Hr Hdr _. apply do_LEA_inv in H as ->. simpl.
    pose proof (field3_range (IR s) 9). specialize (Hdr eq_refl).
    apply lookup_insert_other; lia.
  - intros w' H r Hr Hdr _. apply do_LDI_inv in H as (a & v & _ & _ & -> & _). simpl.
    pose proof (field3_range (IR s) 9). specialize (Hdr eq_refl).
    apply lookup_insert_other; lia.
  - intros H r Hr Hdr _. apply do_NOT_inv in H as (SR1 & _ & ->). simpl.
    pose proof (field3_range (IR s) 9). specialize (Hdr eq_refl).
    apply lookup_insert_other; lia.
  - intros H r Hr Hdr _. apply do_LD_inv in H as (v & _ & _ & ->). simpl.
    pose proof (field3_range (IR s) 9). specialize (Hdr eq_refl).
    apply lookup_insert_other; lia.
  - intros H r Hr Hdr _. apply do_ADD_AND_inv in H as (SR1 & SR2 & _ & _ & ->). simpl.
    pose proof (field3_range (IR s) 9). specialize (Hdr eq_refl).
    apply lookup_insert_other; lia.
  - intros H r Hr Hdr _. apply do_ADD_AND_inv in H as (SR1 & SR2 & _ & _ & ->). simpl.
    pose proof (field3_range (IR s) 9). specialize (Hdr eq_refl).
    apply lookup_insert_other; lia.
  - intros H r _ _ _. apply do_BR_inv in H as ->. destruct (br_taken _ _); reflexivity.
  - intros H r Hr Hdr _. apply do_LDR_inv in H as (SR1 & v & _ & _ & _ & ->). simpl.
    pose proof (field3_range (IR s) 9). specialize (Hdr eq_refl).
    apply lookup_insert_other; lia.
  - intros H r _ _ _. apply do_ST_inv in H as (SR1 & _ & _ & ->). reflexivity.
  - intros H r _ _ _. apply do_STR_inv in H as (SR1 & SR2 & _ & _ & _ & ->). reflexivity.
  - intros H r _ _ _. apply do_STI_inv in H as (SR1 & a & b & _ & _ & _ & _ & _ & ->).
    reflexivity.
  - intros H r _ _ _. apply do_JMP_inv in H as (SR1 & _ & ->). reflexivity.
  - intros H r Hr _ H7. apply do_JSR_inv in H as (target & _ & ->). simpl.
    apply (lookup_insert_other _ 7 r); [lia | exact Hr |].
    specialize (H7 eq_refl). lia.
  - reflexivity.
Qed.

(** Only an LDI through a cell that holds KBDR touches the window. *)
Lemma dispatch_window opcode s w s' w' :
  dispatch opcode s w = Ok (s', w') ->
  opcode = opcode_of (IR s) ->
  if reads_keyboard s
  then exists k rest, typeahead w = k :: rest /\
         w' = mkWINDOW 0 rest (calls w ++ [Wtimeout (-1); Wgetch k; Wtimeout 0])
  else w' = w.
Proof.
  revert opcode s w s' w'.
  apply (dispatch_elim (fun opcode s w _ w' =>
           opcode = opcode_of (IR s) ->
           if reads_keyboard s
           then exists k rest, typeahead w = k :: rest /\
                  w' = mkWINDOW 0 rest (calls w ++ [Wtimeout (-1); Wgetch k; Wtimeout 0])
           else w' = w));
    intros s w s'; unfold reads_keyboard;
    try (intros _ <-; reflexivity).
  - intros w' H <-. simpl.
    apply do_LDI_inv in H as (a & v & _ & Ha & _ & Hcase). rewrite Ha. simpl.
    destruct (a =? KBDR).
    + destruct Hcase as (k & rest & Hk & _ & ->). exists k, rest. split; [exact Hk | reflexivity].
    + destruct Hcase as (_ & _ & ->). reflexivity.
  - intros Himpl <-.
    assert (E : existsb (Z.eqb s) [LDI] = false).
    { apply not_in_opcodes; [exact Himpl|]. intros x [<-|[]]. simpl. tauto. }
    simpl in E. rewrite orb_false_r in E. rewrite E. reflexivity.
Qed.

(** ** How a case of the switch fails *)

Lemma mem_get_Err s i f :
  wf s -> mem_get (memory s) i = Err f -> f = MemoryIndexOutOfRange i /\ ~ u16 i.
Proof.
  intros Hwf H. apply array_get_Err in H as [-> Hn].
  rewrite (wf_memory_length s Hwf) in Hn. split; [reflexivity | exact Hn].
Qed.

Lemma mem_set_Err s i v f :
  wf s -> mem_set (memory s) i v = Err f -> f = MemoryIndexOutOfRange i /\ ~ u16 i.
Proof.
  intros Hwf H. apply array_set_Err in H as [-> Hn].
  rewrite (wf_memory_length s Hwf) in Hn. split; [reflexivity | exact Hn].
Qed.

Lemma do_LD_Err s f :
  wf s -> do_LD s = Err f ->
  f = MemoryIndexOutOfRange (PC s + PCoffset9 (IR s)) /\ ~ u16 (PC s + PCoffset9 (IR s)).
Proof.
  intros Hwf H. unfold do_LD in H.
  apply bind_Err in H as [H | (v & _ & H)]; [exact (mem_get_Err s _ f Hwf H)|].
  rewrite wf_write_DR in H by exact Hwf. discriminate.
Qed.

Lemma do_LDR_Err s f :
  wf s -> do_LDR s = Err f ->
  exists SR1, registers s !! Z.to_nat (field3 (IR s) 6) = Some SR1 /\
    f = MemoryIndexOutOfRange (SR1 + PCoffset6 (IR s)) /\ ~ u16 (SR1 + PCoffset6 (IR s)).
Proof.
  intros Hwf H. unfold do_LDR in H.
  destruct (wf_reg_field s 6 Hwf) as (SR1 & H1 & Hl1 & _).
  rewrite (bind_Ok_l _ _ _ H1) in H. exists SR1. split; [exact Hl1|].
  apply bind_Err in H as [H | (v & _ & H)]; [exact (mem_get_Err s _ f Hwf H)|].
  rewrite wf_write_DR in H by exact Hwf. discriminate.
Qed.

Lemma do_ST_Err s f :
  wf s -> do_ST s = Err f ->
  f = MemoryIndexOutOfRange (PC s + PCoffset9 (IR s)) /\ ~ u16 (PC s + PCoffset9 (IR s)).
Proof.
  intros Hwf H. unfold do_ST in H.
  destruct (wf_reg_field s 9 Hwf) as (SR1 & H1 & _).
  rewrite (bind_Ok_l _ _ _ H1) in H.
  apply bind_Err in H as [H | (m & _ & H)]; [exact (mem_set_Err s _ _ f Hwf H)|].
  discriminate.
Qed.

Lemma do_STR_Err s f :
  wf s -> do_STR s = Err f ->
  exists SR2, registers s !! Z.to_nat (field3 (IR s) 6) = Some SR2 /\
    f = MemoryIndexOutOfRange (SR2 + PCoffset6 (IR s)) /\ ~ u16 (SR2 + PCoffset6 (IR s)).
Proof.
  intros Hwf H. unfold do_STR in H.
  destruct (wf_reg_field s 9 Hwf) as (SR1 & H1 & _).
  rewrite (bind_Ok_l _ _ _ H1) in H.
  destruct (wf_reg_field s 6 Hwf) as (SR2 & H2 & Hl2 & _).
  rewrite (bind_Ok_l _ _ _ H2) in H. exists SR2. split; [exact Hl2|].
  apply bind_Err in H as [H | (m & _ & H)]; [exact (mem_set_Err s _ _ f Hwf H)|].
  discriminate.
Qed.

Lemma do_STI_Err s f :
  wf s -> do_STI s = Err f ->
  f = MemoryIndexOutOfRange (PC s + PCoffset9 (IR s)) /\ ~ u16 (PC s + PCoffset9 (IR s)).
Proof.
  intros Hwf H.
  assert (Hdec : u16 (PC s + PCoffset9 (IR s)) \/ ~ u16 (PC s + PCoffset9 (IR s)))
    by (unfold u16; lia).
  destruct Hdec as [Hi | Hn].
  - destruct (do_STI_Ok s Hwf Hi) as (s' & Hs'). congruence.
  - split; [|exact Hn]. unfold do_STI in H.
    destruct (wf_reg_field s 9 Hwf) as (SR1 & H1 & _).
    rewrite (bind_Ok_l _ _ _ H1) in H.
    apply bind_Err in H as [H | (a & Ha & _)].
    + exact (proj1 (mem_get_Err s _ f Hwf H)).
    + apply array_get_Ok in Ha as [Hp Ha]. contradiction Hn.
      exact (lookup_u16_index _ _ _ (wf_memory_length s Hwf) Hp Ha).
Qed.

Lemma do_LDI_Err s w f :
  wf s -> do_LDI s w = Err f ->
  (f = MemoryIndexOutOfRange (PC s + PCoffset9 (IR s)) /\
   ~ u16 (PC s + PCoffset9 (IR s))) \/
  (f = ReadNeverReturns /\ u16 (PC s + PCoffset9 (IR s)) /\
   memory s !! Z.to_nat (PC s + PCoffset9 (IR s)) = Some KBDR /\ typeahead w = []).
Proof.
  intros Hwf H.
  assert (Hdec : u16 (PC s + PCoffset9 (IR s)) \/ ~ u16 (PC s + PCoffset9 (IR s)))
    by (unfold u16; lia).
  destruct Hdec as [Hi | Hn].
  - right. destruct (wf_mem_get s _ Hwf Hi) as (a & Ha & Hla & Hua).
    destruct (typeahead w) as [|k rest] eqn:Et.
    + unfold do_LDI in H. rewrite (bind_Ok_l _ _ _ Ha) in H.
      destruct (Z.eqb_spec a KBDR) as [E|Hne].
      * unfold wgetch in H. simpl in H. rewrite Et in H. simpl in H.
        injection H as <-. rewrite E in Hla.
        split; [reflexivity|]. split; [exact Hi|]. split; [exact Hla | reflexivity].
      * destruct (wf_mem_get s a Hwf Hua) as (v & Hv & _).
        rewrite (bind_Ok_l _ _ _ Hv), wf_write_DR in H by exact Hwf. discriminate.
    + destruct (do_LDI_Ok s w Hwf Hi) as (s' & w' & Hs'); [|congruence].
      intros _. rewrite Et. discriminate.
  - left. split; [|exact Hn]. unfold do_LDI in H.
    apply bind_Err in H as [H | (a & Ha & _)].
    + exact (proj1 (mem_get_Err s _ f Hwf H)).
    + apply array_get_Ok in Ha as [Hp Ha]. contradiction Hn.
      exact (lookup_u16_index _ _ _ (wf_memory_length s Hwf) Hp Ha).
Qed.

(** Closes a case of [dispatch_Err] for an instruction that always
    completes, from the lemma [L] that says so. *)
Ltac never_fails L :=
  let s1 := fresh "s1" in
  let H1 := fresh "H1" in
  let H := fresh "H" in
  intros H; destruct L as (s1 & H1); rewrite H1 in H; discriminate.

Lemma dispatch_Err s w f :
  wf s -> dispatch (opcode_of (IR s)) s w = Err f -> fault_explained f s w.
Proof.
  intros Hwf. unfold fault_explained, computed_index, reads_keyboard, dispatch.
  destruct (Z.eqb_spec (opcode_of (IR s)) TRAP) as [->|?];
    [never_fails (do_TRAP_Ok s Hwf)|].
  destruct (Z.eqb_spec (opcode_of (IR s)) LEA) as [->|?];
    [never_fails (do_LEA_Ok s Hwf)|].
  destruct (Z.eqb_spec (opcode_of (IR s)) LDI) as [->|?].
  { simpl. intros H.
    apply (do_LDI_Err s w f Hwf) in H as [[-> Hn] | (-> & Hi & Ha & Ht)].
    - split; [reflexivity | exact Hn].
    - rewrite Ha. split; [reflexivity | exact Ht]. }
  destruct (Z.eqb_spec (opcode_of (IR s)) NOT) as [->|?];
    [never_fails (do_NOT_Ok s Hwf)|].
  destruct (Z.eqb_spec (opcode_of (IR s)) LD) as [->|?].
  { simpl. intros H. apply bind_Err in H as [H | (s1 & _ & H)]; [|discriminate].
    apply (do_LD_Err s f Hwf) in H as [-> Hn]. split; [reflexivity | exact Hn]. }
  destruct (Z.eqb_spec (opcode_of (IR s)) ADD) as [->|?];
    [never_fails (do_ADD_AND_Ok ADD s Hwf)|].
  destruct (Z.eqb_spec (opcode_of (IR s)) AND) as [->|?];
    [never_fails (do_ADD_AND_Ok AND s Hwf)|].
  destruct (Z.eqb_spec (opcode_of (IR s)) BR) as [->|?];
    [never_fails (do_BR_Ok s)|].
  destruct (Z.eqb_spec (opcode_of (IR s)) LDR) as [->|?].
  { simpl. intros H. apply bind_Err in H as [H | (s1 & _ & H)]; [|discriminate].
    apply (do_LDR_Err s f Hwf) in H as (SR1 & -> & -> & Hn).
    split; [reflexivity | exact Hn]. }
  destruct (Z.eqb_spec (opcode_of (IR s)) ST) as [->|?].
  { simpl. intros H. apply bind_Err in H as [H | (s1 & _ & H)]; [|discriminate].
    apply (do_ST_Err s f Hwf) in H as [-> Hn]. split; [reflexivity | exact Hn]. }
  destruct (Z.eqb_spec (opcode_of (IR s)) STR) as [->|?].
  { simpl. intros H. apply bind_Err in H as [H | (s1 & _ & H)]; [|discriminate].
    apply (do_STR_Err s f Hwf) in H as (SR2 & -> & -> & Hn).
    split; [reflexivity | exact Hn]. }
  destruct (Z.eqb_spec (opcode_of (IR s)) STI) as [->|?].
  { simpl. intros H. apply bind_Err in H as [H | (s1 & _ & H)]; [|discriminate].
    apply (do_STI_Err s f Hwf) in H as [-> Hn]. split; [reflexivity | exact Hn]. }
  destruct (Z.eqb_spec (opcode_of (IR s)) JMP) as [->|?];
    [never_fails (do_JMP_Ok s Hwf)|].
  destruct (Z.eqb_spec (opcode_of (IR s)) JSR) as [->|?];
    [never_fails (do_JSR_Ok s Hwf)|].
  discriminate.
Qed.

(** ** Every step *)

(** Runs the concrete machine [m] with the window [w0]: the step returns. *)
Ltac run_machine m w0 s' w' Hstep :=
  destruct (proj1 (execute_next_completes m w0
                     ltac:(apply well_formed_wf; vm_compute; reflexivity))
                  ltac:(vm_compute; reflexivity)) as (s' & w' & Hstep).

(** X1: what each outcome of a step says about the state it started from.
    The step returns only from a state of [step_completes]; it ends in a
    memory index out of range only when the instruction is LD, LDI, ST, STI,
    LDR or STR and the index it computes lies outside 0..65535 (the fetch,
    TRAP, the second index of LDI and STI and the device cells never do);
    it waits forever only on an LDI through a cell holding KBDR with no key
    to come; and it never ends in a register index out of range. *)
Theorem step_outcome s w ir :
  well_formed s = true ->
  memory s !! Z.to_nat (PC s) = Some ir ->
  match execute_next s w with
  | Ok _ => step_completes s w = true
  | Err f => fault_explained f (fetched ir s) w
  end.
Proof.
  intros Hwf Hir. apply well_formed_wf in Hwf.
  destruct (execute_next s w) as [[s' w']|f] eqn:E.
  - apply execute_next_completes; [exact Hwf|]. exists s', w'. exact E.
  - unfold execute_next in E.
    rewrite (fetch_execute_Ok s w ir (proj1 (wf_PC s Hwf)) Hir) in E.
    pose proof (wf_fetched s ir Hwf Hir) as Hwf1.
    apply bind_Err in E as [E | ([s2 w2] & Hd & E)].
    + exact (dispatch_Err _ w f Hwf1 E).
    + pose proof (wf_dispatch _ _ _ _ _ Hwf1 Hd) as Hwf2.
      destruct (devices_Ok s2 w2 (wf_memory_length s2 Hwf2)) as (d & _ & Hdev).
      congruence.
Qed.

Lemma step_outcome_witness :
  execute_next (machine 0x3000 no_registers [(0x3000, 0xA000); (0x3001, 0xFE02)]) quiet
  = Err ReadNeverReturns /\
  reads_keyboard
    (fetched 0xA000 (machine 0x3000 no_registers [(0x3000, 0xA000); (0x3001, 0xFE02)]))
  = true.
Proof.
  pose (m := machine 0x3000 no_registers [(0x3000, 0xA000); (0x3001, 0xFE02)]).
  assert (E : execute_next m quiet = Err ReadNeverReturns) by (vm_compute; reflexivity).
  split; [exact E|].
  pose proof (step_outcome m quiet 0xA000) as H. rewrite E in H.
  apply H; vm_compute; reflexivity.
Defined.

(** X2: a step takes a state whose fields are in the range of their C types
    (65536 memory cells and 8 registers, each below 2^16, PC and IR below
    2^16) to a state that is so again. *)
Theorem step_keeps_well_formed s w s' w' :
  well_formed s = true ->
  execute_next s w = Ok (s', w') ->
  well_formed s' = true.
Proof.
  intros Hwf Hstep. apply well_formed_wf.
  apply well_formed_wf in Hwf. exact (wf_execute_next s w s' w' Hwf Hstep).
Qed.

Lemma step_keeps_well_formed_witness :
  exists s' w',
    execute_next (machine 0xFFFF [0xFFFF; 1; 0; 0; 0; 0; 0; 0] [(0xFFFF, 0x1001)]) quiet
    = Ok (s', w') /\
    well_formed s' = true.
Proof.
  pose (m := machine 0xFFFF [0xFFFF; 1; 0; 0; 0; 0; 0; 0] [(0xFFFF, 0x1001)]).
  run_machine m quiet s' w' Hstep.
  exists s', w'. split; [exact Hstep|].
  apply (step_keeps_well_formed m quiet s' w'); [vm_compute; reflexivity | exact Hstep].
Defined.

(** X3: but for TRAP, BR, JMP and JSR, a step leaves PC one past the
    instruction it ran, wrapping from 0xFFFF to 0; this holds of the
    unimplemented opcodes too. *)
Theorem step_advances_PC s w s' w' :
  well_formed s = true ->
  execute_next s w = Ok (s', w') ->
  jumps (opcode_of (IR s')) = false ->
  PC s' = (PC s + 1) mod 65536.
Proof.
  intros Hwf Hstep Hj. apply well_formed_wf in Hwf.
  destruct (dispatch_of_step s w s' w' Hwf Hstep)
    as (ir & s2 & w2 & _ & Hd & _ & -> & HIR & _).
  rewrite HIR in Hj. exact (dispatch_PC _ _ _ _ _ Hd Hj).
Qed.

Lemma step_advances_PC_witness :
  exists s' w',
    execute_next (machine 0xFFFF no_registers [(0xFFFF, 0xD000)]) quiet = Ok (s', w') /\
    PC s' = 0.
Proof.
  pose (m := machine 0xFFFF no_registers [(0xFFFF, 0xD000)]).
  run_machine m quiet s' w' Hstep.
  exists s', w'. split; [exact Hstep|].
  assert (Hwf : well_formed m = true) by (vm_compute; reflexivity).
  rewrite (step_advances_PC m quiet s' w' Hwf Hstep); [reflexivity|].
  destruct (dispatch_of_step m quiet s' w' (proj1 (well_formed_wf m) Hwf) Hstep)
    as (ir & _ & _ & Hir & _ & _ & _ & -> & _).
  vm_compute in Hir. injection Hir as <-. reflexivity.
Defined.

(** X4: only ST, STR and STI change memory outside the three device cells
    KBSR, DSR and DDR: after any other instruction every other cell holds
    what it held. *)
Theorem step_keeps_memory s w s' w' :
  well_formed s = true ->
  execute_next s w = Ok (s', w') ->
  stores (opcode_of (IR s')) = false ->
  forall a, 0 <= a -> device_cell a = false ->
    memory s' !! Z.to_nat a = memory s !! Z.to_nat a.
Proof.
  intros Hwf Hstep Hst a Ha Hdev. apply well_formed_wf in Hwf.
  destruct (dispatch_of_step s w s' w' Hwf Hstep)
    as (ir & s2 & w2 & _ & Hd & _ & _ & HIR & _ & _ & Hmem & _).
  rewrite HIR in Hst. rewrite (Hmem a Ha Hdev).
  rewrite (dispatch_memory _ _ _ _ _ Hd Hst). reflexivity.
Qed.

Lemma step_keeps_memory_witness :
  exists s' w',
    execute_next (machine 0x3000 no_registers [(0x3000, 0x2001); (0x3002, 0x1234)]) quiet
    = Ok (s', w') /\
    memory s' !! Z.to_nat 0x3002 = Some 0x1234.
Proof.
  pose (m := machine 0x3000 no_registers [(0x3000, 0x2001); (0x3002, 0x1234)]).
  run_machine m quiet s' w' Hstep.
  exists s', w'. split; [exact Hstep|].
  assert (Hwf : well_formed m = true) by (vm_compute; reflexivity).
  rewrite (step_keeps_memory m quiet s' w' Hwf Hstep).
  - vm_compute. reflexivity.
  - destruct (dispatch_of_step m quiet s' w' (proj1 (well_formed_wf m) Hwf) Hstep)
      as (ir & _ & _ & Hir & _ & _ & _ & -> & _).
    vm_compute in Hir. injection Hir as <-. reflexivity.
  - lia.
  - reflexivity.
Defined.

(** X5: a step writes no register but the one named by bits [11:9] of the
    instruction, and that only for the instructions that update CC, and R7,
    and that only for TRAP and JSR. *)
Theorem step_keeps_registers s w s' w' :
  well_formed s = true ->
  execute_next s w = Ok (s', w') ->
  forall r, 0 <= r ->
    (updates_CC (opcode_of (IR s')) = true -> r <> bits 11 9 (IR s')) ->
    (links (opcode_of (IR s')) = true -> r <> 7) ->
    registers s' !! Z.to_nat r = registers s !! Z.to_nat r.
Proof.
  intros Hwf Hstep r Hr Hdr H7. apply well_formed_wf in Hwf.
  destruct (dispatch_of_step s w s' w' Hwf Hstep)
    as (ir & s2 & w2 & _ & Hd & -> & _ & HIR & _).
  rewrite HIR in Hdr, H7. rewrite <- field3_9 in Hdr.
  exact (dispatch_registers _ _ _ _ _ Hd r Hr Hdr H7).
Qed.

Lemma step_keeps_registers_witness :
  exists s' w',
    execute_next (machine 0x3000 [1; 2; 3; 4; 5; 6; 7; 8] [(0x3000, 0x4805)]) quiet
    = Ok (s', w') /\
    registers s' !! 3%nat = Some 4.
Proof.
  pose (m := machine 0x3000 [1; 2; 3; 4; 5; 6; 7; 8] [(0x3000, 0x4805)]).
  run_machine m quiet s' w' Hstep.
  exists s', w'. split; [exact Hstep|].
  assert (Hwf : well_formed m = true) by (vm_compute; reflexivity).
  destruct (dispatch_of_step m quiet s' w' (proj1 (well_formed_wf m) Hwf) Hstep)
    as (ir & _ & _ & Hir & _ & _ & _ & HIR & _).
  vm_compute in Hir. injection Hir as <-.
  apply (step_keeps_registers m quiet s' w' Hwf Hstep 3).
  - lia.
  - rewrite HIR. intros H. discriminate H.
  - intros _. lia.
Defined.

(** X6: unless the instruction is an LDI through a cell that holds KBDR, a
    step reads no key and leaves the read mode of the window as it was, and
    all it does on the window is to echo at most one character, below
    256. *)
Theorem step_leaves_keyboard s w s' w' :
  well_formed s = true ->
  execute_next s w = Ok (s', w') ->
  reads_keyboard (fetched (IR s') s) = false ->
  typeahead w' = typeahead w /\ delay w' = delay w /\
  (calls w' = calls w \/
   exists ch, 0 <= ch < 256 /\ calls w' = calls w ++ [Wechochar ch]).
Proof.
  intros Hwf Hstep Hk. apply well_formed_wf in Hwf.
  destruct (dispatch_of_step s w s' w' Hwf Hstep)
    as (ir & s2 & w2 & _ & Hd & _ & _ & HIR & _ & _ & _ & Ht & Hdl & d & _ & Hc).
  rewrite HIR in Hk.
  pose proof (dispatch_window _ _ _ _ _ Hd eq_refl) as Hw. rewrite Hk in Hw. subst w2.
  split; [exact Ht|]. split; [exact Hdl|]. rewrite Hc.
  destruct (d =? 0).
  - left. apply app_nil_r.
  - right. exists (d mod 256). split; [apply Z.mod_pos_bound; lia | reflexivity].
Qed.

Lemma step_leaves_keyboard_witness :
  exists s' w',
    execute_next (machine 0x3000 no_registers [(0x3000, 0x2001); (0x3002, 0xFE02)])
                 (mkWINDOW 0 [0x41] [])
    = Ok (s', w') /\
    typeahead w' = [0x41] /\ delay w' = 0.
Proof.
  pose (m := machine 0x3000 no_registers [(0x3000, 0x2001); (0x3002, 0xFE02)]).
  run_machine m (mkWINDOW 0 [0x41] []) s' w' Hstep.
  exists s', w'. split; [exact Hstep|].
  assert (Hwf : well_formed m = true) by (vm_compute; reflexivity).
  destruct (dispatch_of_step m _ s' w' (proj1 (well_formed_wf m) Hwf) Hstep)
    as (ir & _ & _ & Hir & _ & _ & _ & HIR & _).
  vm_compute in Hir. injection Hir as <-.
  destruct (step_leaves_keyboard m _ s' w' Hwf Hstep) as (Ht & Hdl & _).
  - rewrite HIR. vm_compute. reflexivity.
  - split; assumption.
Defined.

(** X7: a step never takes isHalted from true to false, and a step whose
    instruction is not STI leaves isHalted as it was: neither the other
    instructions nor the device cells touch it. *)
Theorem step_keeps_halt_flag s w s' w' :
  execute_next s w = Ok (s', w') ->
  (isHalted s = true -> isHalted s' = true) /\
  (opcode_of (IR s') <> STI -> isHalted s' = isHalted s).
Proof.
  intros Hstep. split.
  - exact (isHalted_monotonic s w s' w' Hstep).
  - exact (isHalted_only_STI s w s' w' Hstep).
Qed.

Lemma step_keeps_halt_flag_witness :
  exists s' w',
    execute_next (set_isHalted true (machine 0x3000 no_registers [(0x3000, 0x3001)])) quiet
    = Ok (s', w') /\
    isHalted s' = true.
Proof.
  pose (m := set_isHalted true (machine 0x3000 no_registers [(0x3000, 0x3001)])).
  run_machine m quiet s' w' Hstep.
  exists s', w'. split; [exact Hstep|].
  apply (proj1 (step_keeps_halt_flag m quiet s' w' Hstep)). reflexivity.
Defined.

(** ** AND and NOT *)

Lemma land_u16 a b : u16 a -> u16 (Z.land a b).
Proof.
  intros Ha. unfold u16 in *.
  rewrite <- (Z.mod_small a 65536) by exact Ha.
  change 65536 with (2 ^ 16). rewrite <- Z.land_ones by lia.
  rewrite <- Z.land_assoc, (Z.land_comm (Z.ones 16) b), Z.land_assoc.
  apply land_ones_range. lia.
Qed.

Lemma uint16_small_land a b : u16 a -> uint16 (Z.land a b) = Z.land a b.
Proof. intros Ha. apply Z.mod_small. exact (land_u16 a b Ha). Qed.

(** X8: AND sets DR (bits [11:9]) to the bitwise and of SR1 (bits [8:6]) and
    the second operand and sets CC from the result; the second operand is
    the 16-bit pattern of the sign-extended 5-bit immediate when bit 5 of
    IR is 1 and the register selected by bits [2:0] otherwise.  AND never
    fails. *)
Theorem AND_semantics s w ir :
  well_formed s = true ->
  memory s !! Z.to_nat (PC s) = Some ir ->
  opcode_of ir = AND ->
  exists SR1 op2 s' w',
    registers s !! Z.to_nat (bits 8 6 ir) = Some SR1 /\
    (if Z.testbit ir 5 then op2 = sign_extend 5 ir mod 65536
     else registers s !! Z.to_nat (bits 2 0 ir) = Some op2) /\
    execute_next s w = Ok (s', w') /\
    registers s' = <[Z.to_nat (bits 11 9 ir) := Z.land SR1 op2]> (registers s) /\
    CC s' = condition_char (condition_of (Z.land SR1 op2)) /\
    PC s' = (PC s + 1) mod 65536.
Proof.
  intros Hwf Hir Hop. apply well_formed_wf in Hwf.
  pose proof (wf_fetched s ir Hwf Hir) as Hwf1.
  destruct (do_ADD_AND_Ok AND _ Hwf1) as (s2 & H2).
  destruct (step_of_dispatch s w ir s2 w Hwf Hir)
    as (s' & w' & Hstep & Hregs & HPC & _ & HCC & _).
  { rewrite Hop. unfold dispatch. simpl. rewrite H2. reflexivity. }
  apply do_ADD_AND_inv in H2 as (SR1 & SR2 & H1 & Hop2 & Hs2). simpl in *.
  rewrite field3_6, field3_9 in *.
  assert (HSR1 : u16 SR1) by exact (Forall_u16_lookup _ _ _ (wf_registers s Hwf) H1).
  rewrite (uint16_small_land SR1 SR2 HSR1) in Hs2.
  assert (Hop2' :
    if Z.testbit ir 5 then SR2 = sign_extend 5 ir mod 65536
    else registers s !! Z.to_nat (bits 2 0 ir) = Some SR2).
  { unfold operand2 in Hop2. simpl in Hop2.
    change 0x0020 with (2 ^ 5) in Hop2.
    rewrite land_pow2_eqb_0, negb_involutive in Hop2 by lia.
    destruct (Z.testbit ir 5).
    - injection Hop2 as <-. apply imm5_sign_extend.
    - apply array_get_Ok in Hop2 as [_ Hop2]. rewrite land_7_bits in Hop2. exact Hop2. }
  exists SR1, SR2, s', w'. subst s2. simpl in *.
  split; [exact H1|]. split; [exact Hop2'|]. split; [exact Hstep|].
  split; [exact Hregs|]. split; [|exact HPC].
  rewrite HCC. apply setcc_condition_of. apply land_u16. exact HSR1.
Qed.

Lemma AND_semantics_witness :
  exists s' w',
    execute_next (machine 0x3000 [0; 0x0F0F; 0x00FF; 0; 0; 0; 0; 0] [(0x3000, 0x5042)]) quiet
    = Ok (s', w') /\
    registers s' !! 0%nat = Some 0x000F /\ CC s' = condition_char Positive.
Proof.
  pose (m := machine 0x3000 [0; 0x0F0F; 0x00FF; 0; 0; 0; 0; 0] [(0x3000, 0x5042)]).
  destruct (AND_semantics m quiet 0x5042)
    as (SR1 & op2 & s' & w' & H1 & H2 & Hstep & Hregs & HCC & _).
  - vm_compute. reflexivity.
  - vm_compute. reflexivity.
  - vm_compute. reflexivity.
  - exists s', w'. split; [exact Hstep|].
    vm_compute in H1. injection H1 as <-.
    vm_compute in H2. injection H2 as <-.
    rewrite Hregs, HCC. split; reflexivity.
Defined.

Lemma uint16_lnot v : u16 v -> uint16 (Z.lnot v) = 65535 - v.
Proof.
  unfold u16, uint16. intros Hv.
  replace (Z.lnot v) with (65535 - v + (-1) * 65536) by (unfold Z.lnot; lia).
  rewrite Z.mod_add by lia. apply Z.mod_small. lia.
Qed.

(** X9: NOT sets DR (bits [11:9]) to the 16-bit complement of SR1 (bits
    [8:6]), that is 0xFFFF minus its value, and sets CC from it.  NOT never
    fails. *)
Theorem NOT_semantics s w ir :
  well_formed s = true ->
  memory s !! Z.to_nat (PC s) = Some ir ->
  opcode_of ir = NOT ->
  exists SR1 s' w',
    registers s !! Z.to_nat (bits 8 6 ir) = Some SR1 /\
    execute_next s w = Ok (s', w') /\
    registers s' = <[Z.to_nat (bits 11 9 ir) := 0xFFFF - SR1]> (registers s) /\
    CC s' = condition_char (condition_of (0xFFFF - SR1)) /\
    PC s' = (PC s + 1) mod 65536.
Proof.
  intros Hwf Hir Hop. apply well_formed_wf in Hwf.
  pose proof (wf_fetched s ir Hwf Hir) as Hwf1.
  destruct (do_NOT_Ok _ Hwf1) as (s2 & H2).
  destruct (step_of_dispatch s w ir s2 w Hwf Hir)
    as (s' & w' & Hstep & Hregs & HPC & _ & HCC & _).
  { rewrite Hop. unfold dispatch. simpl. rewrite H2. reflexivity. }
  apply do_NOT_inv in H2 as (SR1 & H1 & Hs2). simpl in *.
  rewrite field3_6, field3_9 in *.
  assert (HSR1 : u16 SR1) by exact (Forall_u16_lookup _ _ _ (wf_registers s Hwf) H1).
  rewrite (uint16_lnot SR1 HSR1) in Hs2.
  exists SR1, s', w'. subst s2. simpl in *.
  split; [exact H1|]. split; [exact Hstep|]. split; [exact Hregs|].
  split; [|exact HPC].
  rewrite HCC. apply setcc_condition_of. unfold u16 in *. lia.
Qed.

Lemma NOT_semantics_witness :
  exists s' w',
    execute_next (machine 0x3000 [0x00FF; 0; 0; 0; 0; 0; 0; 0] [(0x3000, 0x923F)]) quiet
    = Ok (s', w') /\
    registers s' !! 1%nat = Some 0xFF00 /\ CC s' = condition_char Negative.
Proof.
  pose (m := machine 0x3000 [0x00FF; 0; 0; 0; 0; 0; 0; 0] [(0x3000, 0x923F)]).
  destruct (NOT_semantics m quiet 0x923F)
    as (SR1 & s' & w' & H1 & Hstep & Hregs & HCC & _).
  - vm_compute. reflexivity.
  - vm_compute. reflexivity.
  - vm_compute. reflexivity.
  - exists s', w'. split; [exact Hstep|].
    vm_compute in H1. injection H1 as <-.
    rewrite Hregs, HCC. split; reflexivity.
Defined.

(** ** LD and LDR *)

Lemma LD_effect s w ir :
  wf s ->
  memory s !! Z.to_nat (PC s) = Some ir ->
  opcode_of ir = LD ->
  let p := (PC s + 1) mod 65536 + sign_extend 9 ir in
  0 <= p < 65536 ->
  exists v s' w',
    memory s !! Z.to_nat p = Some v /\
    execute_next s w = Ok (s', w') /\
    registers s' = <[Z.to_nat (bits 11 9 ir) := v]> (registers s) /\
    CC s' = condition_char (condition_of v) /\
    PC s' = (PC s + 1) mod 65536 /\
    typeahead w' = typeahead w.
Proof.
  intros Hwf Hir Hop p Hp.
  pose proof (wf_fetched s ir Hwf Hir) as Hwf1.
  assert (Hp1 : u16 (PC (fetched ir s) + PCoffset9 (IR (fetched ir s))))
    by (simpl; rewrite PCoffset9_sign_extend; exact Hp).
  destruct (do_LD_Ok _ Hwf1 Hp1) as (s2 & H2).
  destruct (step_of_dispatch s w ir s2 w Hwf Hir)
    as (s' & w' & Hstep & Hregs & HPC & _ & HCC & _ & _ & Ht & _).
  { rewrite Hop. unfold dispatch. simpl. rewrite H2. reflexivity. }
  apply do_LD_inv in H2 as (v & _ & Hv & Hs2). simpl in *.
  rewrite PCoffset9_sign_extend in Hv. rewrite field3_9 in Hs2.
  exists v, s', w'. subst s2. simpl in *.
  split; [exact Hv|]. split; [exact Hstep|]. split; [exact Hregs|].
  split; [|split; [exact HPC | exact Ht]].
  rewrite HCC. apply setcc_condition_of.
  exact (Forall_u16_lookup _ _ _ (wf_memory s Hwf) Hv).
Qed.

(** X10: LD loads DR (bits [11:9]) from the cell at the incremented PC plus
    the sign-extended 9-bit offset and sets CC from the value, when that
    index lies within memory.  The index is not wrapped, and the cell is
    read as memory whatever its address: LD does not read the keyboard. *)
Theorem LD_semantics s w ir :
  well_formed s = true ->
  memory s !! Z.to_nat (PC s) = Some ir ->
  opcode_of ir = LD ->
  let p := (PC s + 1) mod 65536 + sign_extend 9 ir in
  0 <= p < 65536 ->
  exists v s' w',
    memory s !! Z.to_nat p = Some v /\
    execute_next s w = Ok (s', w') /\
    registers s' = <[Z.to_nat (bits 11 9 ir) := v]> (registers s) /\
    CC s' = condition_char (condition_of v) /\
    PC s' = (PC s + 1) mod 65536 /\
    typeahead w' = typeahead w.
Proof.
  intros Hwf. apply LD_effect. apply well_formed_wf. exact Hwf.
Qed.

Lemma LD_semantics_witness :
  exists s' w',
    execute_next (machine 0x3000 no_registers [(0x3000, 0x25FF)]) quiet
    = Ok (s', w') /\
    registers s' !! 2%nat = Some 0x25FF.
Proof.
  pose (m := machine 0x3000 no_registers [(0x3000, 0x25FF)]).
  destruct (LD_semantics m quiet 0x25FF)
    as (v & s' & w' & Hv & Hstep & Hregs & _).
  - vm_compute. reflexivity.
  - vm_compute. reflexivity.
  - vm_compute. reflexivity.
  - vm_compute. split; [discriminate | reflexivity].
  - exists s', w'. split; [exact Hstep|].
    vm_compute in Hv. injection Hv as <-. rewrite Hregs. reflexivity.
Defined.

(** X11: LDR loads DR from the cell at the base register (bits [8:6]) plus
    the 6-bit offset and sets CC, when that index lies within memory.  The
    offset is the field as an unsigned number, 0 to 63: the source shifts
    the field by 9, not 10, before the arithmetic shift back, so the field
    0x3F adds 63, not -1. *)
Theorem LDR_semantics s w ir :
  well_formed s = true ->
  memory s !! Z.to_nat (PC s) = Some ir ->
  opcode_of ir = LDR ->
  exists base,
    registers s !! Z.to_nat (bits 8 6 ir) = Some base /\
    (0 <= base + bits 5 0 ir < 65536 ->
     exists v s' w',
       memory s !! Z.to_nat (base + bits 5 0 ir) = Some v /\
       execute_next s w = Ok (s', w') /\
       registers s' = <[Z.to_nat (bits 11 9 ir) := v]> (registers s) /\
       CC s' = condition_char (condition_of v) /\
       PC s' = (PC s + 1) mod 65536).
Proof.
  intros Hwf Hir Hop. apply well_formed_wf in Hwf.
  pose proof (wf_fetched s ir Hwf Hir) as Hwf1.
  destruct (wf_reg_field (fetched ir s) 6 Hwf1) as (base & _ & Hbase & _).
  simpl in Hbase. exists base. rewrite <- field3_6. split; [exact Hbase|].
  assert (Hoff : PCoffset6 ir = bits 5 0 ir).
  { rewrite PCoffset6_unsigned. unfold bits. change (2 ^ 0) with 1.
    rewrite Z.div_1_r. reflexivity. }
  intros Hp.
  destruct (do_LDR_Ok _ Hwf1) as (s2 & H2).
  { simpl. intros SR1 E. rewrite Hbase in E. injection E as <-.
    rewrite Hoff. exact Hp. }
  destruct (step_of_dispatch s w ir s2 w Hwf Hir)
    as (s' & w' & Hstep & Hregs & HPC & _ & HCC & _).
  { rewrite Hop. unfold dispatch. simpl. rewrite H2. reflexivity. }
  apply do_LDR_inv in H2 as (SR1 & v & H1 & _ & Hv & Hs2). simpl in *.
  rewrite Hbase in H1. injection H1 as <-.
  rewrite Hoff in Hv. rewrite field3_9 in Hs2.
  exists v, s', w'. subst s2. simpl in *.
  split; [exact Hv|]. split; [exact Hstep|]. split; [exact Hregs|].
  split; [|exact HPC].
  rewrite HCC. apply setcc_condition_of.
  exact (Forall_u16_lookup _ _ _ (wf_memory s Hwf) Hv).
Qed.

Lemma LDR_semantics_witness :
  exists s' w',
    execute_next (machine 0x3000 [0; 0x4000; 0; 0; 0; 0; 0; 0]
                    [(0x3000, 0x607F); (0x403F, 0x0077); (0x3FFF, 0x0011)]) quiet
    = Ok (s', w') /\
    registers s' !! 0%nat = Some 0x0077.
Proof.
  pose (m := machine 0x3000 [0; 0x4000; 0; 0; 0; 0; 0; 0]
               [(0x3000, 0x607F); (0x403F, 0x0077); (0x3FFF, 0x0011)]).
  destruct (LDR_semantics m quiet 0x607F) as (base & Hbase & Hload).
  - vm_compute. reflexivity.
  - vm_compute. reflexivity.
  - vm_compute. reflexivity.
  - vm_compute in Hbase. injection Hbase as <-.
    destruct Hload as (v & s' & w' & Hv & Hstep & Hregs & _).
    + vm_compute. split; [discriminate | reflexivity].
    + exists s', w'. split; [exact Hstep|].
      vm_compute in Hv. injection Hv as <-. rewrite Hregs. reflexivity.
Defined.

(** ** ST and STR *)

Lemma ST_effect s w ir :
  wf s ->
  memory s !! Z.to_nat (PC s) = Some ir ->
  opcode_of ir = ST ->
  let p := (PC s + 1) mod 65536 + sign_extend 9 ir in
  0 <= p < 65536 ->
  exists SR s' w',
    registers s !! Z.to_nat (bits 11 9 ir) = Some SR /\
    execute_next s w = Ok (s', w') /\
    (device_cell p = false -> memory s' !! Z.to_nat p = Some SR) /\
    (forall a, 0 <= a -> a <> p -> device_cell a = false ->
               memory s' !! Z.to_nat a = memory s !! Z.to_nat a) /\
    registers s' = registers s /\ CC s' = CC s /\ isHalted s' = isHalted s /\
    PC s' = (PC s + 1) mod 65536.
Proof.
  intros Hwf Hir Hop p Hp.
  pose proof (wf_fetched s ir Hwf Hir) as Hwf1.
  assert (Hp1 : u16 (PC (fetched ir s) + PCoffset9 (IR (fetched ir s))))
    by (simpl; rewrite PCoffset9_sign_extend; exact Hp).
  destruct (do_ST_Ok _ Hwf1 Hp1) as (s2 & H2).
  destruct (step_of_dispatch s w ir s2 w Hwf Hir)
    as (s' & w' & Hstep & Hregs & HPC & _ & HCC & Hh & Hmem & _).
  { rewrite Hop. unfold dispatch. simpl. rewrite H2. reflexivity. }
  apply do_ST_inv in H2 as (SR & HSR & Hin & Hs2). simpl in *.
  rewrite PCoffset9_sign_extend in Hs2, Hin.
  change (uint16 (PC s + 1) + sign_extend 9 ir) with p in Hs2, Hin.
  rewrite field3_9 in HSR.
  exists SR, s', w'. subst s2. simpl in Hregs, HPC, HCC, Hh, Hmem.
  split; [exact HSR|]. split; [exact Hstep|].
  split.
  { intros Hdev. rewrite (Hmem p (proj1 Hp) Hdev). apply list_lookup_insert_eq. lia. }
  split.
  { intros a Ha Hne Hdev. rewrite (Hmem a Ha Hdev).
    apply lookup_insert_other; lia. }
  repeat split; assumption.
Qed.

(** X12: ST stores the register at bits [11:9] into the cell at the
    incremented PC plus the sign-extended 9-bit offset, when that index lies
    within memory.  When the step returns the cell holds the value unless
    it is one of the device cells KBSR, DSR, DDR, every other cell outside
    those three holds what it held, and the registers, CC and isHalted are
    as before. *)
Theorem ST_semantics s w ir :
  well_formed s = true ->
  memory s !! Z.to_nat (PC s) = Some ir ->
  opcode_of ir = ST ->
  let p := (PC s + 1) mod 65536 + sign_extend 9 ir in
  0 <= p < 65536 ->
  exists SR s' w',
    registers s !! Z.to_nat (bits 11 9 ir) = Some SR /\
    execute_next s w = Ok (s', w') /\
    (device_cell p = false -> memory s' !! Z.to_nat p = Some SR) /\
    (forall a, 0 <= a -> a <> p -> device_cell a = false ->
               memory s' !! Z.to_nat a = memory s !! Z.to_nat a) /\
    registers s' = registers s /\ CC s' = CC s /\ isHalted s' = isHalted s /\
    PC s' = (PC s + 1) mod 65536.
Proof.
  intros Hwf. apply ST_effect. apply well_formed_wf. exact Hwf.
Qed.

Lemma ST_semantics_witness :
  exists s' w',
    execute_next (machine 0x3000 [0; 0; 0; 0xBEEF; 0; 0; 0; 0] [(0x3000, 0x3605)]) quiet
    = Ok (s', w') /\
    memory s' !! Z.to_nat 0x3006 = Some 0xBEEF.
Proof.
  pose (m := machine 0x3000 [0; 0; 0; 0xBEEF; 0; 0; 0; 0] [(0x3000, 0x3605)]).
  destruct (ST_semantics m quiet 0x3605)
    as (SR & s' & w' & HSR & Hstep & Hcell & _).
  - vm_compute. reflexivity.
  - vm_compute. reflexivity.
  - vm_compute. reflexivity.
  - vm_compute. split; [discriminate | reflexivity].
  - exists s', w'. split; [exact Hstep|].
    vm_compute in HSR. injection HSR as <-. apply Hcell. reflexivity.
Defined.

(** X13: STR stores the register at bits [11:9] into the cell at the base
    register (bits [8:6]) plus the 6-bit offset, when that index lies
    within memory; the offset is the field as an unsigned number, 0 to 63,
    as for LDR.  The cell then holds the value unless it is a device cell,
    and the other cells outside the device cells, the registers, CC and
    isHalted are as before. *)
Theorem STR_semantics s w ir :
  well_formed s = true ->
  memory s !! Z.to_nat (PC s) = Some ir ->
  opcode_of ir = STR ->
  exists SR base,
    registers s !! Z.to_nat (bits 11 9 ir) = Some SR /\
    registers s !! Z.to_nat (bits 8 6 ir) = Some base /\
    let p := base + bits 5 0 ir in
    (0 <= p < 65536 ->
     exists s' w',
       execute_next s w = Ok (s', w') /\
       (device_cell p = false -> memory s' !! Z.to_nat p = Some SR) /\
       (forall a, 0 <= a -> a <> p -> device_cell a = false ->
                  memory s' !! Z.to_nat a = memory s !! Z.to_nat a) /\
       registers s' = registers s /\ CC s' = CC s /\ isHalted s' = isHalted s /\
       PC s' = (PC s + 1) mod 65536).
Proof.
  intros Hwf Hir Hop. apply well_formed_wf in Hwf.
  pose proof (wf_fetched s ir Hwf Hir) as Hwf1.
  destruct (wf_reg_field (fetched ir s) 9 Hwf1) as (SR & _ & HSR & _).
  destruct (wf_reg_field (fetched ir s) 6 Hwf1) as (base & _ & Hbase & _).
  simpl in HSR, Hbase. exists SR, base.
  rewrite <- field3_9, <- field3_6. split; [exact HSR|]. split; [exact Hbase|].
  assert (Hoff : PCoffset6 ir = bits 5 0 ir).
  { rewrite PCoffset6_unsigned. unfold bits. change (2 ^ 0) with 1.
    rewrite Z.div_1_r. reflexivity. }
  intros p Hp.
  destruct (do_STR_Ok _ Hwf1) as (s2 & H2).
  { simpl. intros SR2 E. rewrite Hbase in E. injection E as <-.
    rewrite Hoff. exact Hp. }
  destruct (step_of_dispatch s w ir s2 w Hwf Hir)
    as (s' & w' & Hstep & Hregs & HPC & _ & HCC & Hh & Hmem & _).
  { rewrite Hop. unfold dispatch. simpl. rewrite H2. reflexivity. }
  apply do_STR_inv in H2 as (SR1 & SR2 & H1 & H2' & Hin & Hs2). simpl in *.
  rewrite HSR in H1. injection H1 as <-.
  rewrite Hbase in H2'. injection H2' as <-.
  rewrite Hoff in Hs2, Hin. fold p in Hs2, Hin.
  exists s', w'. subst s2. simpl in Hregs, HPC, HCC, Hh, Hmem.
  split; [exact Hstep|].
  split.
  { intros Hdev. rewrite (Hmem p (proj1 Hp) Hdev). apply list_lookup_insert_eq. lia. }
  split.
  { intros a Ha Hne Hdev. rewrite (Hmem a Ha Hdev).
    apply lookup_insert_other; lia. }
  repeat split; assumption.
Qed.

Lemma STR_semantics_witness :
  exists s' w',
    execute_next (machine 0x3000 [0x0042; 0x4000; 0; 0; 0; 0; 0; 0] [(0x3000, 0x7041)]) quiet
    = Ok (s', w') /\
    memory s' !! Z.to_nat 0x4001 = Some 0x0042.
Proof.
  pose (m := machine 0x3000 [0x0042; 0x4000; 0; 0; 0; 0; 0; 0] [(0x3000, 0x7041)]).
  destruct (STR_semantics m quiet 0x7041) as (SR & base & HSR & Hbase & Hstore).
  - vm_compute. reflexivity.
  - vm_compute. reflexivity.
  - vm_compute. reflexivity.
  - vm_compute in HSR. injection HSR as <-.
    vm_compute in Hbase. injection Hbase as <-.
    destruct Hstore as (s' & w' & Hstep & Hcell & _).
    + vm_compute. split; [discriminate | reflexivity].
    + exists s', w'. split; [exact Hstep|]. apply Hcell. reflexivity.
Defined.

(** ** JMP, JSR and TRAP *)

Lemma JMP_effect s w ir :
  wf s ->
  memory s !! Z.to_nat (PC s) = Some ir ->
  opcode_of ir = JMP ->
  exists target s' w',
    registers s !! Z.to_nat (bits 8 6 ir) = Some target /\
    execute_next s w = Ok (s', w') /\
    PC s' = target /\ registers s' = registers s /\ CC s' = CC s.
Proof.
  intros Hwf Hir Hop.
  pose proof (wf_fetched s ir Hwf Hir) as Hwf1.
  destruct (do_JMP_Ok _ Hwf1) as (s2 & H2).
  destruct (step_of_dispatch s w ir s2 w Hwf Hir)
    as (s' & w' & Hstep & Hregs & HPC & _ & HCC & _).
  { rewrite Hop. unfold dispatch. simpl. rewrite H2. reflexivity. }
  apply do_JMP_inv in H2 as (target & Ht & Hs2). simpl in Ht.
  rewrite field3_6 in Ht. subst s2. simpl in Hregs, HPC, HCC.
  exists target, s', w'. repeat split; assumption.
Qed.

(** X14: JMP sets PC to the register at bits [8:6] (JMP R7 is the return
    from a subroutine) and changes neither the registers nor CC.  JMP never
    fails. *)
Theorem JMP_semantics s w ir :
  well_formed s = true ->
  memory s !! Z.to_nat (PC s) = Some ir ->
  opcode_of ir = JMP ->
  exists target s' w',
    registers s !! Z.to_nat (bits 8 6 ir) = Some target /\
    execute_next s w = Ok (s', w') /\
    PC s' = target /\ registers s' = registers s /\ CC s' = CC s.
Proof.
  intros Hwf. apply JMP_effect. apply well_formed_wf. exact Hwf.
Qed.

Lemma JMP_semantics_witness :
  exists s' w',
    execute_next (machine 0x3000 [0; 0; 0; 0; 0; 0; 0; 0x1234] [(0x3000, 0xC1C0)]) quiet
    = Ok (s', w') /\
    PC s' = 0x1234.
Proof.
  pose (m := machine 0x3000 [0; 0; 0; 0; 0; 0; 0; 0x1234] [(0x3000, 0xC1C0)]).
  destruct (JMP_semantics m quiet 0xC1C0) as (target & s' & w' & Ht & Hstep & HPC & _).
  - vm_compute. reflexivity.
  - vm_compute. reflexivity.
  - vm_compute. reflexivity.
  - exists s', w'. split; [exact Hstep|].
    vm_compute in Ht. injection Ht as <-. exact HPC.
Defined.

Lemma int16_small x : -32768 <= x < 32768 -> int16 x = x.
Proof. intros Hx. unfold int16. rewrite Z.mod_small by lia. lia. Qed.

Lemma sign_extend_11_range ir : -1024 <= sign_extend 11 ir < 1024.
Proof.
  unfold sign_extend. change (2 ^ 11) with 2048. change (2 ^ (11 - 1)) with 1024.
  pose proof (Z.mod_pos_bound ir 2048 ltac:(lia)).
  destruct (Z.ltb_spec (ir mod 2048) 1024); lia.
Qed.

Lemma land_0x800_eqb ir : (Z.land ir 0x800 =? 0x800) = Z.testbit ir 11.
Proof.
  change 0x800 with (2 ^ 11). rewrite (land_pow2 ir 11) by lia.
  destruct (Z.testbit ir 11); reflexivity.
Qed.

Lemma JSR_effect s w ir :
  wf s ->
  memory s !! Z.to_nat (PC s) = Some ir ->
  opcode_of ir = JSR ->
  let next := (PC s + 1) mod 65536 in
  exists target s' w',
    (if Z.testbit ir 11 then target = (next + sign_extend 11 ir) mod 65536
     else if bits 8 6 ir =? 7 then target = next
     else registers s !! Z.to_nat (bits 8 6 ir) = Some target) /\
    execute_next s w = Ok (s', w') /\
    PC s' = target /\
    registers s' = <[7%nat := next]> (registers s) /\
    CC s' = CC s.
Proof.
  intros Hwf Hir Hop next.
  pose proof (wf_fetched s ir Hwf Hir) as Hwf1.
  destruct (do_JSR_Ok _ Hwf1) as (s2 & H2).
  destruct (step_of_dispatch s w ir s2 w Hwf Hir)
    as (s' & w' & Hstep & Hregs & HPC & _ & HCC & _).
  { rewrite Hop. unfold dispatch. simpl. rewrite H2. reflexivity. }
  apply do_JSR_inv in H2 as (target & Ht & Hs2). simpl in Ht.
  subst s2. simpl in Hregs, HPC, HCC.
  exists target, s', w'.
  split; [|repeat split; assumption].
  rewrite land_0x800_eqb in Ht. destruct (Z.testbit ir 11).
  - rewrite Ht, PCoffset11_sign_extend, int16_small; [reflexivity|].
    pose proof (sign_extend_11_range ir). lia.
  - rewrite field3_6 in Ht.
    pose proof (field3_range ir 6) as Hr. rewrite field3_6 in Hr.
    destruct (Z.eqb_spec (bits 8 6 ir) 7) as [E|Hne].
    + rewrite E in Ht. change (Z.to_nat 7) with 7%nat in Ht.
      rewrite list_lookup_insert_eq in Ht
        by (pose proof (wf_registers_length s Hwf); lia).
      injection Ht as <-. reflexivity.
    + rewrite (lookup_insert_other _ 7 (bits 8 6 ir)) in Ht by lia. exact Ht.
Qed.

(** X15: JSR saves the incremented PC in R7 first.  With bit 11 set it then
    adds the sign-extended 11-bit offset to PC, modulo 2^16; with bit 11
    clear it jumps to the register at bits [8:6], read after R7 was written,
    so with R7 as the base the jump goes to the return address and not to
    what R7 held.  CC is unchanged; JSR never fails. *)
Theorem JSR_semantics s w ir :
  well_formed s = true ->
  memory s !! Z.to_nat (PC s) = Some ir ->
  opcode_of ir = JSR ->
  let next := (PC s + 1) mod 65536 in
  exists target s' w',
    (if Z.testbit ir 11 then target = (next + sign_extend 11 ir) mod 65536
     else if bits 8 6 ir =? 7 then target = next
     else registers s !! Z.to_nat (bits 8 6 ir) = Some target) /\
    execute_next s w = Ok (s', w') /\
    PC s' = target /\
    registers s' = <[7%nat := next]> (registers s) /\
    CC s' = CC s.
Proof.
  intros Hwf. apply JSR_effect. apply well_formed_wf. exact Hwf.
Qed.

Lemma JSR_semantics_witness :
  exists s' w',
    execute_next (machine 0x3000 [0; 0; 0; 0; 0; 0; 0; 0x5555] [(0x3000, 0x41C0)]) quiet
    = Ok (s', w') /\
    PC s' = 0x3001 /\ registers s' !! 7%nat = Some 0x3001.
Proof.
  pose (m := machine 0x3000 [0; 0; 0; 0; 0; 0; 0; 0x5555] [(0x3000, 0x41C0)]).
  destruct (JSR_semantics m quiet 0x41C0) as (target & s' & w' & Ht & Hstep & HPC & Hregs & _).
  - vm_compute. reflexivity.
  - vm_compute. reflexivity.
  - vm_compute. reflexivity.
  - exists s', w'. split; [exact Hstep|].
    vm_compute in Ht. subst target. split; [exact HPC|].
    rewrite Hregs. reflexivity.
Defined.

(** X16: TRAP saves the incremented PC in R7 and sets PC to the cell whose
    address is the low 8 bits of IR.  That cell is always within memory:
    TRAP never fails.  CC is unchanged. *)
Theorem TRAP_semantics s w ir :
  well_formed s = true ->
  memory s !! Z.to_nat (PC s) = Some ir ->
  opcode_of ir = TRAP ->
  exists v s' w',
    memory s !! Z.to_nat (bits 7 0 ir) = Some v /\
    execute_next s w = Ok (s', w') /\
    PC s' = v /\
    registers s' = <[7%nat := (PC s + 1) mod 65536]> (registers s) /\
    CC s' = CC s.
Proof.
  intros Hwf Hir Hop. apply well_formed_wf in Hwf.
  pose proof (wf_fetched s ir Hwf Hir) as Hwf1.
  destruct (do_TRAP_Ok _ Hwf1) as (s2 & H2).
  destruct (step_of_dispatch s w ir s2 w Hwf Hir)
    as (s' & w' & Hstep & Hregs & HPC & _ & HCC & _).
  { rewrite Hop. unfold dispatch. simpl. rewrite H2. reflexivity. }
  apply do_TRAP_inv in H2 as (v & Hv & Hs2). simpl in Hv.
  assert (E : Z.land ir 0xff = bits 7 0 ir).
  { rewrite land_0xff_mod. unfold bits. change (2 ^ 0) with 1.
    rewrite Z.div_1_r. reflexivity. }
  rewrite E in Hv. subst s2. simpl in Hregs, HPC, HCC.
  exists v, s', w'. repeat split; assumption.
Qed.

Lemma TRAP_semantics_witness :
  exists s' w',
    execute_next (machine 0x3000 no_registers [(0x3000, 0xF025); (0x0025, 0x0520)]) quiet
    = Ok (s', w') /\
    PC s' = 0x0520 /\ registers s' !! 7%nat = Some 0x3001.
Proof.
  pose (m := machine 0x3000 no_registers [(0x3000, 0xF025); (0x0025, 0x0520)]).
  destruct (TRAP_semantics m quiet 0xF025) as (v & s' & w' & Hv & Hstep & HPC & Hregs & _).
  - vm_compute. reflexivity.
  - vm_compute. reflexivity.
  - vm_compute. reflexivity.
  - exists s', w'. split; [exact Hstep|].
    vm_compute in Hv. injection Hv as <-. split; [exact HPC|].
    rewrite Hregs. reflexivity.
Defined.

(** ** The opcodes without a case *)

Lemma opcode_of_range ir : 0 <= opcode_of ir < 16.
Proof.
  rewrite opcode_of_bits. unfold bits. apply Z.mod_pos_bound. reflexivity.
Qed.

(** X17: the two opcodes without a case in the switch are 8 and 13.  A step
    on either never fails and is a no-op but for the fetch and the devices:
    PC is incremented, and the registers, CC, isHalted, the keyboard and
    the memory outside the device cells are as before. *)
Theorem unimplemented_opcode_is_a_no_op s w ir :
  well_formed s = true ->
  memory s !! Z.to_nat (PC s) = Some ir ->
  implemented (opcode_of ir) = false ->
  (opcode_of ir = 8 \/ opcode_of ir = 13) /\
  exists s' w',
    execute_next s w = Ok (s', w') /\
    PC s' = (PC s + 1) mod 65536 /\
    registers s' = registers s /\ CC s' = CC s /\ isHalted s' = isHalted s /\
    typeahead w' = typeahead w /\
    forall a, 0 <= a -> device_cell a = false ->
      memory s' !! Z.to_nat a = memory s !! Z.to_nat a.
Proof.
  intros Hwf Hir Himpl. apply well_formed_wf in Hwf. split.
  - pose proof (opcode_of_range ir) as Hr.
    assert (Hall : forall op, 0 <= op < 16 ->
              (implemented op || (op =? 8) || (op =? 13)) = true)
      by (apply (forall_below _ 16); vm_compute; reflexivity).
    specialize (Hall _ Hr). rewrite Himpl in Hall. simpl in Hall.
    apply orb_true_iff in Hall as [E|E]; apply Z.eqb_eq in E; tauto.
  - destruct (step_of_dispatch s w ir (fetched ir s) w Hwf Hir)
      as (s' & w' & Hstep & Hregs & HPC & _ & HCC & Hh & Hmem & Ht & _).
    { unfold dispatch.
      unfold implemented in Himpl. simpl in Himpl.
      repeat (apply orb_false_iff in Himpl as [?E Himpl]).
      repeat match goal with
             | E : (_ =? _) = false |- _ => rewrite ?E; clear E
             end.
      reflexivity. }
    exists s', w'. simpl in Hregs, HPC, HCC, Hh, Hmem.
    repeat split; assumption.
Qed.

Lemma unimplemented_opcode_is_a_no_op_witness :
  exists s' w',
    execute_next (machine 0x3000 [1; 2; 3; 4; 5; 6; 7; 8] [(0x3000, 0x8FFF)]) quiet
    = Ok (s', w') /\
    PC s' = 0x3001 /\ registers s' = [1; 2; 3; 4; 5; 6; 7; 8].
Proof.
  pose (m := machine 0x3000 [1; 2; 3; 4; 5; 6; 7; 8] [(0x3000, 0x8FFF)]).
  destruct (unimplemented_opcode_is_a_no_op m quiet 0x8FFF)
    as (_ & s' & w' & Hstep & HPC & Hregs & _).
  - vm_compute. reflexivity.
  - vm_compute. reflexivity.
  - vm_compute. reflexivity.
  - exists s', w'. split; [exact Hstep|]. split; [exact HPC | exact Hregs].
Defined.

(** ** Two steps *)

Lemma execute_next_memory s w s' w' :
  wf s ->
  execute_next s w = Ok (s', w') ->
  stores (opcode_of (IR s')) = false ->
  forall a, 0 <= a -> device_cell a = false ->
    memory s' !! Z.to_nat a = memory s !! Z.to_nat a.
Proof.
  intros Hwf Hstep Hst a Ha Hdev.
  destruct (dispatch_of_step s w s' w' Hwf Hstep)
    as (ir & s2 & w2 & _ & Hd & _ & _ & HIR & _ & _ & Hmem & _).
  rewrite HIR in Hst. rewrite (Hmem a Ha Hdev).
  rewrite (dispatch_memory _ _ _ _ _ Hd Hst). reflexivity.
Qed.

Lemma execute_next_IR s w s' w' ir :
  wf s ->
  memory s !! Z.to_nat (PC s) = Some ir ->
  execute_next s w = Ok (s', w') ->
  IR s' = ir.
Proof.
  intros Hwf Hir Hstep.
  destruct (dispatch_of_step s w s' w' Hwf Hstep) as (ir' & _ & _ & Hir' & _ & _ & _ & HIR & _).
  rewrite Hir in Hir'. injection Hir' as <-. exact HIR.
Qed.

(** X18: a store and the load of the same cell.  After ST of a register to
    a cell that is neither a device cell nor the cell of the next
    instruction, an LD from that cell as the next instruction loads the
    value that was stored. *)
Theorem ST_then_LD_round_trip s w st ld :
  well_formed s = true ->
  let next := (PC s + 1) mod 65536 in
  let p := next + sign_extend 9 st in
  memory s !! Z.to_nat (PC s) = Some st -> opcode_of st = ST ->
  memory s !! Z.to_nat next = Some ld -> opcode_of ld = LD ->
  0 <= p < 65536 ->
  (next + 1) mod 65536 + sign_extend 9 ld = p ->
  p <> next -> device_cell p = false -> device_cell next = false ->
  exists v s1 w1 s2 w2,
    registers s !! Z.to_nat (bits 11 9 st) = Some v /\
    execute_next s w = Ok (s1, w1) /\
    execute_next s1 w1 = Ok (s2, w2) /\
    registers s2 !! Z.to_nat (bits 11 9 ld) = Some v.
Proof.
  intros Hwf next p Hst Hopst Hld Hopld Hp Hsame Hne Hdevp Hdevn.
  apply well_formed_wf in Hwf.
  destruct (ST_effect s w st Hwf Hst Hopst Hp)
    as (v & s1 & w1 & Hv & Hstep1 & Hcell & Hframe & Hregs & _ & _ & HPC).
  fold next in HPC. fold p in Hcell, Hframe.
  pose proof (wf_execute_next s w s1 w1 Hwf Hstep1) as Hwf1.
  assert (Hnext : 0 <= next) by (apply Z.mod_pos_bound; lia).
  assert (Hld1 : memory s1 !! Z.to_nat (PC s1) = Some ld).
  { rewrite HPC, (Hframe next Hnext); [exact Hld | lia | exact Hdevn]. }
  assert (Hp1 : 0 <= (PC s1 + 1) mod 65536 + sign_extend 9 ld < 65536)
    by (rewrite HPC, Hsame; exact Hp).
  destruct (LD_effect s1 w1 ld Hwf1 Hld1 Hopld Hp1)
    as (v' & s2 & w2 & Hv' & Hstep2 & Hregs2 & _).
  assert (Hc : memory s1 !! Z.to_nat p = Some v) by exact (Hcell Hdevp).
  rewrite HPC, Hsame, Hc in Hv'. injection Hv' as <-.
  exists v, s1, w1, s2, w2.
  split; [exact Hv|]. split; [exact Hstep1|]. split; [exact Hstep2|].
  rewrite Hregs2. apply list_lookup_insert_eq.
  rewrite <- field3_9. pose proof (field3_range ld 9).
  pose proof (wf_registers_length s1 Hwf1). lia.
Qed.

Lemma ST_then_LD_round_trip_witness :
  exists s1 w1 s2 w2,
    execute_next (machine 0x3000 [0xCAFE; 0; 0; 0; 0; 0; 0; 0]
                    [(0x3000, 0x3004); (0x3001, 0x2603)]) quiet = Ok (s1, w1) /\
    execute_next s1 w1 = Ok (s2, w2) /\
    registers s2 !! 3%nat = Some 0xCAFE.
Proof.
  pose (m := machine 0x3000 [0xCAFE; 0; 0; 0; 0; 0; 0; 0]
               [(0x3000, 0x3004); (0x3001, 0x2603)]).
  destruct (ST_then_LD_round_trip m quiet 0x3004 0x2603)
    as (v & s1 & w1 & s2 & w2 & Hv & H1 & H2 & HDR).
  - vm_compute. reflexivity.
  - vm_compute. reflexivity.
  - vm_compute. reflexivity.
  - vm_compute. reflexivity.
  - vm_compute. reflexivity.
  - vm_compute. split; [discriminate | reflexivity].
  - vm_compute. reflexivity.
  - vm_compute. discriminate.
  - vm_compute. reflexivity.
  - vm_compute. reflexivity.
  - exists s1, w1, s2, w2. split; [exact H1|]. split; [exact H2|].
    vm_compute in Hv. injection Hv as <-. exact HDR.
Defined.

(** X19: a call and its return.  JSR with bit 11 set, to a cell outside the
    device cells that holds JMP R7, followed by that JMP, leaves PC at the
    instruction after the JSR, with that address in R7. *)
Theorem JSR_then_RET_returns s w jsr ret :
  well_formed s = true ->
  let next := (PC s + 1) mod 65536 in
  let target := (next + sign_extend 11 jsr) mod 65536 in
  memory s !! Z.to_nat (PC s) = Some jsr -> opcode_of jsr = JSR ->
  Z.testbit jsr 11 = true ->
  memory s !! Z.to_nat target = Some ret -> opcode_of ret = JMP ->
  bits 8 6 ret = 7 ->
  device_cell target = false ->
  exists s1 w1 s2 w2,
    execute_next s w = Ok (s1, w1) /\ PC s1 = target /\
    execute_next s1 w1 = Ok (s2, w2) /\ PC s2 = next /\
    registers s2 !! 7%nat = Some next.
Proof.
  intros Hwf next target Hjsr Hopj Hbit Hret Hopr Hbase Hdev.
  apply well_formed_wf in Hwf.
  destruct (JSR_effect s w jsr Hwf Hjsr Hopj)
    as (t & s1 & w1 & Ht & Hstep1 & HPC1 & Hregs1 & _).
  rewrite Hbit in Ht. fold next in Ht, Hregs1. fold target in Ht. subst t.
  pose proof (wf_execute_next s w s1 w1 Hwf Hstep1) as Hwf1.
  assert (Htarget : 0 <= target) by (apply Z.mod_pos_bound; lia).
  assert (Hret1 : memory s1 !! Z.to_nat (PC s1) = Some ret).
  { rewrite HPC1, (execute_next_memory s w s1 w1 Hwf Hstep1); try assumption.
    rewrite (execute_next_IR s w s1 w1 jsr Hwf Hjsr Hstep1), Hopj. reflexivity. }
  destruct (JMP_effect s1 w1 ret Hwf1 Hret1 Hopr)
    as (t & s2 & w2 & Ht & Hstep2 & HPC2 & Hregs2 & _).
  assert (H7 : registers s1 !! 7%nat = Some next).
  { rewrite Hregs1. apply list_lookup_insert_eq.
    pose proof (wf_registers_length s Hwf). lia. }
  rewrite Hbase in Ht. change (Z.to_nat 7) with 7%nat in Ht.
  rewrite H7 in Ht. injection Ht as <-.
  exists s1, w1, s2, w2. rewrite Hregs2. repeat split; assumption.
Qed.

Lemma JSR_then_RET_returns_witness :
  exists s1 w1 s2 w2,
    execute_next (machine 0x3000 no_registers [(0x3000, 0x4810); (0x3011, 0xC1C0)]) quiet
    = Ok (s1, w1) /\
    execute_next s1 w1 = Ok (s2, w2) /\ PC s2 = 0x3001.
Proof.
  pose (m := machine 0x3000 no_registers [(0x3000, 0x4810); (0x3011, 0xC1C0)]).
  destruct (JSR_then_RET_returns m quiet 0x4810 0xC1C0)
    as (s1 & w1 & s2 & w2 & H1 & _ & H2 & HPC & _).
  - vm_compute. reflexivity.
  - vm_compute. reflexivity.
  - vm_compute. reflexivity.
  - vm_compute. reflexivity.
  - vm_compute. reflexivity.
  - vm_compute. reflexivity.
  - vm_compute. reflexivity.
  - vm_compute. reflexivity.
  - exists s1, w1, s2, w2. split; [exact H1|]. split; [exact H2 | exact HPC].
Defined.

(** ** STI and LDI as the code has them *)

Lemma STI_step s w ir :
  wf s ->
  memory s !! Z.to_nat (PC s) = Some ir ->
  opcode_of ir = STI ->
  let p := (PC s + 1) mod 65536 + sign_extend 9 ir in
  0 <= p < 65536 ->
  exists SR a d,
    registers s !! Z.to_nat (bits 11 9 ir) = Some SR /\
    memory s !! Z.to_nat p = Some a /\ 0 <= a < 65536 /\
    let stored := <[Z.to_nat a := SR]> (memory s) in
    let halted := isHalted s || ((if a =? p then SR else a) =? MCR) in
    stored !! Z.to_nat DDR = Some d /\
    execute_next s w =
    Ok (set_memory (flushed_memory d stored)
          (set_isHalted halted (set_memory stored (fetched ir s))),
        flushed_window d w).
Proof.
  intros Hwf Hir Hop p Hp.
  pose proof (wf_fetched s ir Hwf Hir) as Hwf1.
  assert (Hp1 : u16 (PC (fetched ir s) + PCoffset9 (IR (fetched ir s))))
    by (simpl; rewrite PCoffset9_sign_extend; exact Hp).
  destruct (do_STI_Ok _ Hwf1 Hp1) as (s2 & H2).
  destruct (execute_next_through s w ir s2 w Hwf Hir) as (d & Hd & Hstep).
  { rewrite Hop. unfold dispatch. simpl. rewrite H2. reflexivity. }
  apply do_STI_inv in H2 as (SR & a & b & HSR & _ & Ha & Hin & -> & ->).
  simpl in HSR, Ha, Hin, Hd, Hstep.
  rewrite PCoffset9_sign_extend in Ha, Hstep.
  change (uint16 (PC s + 1) + sign_extend 9 ir) with p in Ha, Hstep.
  rewrite field3_9 in HSR. rewrite (wf_memory_length s Hwf) in Hin.
  exists SR, a, d.
  split; [exact HSR|]. split; [exact Ha|]. split; [lia|].
  split; [exact Hd | exact Hstep].
Qed.

(** X20: STI stores the register at bits [11:9] into the cell whose address
    is held by the pointer cell at the incremented PC plus the sign-extended
    offset, when the pointer cell lies within memory.  The target holds the
    value when the step returns unless it is a device cell; the other cells
    outside the device cells, the registers and CC are as before.  The step
    sets isHalted when the pointer cell, read again after the store, holds
    the address of MCR: that is the target address, except when the pointer
    cell is its own target, where it is the value stored. *)
Theorem STI_semantics s w ir :
  well_formed s = true ->
  memory s !! Z.to_nat (PC s) = Some ir ->
  opcode_of ir = STI ->
  let p := (PC s + 1) mod 65536 + sign_extend 9 ir in
  0 <= p < 65536 ->
  exists SR a s' w',
    registers s !! Z.to_nat (bits 11 9 ir) = Some SR /\
    memory s !! Z.to_nat p = Some a /\
    execute_next s w = Ok (s', w') /\
    (device_cell a = false -> memory s' !! Z.to_nat a = Some SR) /\
    (forall c, 0 <= c -> c <> a -> device_cell c = false ->
               memory s' !! Z.to_nat c = memory s !! Z.to_nat c) /\
    isHalted s' = isHalted s || ((if a =? p then SR else a) =? MCR) /\
    registers s' = registers s /\ CC s' = CC s.
Proof.
  intros Hwf Hir Hop p Hp. apply well_formed_wf in Hwf.
  destruct (STI_step s w ir Hwf Hir Hop Hp) as (SR & a & d & HSR & Ha & Hin & _ & Hstep).
  eexists SR, a, _, _.
  split; [exact HSR|]. split; [exact Ha|]. split; [exact Hstep|]. simpl.
  split.
  { intros Hdev. apply device_cell_false in Hdev as (H1 & H2 & H3).
    rewrite flushed_memory_other by solve [assumption | lia].
    apply list_lookup_insert_eq. pose proof (wf_memory_length s Hwf). lia. }
  split.
  { intros c Hc Hne Hdev. apply device_cell_false in Hdev as (H1 & H2 & H3).
    rewrite flushed_memory_other by assumption.
    apply lookup_insert_other; lia. }
  repeat split.
Qed.

Lemma STI_semantics_witness :
  exists s' w',
    execute_next (machine 0x3000 [0x0007; 0; 0; 0; 0; 0; 0; 0]
                    [(0x3000, 0xB001); (0x3002, 0xFFFE)]) quiet = Ok (s', w') /\
    isHalted s' = true /\ memory s' !! Z.to_nat MCR = Some 0x0007.
Proof.
  pose (m := machine 0x3000 [0x0007; 0; 0; 0; 0; 0; 0; 0]
               [(0x3000, 0xB001); (0x3002, 0xFFFE)]).
  destruct (STI_semantics m quiet 0xB001)
    as (SR & a & s' & w' & HSR & Ha & Hstep & Hcell & _ & Hh & _).
  - vm_compute. reflexivity.
  - vm_compute. reflexivity.
  - vm_compute. reflexivity.
  - vm_compute. split; [discriminate | reflexivity].
  - exists s', w'. split; [exact Hstep|].
    vm_compute in HSR. injection HSR as <-.
    vm_compute in Ha. injection Ha as <-.
    split; [rewrite Hh; reflexivity|]. apply Hcell. reflexivity.
Defined.

(** X21: output.  STI through a pointer cell that holds the address of DDR
    echoes the low 8 bits of the stored register as one character in the
    same step, unless the register is 0, and leaves DDR at 0.  It leaves
    isHalted as it was, except when the pointer cell is DDR itself and the
    register holds the address of MCR: then the comparison after the store
    reads the stored value and the step sets isHalted. *)
Theorem STI_to_DDR_echoes s w ir :
  well_formed s = true ->
  memory s !! Z.to_nat (PC s) = Some ir ->
  opcode_of ir = STI ->
  let p := (PC s + 1) mod 65536 + sign_extend 9 ir in
  0 <= p < 65536 ->
  memory s !! Z.to_nat p = Some DDR ->
  exists SR s' w',
    registers s !! Z.to_nat (bits 11 9 ir) = Some SR /\
    execute_next s w = Ok (s', w') /\
    calls w' = calls w ++ (if SR =? 0 then [] else [Wechochar (SR mod 256)]) /\
    memory s' !! Z.to_nat DDR = Some 0 /\
    isHalted s' = isHalted s || ((p =? DDR) && (SR =? MCR)) /\
    (p <> DDR -> isHalted s' = isHalted s).
Proof.
  intros Hwf Hir Hop p Hp Hptr. apply well_formed_wf in Hwf.
  destruct (STI_step s w ir Hwf Hir Hop Hp) as (SR & a & d & HSR & Ha & Hin & Hd & Hstep).
  fold p in Ha. rewrite Hptr in Ha. injection Ha as <-.
  cbv zeta in Hd, Hstep.
  pose proof (wf_memory_length s Hwf) as Hlen.
  rewrite list_lookup_insert_eq in Hd by (unfold DDR; lia). injection Hd as <-.
  assert (Hflag : ((if DDR =? p then SR else DDR) =? MCR) = ((p =? DDR) && (SR =? MCR))).
  { rewrite (Z.eqb_sym DDR p). destruct (p =? DDR); reflexivity. }
  eexists SR, _, _.
  split; [exact HSR|]. split; [exact Hstep|].
  split.
  { unfold flushed_window. destruct (SR =? 0); simpl.
    - rewrite app_nil_r. reflexivity.
    - rewrite land_0xff_mod. reflexivity. }
  split.
  { cbn [memory set_memory]. apply flushed_memory_DDR.
    - rewrite length_insert. exact Hlen.
    - apply list_lookup_insert_eq. unfold DDR. lia. }
  cbn [isHalted set_memory set_isHalted].
  change ((PC s + 1) mod 65536 + sign_extend 9 ir) with p.
  rewrite Hflag. split; [reflexivity|].
  intros Hne. rewrite (proj2 (Z.eqb_neq p DDR) Hne). apply orb_false_r.
Qed.

Lemma STI_to_DDR_echoes_witness :
  exists s' w',
    execute_next (machine 0x3000 [0x0148; 0; 0; 0; 0; 0; 0; 0]
                    [(0x3000, 0xB001); (0x3002, 0xFE06)]) quiet = Ok (s', w') /\
    calls w' = [Wechochar 0x48] /\ memory s' !! Z.to_nat DDR = Some 0 /\
    isHalted s' = false.
Proof.
  pose (m := machine 0x3000 [0x0148; 0; 0; 0; 0; 0; 0; 0]
               [(0x3000, 0xB001); (0x3002, 0xFE06)]).
  destruct (STI_to_DDR_echoes m quiet 0xB001)
    as (SR & s' & w' & HSR & Hstep & Hcalls & HDDR & _ & Hrun).
  - vm_compute. reflexivity.
  - vm_compute. reflexivity.
  - vm_compute. reflexivity.
  - vm_compute. split; [discriminate | reflexivity].
  - vm_compute. reflexivity.
  - exists s', w'. split; [exact Hstep|].
    vm_compute in HSR. injection HSR as <-.
    split; [exact Hcalls|]. split; [exact HDDR|].
    rewrite Hrun; [reflexivity | vm_compute; discriminate].
Defined.

Lemma LDI_from_memory s w ir a :
  wf s ->
  memory s !! Z.to_nat (PC s) = Some ir ->
  opcode_of ir = LDI ->
  let p := (PC s + 1) mod 65536 + sign_extend 9 ir in
  0 <= p < 65536 ->
  memory s !! Z.to_nat p = Some a ->
  a <> KBDR ->
  exists v s' w',
    memory s !! Z.to_nat a = Some v /\
    execute_next s w = Ok (s', w') /\
    registers s' = <[Z.to_nat (bits 11 9 ir) := v]> (registers s) /\
    CC s' = condition_char (condition_of v) /\
    typeahead w' = typeahead w /\ delay w' = delay w.
Proof.
  intros Hwf Hir Hop p Hp Ha Hne.
  pose proof (wf_fetched s ir Hwf Hir) as Hwf1.
  assert (Hpe : PC (fetched ir s) + PCoffset9 (IR (fetched ir s)) = p)
    by (simpl; rewrite PCoffset9_sign_extend; reflexivity).
  destruct (do_LDI_Ok (fetched ir s) w Hwf1) as (s2 & w2 & H2).
  { rewrite Hpe. exact Hp. }
  { rewrite Hpe. simpl. rewrite Ha. intros [= E]. contradiction. }
  destruct (step_of_dispatch s w ir s2 w2 Hwf Hir) as (s' & w' & Hstep & _).
  { rewrite Hop. exact H2. }
  destruct (LDI_effect s w ir s' w' Hwf Hir Hop Hstep)
    as (a' & v & _ & Ha' & Hregs & HCC & Hcase).
  change (uint16 (PC s + 1) + PCoffset9 ir) with
    (PC (fetched ir s) + PCoffset9 (IR (fetched ir s))) in Ha'.
  rewrite Hpe, Ha in Ha'. injection Ha' as <-.
  destruct (Z.eqb_spec a KBDR) as [E|_]; [contradiction|].
  destruct Hcase as (Hv & Ht & Hdl).
  exists v, s', w'. repeat split; assumption.
Qed.



(** ** The status cells, read by the program *)

Lemma execute_next_status s w s' w' :
  wf s ->
  execute_next s w = Ok (s', w') ->
  memory s' !! Z.to_nat KBSR = Some 0x8000 /\
  memory s' !! Z.to_nat DSR = Some 0x8000.
Proof.
  intros Hwf Hstep.
  apply execute_next_inv in Hstep as (ir & s1 & w1 & _ & Hir & Hd & Hdev).
  pose proof (wf_dispatch _ _ _ _ _ (wf_fetched s ir Hwf Hir) Hd) as Hwf1.
  apply devices_inv in Hdev as (d & _ & -> & _). simpl.
  exact (flushed_memory_status d _ (wf_memory_length s1 Hwf1)).
Qed.

(** X23: a program that polls a status register never waits.  In the state
    that any step leaves, an LDI through a pointer cell holding the address
    of KBSR or of DSR loads 0x8000 and sets CC to Negative, whatever was
    stored to those cells before. *)
Theorem status_cells_read_ready s w s1 w1 ir :
  well_formed s = true ->
  execute_next s w = Ok (s1, w1) ->
  memory s1 !! Z.to_nat (PC s1) = Some ir ->
  opcode_of ir = LDI ->
  let p := (PC s1 + 1) mod 65536 + sign_extend 9 ir in
  0 <= p < 65536 ->
  memory s1 !! Z.to_nat p = Some KBSR \/ memory s1 !! Z.to_nat p = Some DSR ->
  exists s2 w2,
    execute_next s1 w1 = Ok (s2, w2) /\
    registers s2 !! Z.to_nat (bits 11 9 ir) = Some 0x8000 /\
    CC s2 = condition_char Negative.
Proof.
  intros Hwf Hstep Hir Hop p Hp Hptr. apply well_formed_wf in Hwf.
  pose proof (wf_execute_next s w s1 w1 Hwf Hstep) as Hwf1.
  destruct (execute_next_status s w s1 w1 Hwf Hstep) as [HK HD].
  assert (Hload : exists a, memory s1 !! Z.to_nat p = Some a /\ a <> KBDR /\
                            memory s1 !! Z.to_nat a = Some 0x8000).
  { destruct Hptr as [H|H]; eexists; (split; [exact H|]);
      (split; [discriminate | assumption]). }
  destruct Hload as (a & Ha & Hne & Hcell).
  destruct (LDI_from_memory s1 w1 ir a Hwf1 Hir Hop Hp Ha Hne)
    as (v & s2 & w2 & Hv & Hstep2 & Hregs & HCC & _).
  rewrite Hcell in Hv. injection Hv as <-.
  exists s2, w2. split; [exact Hstep2|]. split; [|rewrite HCC; reflexivity].
  rewrite Hregs. apply list_lookup_insert_eq.
  rewrite <- field3_9. pose proof (field3_range ir 9).
  pose proof (wf_registers_length s1 Hwf1). lia.
Qed.

Lemma status_cells_read_ready_witness :
  exists s1 w1 s2 w2,
    execute_next
      (machine 0x3000 [0x0001; 0; 0; 0; 0; 0; 0; 0]
         [(0x3000, 0xB002); (0x3001, 0xA201); (0x3003, 0xFE04)]) quiet
    = Ok (s1, w1) /\
    execute_next s1 w1 = Ok (s2, w2) /\
    registers s2 !! 1%nat = Some 0x8000.
Proof.
  pose (m := machine 0x3000 [0x0001; 0; 0; 0; 0; 0; 0; 0]
               [(0x3000, 0xB002); (0x3001, 0xA201); (0x3003, 0xFE04)]).
  run_machine m quiet s1 w1 Hstep.
  assert (HPC : observe (execute_next m quiet)
                = Ok ([0x0001; 0; 0; 0; 0; 0; 0; 0], 0x3001, "Z"%char, false, []))
    by (vm_compute; reflexivity).
  assert (Hir : peek (execute_next m quiet) 0x3001 = Some 0xA201)
    by (vm_compute; reflexivity).
  assert (Hptr : peek (execute_next m quiet) 0x3003 = Some 0xFE04)
    by (vm_compute; reflexivity).
  rewrite Hstep in HPC, Hir, Hptr. simpl in Hir, Hptr.
  injection HPC as _ HPC _ _.
  destruct (status_cells_read_ready m quiet s1 w1 0xA201)
    as (s2 & w2 & Hstep2 & HDR & _).
  - vm_compute. reflexivity.
  - exact Hstep.
  - rewrite HPC. exact Hir.
  - reflexivity.
  - rewrite HPC. vm_compute. split; [discriminate | reflexivity].
  - right. rewrite HPC. exact Hptr.
  - exists s1, w1, s2, w2. split; [exact Hstep|]. split; [exact Hstep2 | exact HDR].
Defined.

(** ** The halt flag is not read *)

(** Closes the goal that a case of the switch, run with isHalted set, does
    what it does otherwise and leaves the flag set. *)
Ltac flag_commutes :=
  intros; simpl; unfold mbind, result_bind; simpl;
  repeat (case_match; simpl in *; simplify_eq); try reflexivity.

Lemma do_TRAP_halted s :
  do_TRAP (set_isHalted true s) = s' ← do_TRAP s; Ok (set_isHalted true s').
Proof. unfold do_TRAP. flag_commutes. Qed.

Lemma do_LEA_halted s :
  do_LEA (set_isHalted true s) = s' ← do_LEA s; Ok (set_isHalted true s').
Proof. unfold do_LEA, write_DR. flag_commutes. Qed.

Lemma do_LDI_halted s w :
  do_LDI (set_isHalted true s) w = '(s', w') ← do_LDI s w; Ok (set_isHalted true s', w').
Proof. unfold do_LDI, write_DR. flag_commutes. Qed.

Lemma do_NOT_halted s :
  do_NOT (set_isHalted true s) = s' ← do_NOT s; Ok (set_isHalted true s').
Proof. unfold do_NOT, write_DR. flag_commutes. Qed.

Lemma do_LD_halted s :
  do_LD (set_isHalted true s) = s' ← do_LD s; Ok (set_isHalted true s').
Proof. unfold do_LD, write_DR. flag_commutes. Qed.

Lemma do_ADD_AND_halted opcode s :
  do_ADD_AND opcode (set_isHalted true s)
  = s' ← do_ADD_AND opcode s; Ok (set_isHalted true s').
Proof. unfold do_ADD_AND, write_DR, operand2. flag_commutes. Qed.

Lemma do_BR_halted s :
  do_BR (set_isHalted true s) = s' ← do_BR s; Ok (set_isHalted true s').
Proof. unfold do_BR. flag_commutes. Qed.

Lemma do_LDR_halted s :
  do_LDR (set_isHalted true s) = s' ← do_LDR s; Ok (set_isHalted true s').
Proof. unfold do_LDR, write_DR. flag_commutes. Qed.

Lemma do_ST_halted s :
  do_ST (set_isHalted true s) = s' ← do_ST s; Ok (set_isHalted true s').
Proof. unfold do_ST. flag_commutes. Qed.

Lemma do_STR_halted s :
  do_STR (set_isHalted true s) = s' ← do_STR s; Ok (set_isHalted true s').
Proof. unfold do_STR. flag_commutes. Qed.

Lemma do_STI_halted s :
  do_STI (set_isHalted true s) = s' ← do_STI s; Ok (set_isHalted true s').
Proof. unfold do_STI. flag_commutes. Qed.

Lemma do_JMP_halted s :
  do_JMP (set_isHalted true s) = s' ← do_JMP s; Ok (set_isHalted true s').
Proof. unfold do_JMP. flag_commutes. Qed.

Lemma do_JSR_halted s :
  do_JSR (set_isHalted true s) = s' ← do_JSR s; Ok (set_isHalted true s').
Proof. unfold do_JSR. flag_commutes. Qed.

(** Closes a case of [dispatch_halted] with the lemma [L] of its
    instruction. *)
Ltac case_halted L :=
  rewrite L;
  match goal with
  | |- context [mbind _ ?m] => destruct m as [?|?]; reflexivity
  end.

Lemma dispatch_halted opcode s w :
  dispatch opcode (set_isHalted true s) w
  = '(s', w') ← dispatch opcode s w; Ok (set_isHalted true s', w').
Proof.
  unfold dispatch.
  destruct (opcode =? TRAP); [case_halted do_TRAP_halted|].
  destruct (opcode =? LEA); [case_halted do_LEA_halted|].
  destruct (opcode =? LDI).
  { rewrite do_LDI_halted. destruct (do_LDI s w) as [[? ?]|?]; reflexivity. }
  destruct (opcode =? NOT); [case_halted do_NOT_halted|].
  destruct (opcode =? LD); [case_halted do_LD_halted|].
  destruct ((opcode =? ADD) || (opcode =? AND)); [case_halted do_ADD_AND_halted|].
  destruct (opcode =? BR); [case_halted do_BR_halted|].
  destruct (opcode =? LDR); [case_halted do_LDR_halted|].
  destruct (opcode =? ST); [case_halted do_ST_halted|].
  destruct (opcode =? STR); [case_halted do_STR_halted|].
  destruct (opcode =? STI); [case_halted do_STI_halted|].
  destruct (opcode =? JMP); [case_halted do_JMP_halted|].
  destruct (opcode =? JSR); [case_halted do_JSR_halted|].
  reflexivity.
Qed.

Lemma devices_halted s w :
  devices (set_isHalted true s) w
  = '(s', w') ← devices s w; Ok (set_isHalted true s', w').
Proof. unfold devices. flag_commutes. Qed.

Lemma fetch_execute_halted s w :
  fetch_execute (set_isHalted true s) w
  = '(s', w') ← fetch_execute s w; Ok (set_isHalted true s', w').
Proof.
  unfold fetch_execute.
  change (memory (set_isHalted true s)) with (memory s).
  change (PC (set_isHalted true s)) with (PC s).
  destruct (mem_get (memory s) (PC s)) as [ir|f]; [|reflexivity].
  exact (dispatch_halted (opcode_of ir) (fetched ir s) w).
Qed.

(** X24: the step does not read isHalted.  On a machine whose flag is set
    it does exactly what it does on the same machine with the flag as it
    is, faults included, and returns with the flag set: a halted machine
    goes on executing if it is stepped. *)
Theorem halted_machine_still_steps s w :
  execute_next (set_isHalted true s) w
  = '(s', w') ← execute_next s w; Ok (set_isHalted true s', w').
Proof.
  unfold execute_next. rewrite fetch_execute_halted.
  destruct (fetch_execute s w) as [[s1 w1]|f]; [|reflexivity].
  exact (devices_halted s1 w1).
Qed.

(** ** The condition code stays one of the three *)

Lemma setcc_is_condition v : exists c, setcc v = condition_char c.
Proof.
  unfold setcc. destruct (v =? 0); [exists Zero; reflexivity|].
  destruct (int16 v <? 0); [exists Negative | exists Positive]; reflexivity.
Qed.

(** X25: CC holds one of the characters N, Z, P after every instruction
    that updates it, whatever it held before, and keeps holding one of them
    through every other instruction if it did before.  So once CC is one of
    the three it remains so, and a BR with all three condition bits set is
    then always taken. *)
Theorem CC_stays_valid s w s' w' :
  well_formed s = true ->
  execute_next s w = Ok (s', w') ->
  updates_CC (opcode_of (IR s')) = true \/ (exists c, CC s = condition_char c) ->
  (exists c, CC s' = condition_char c) /\
  forall ir, Z.testbit ir 11 = true -> Z.testbit ir 10 = true -> Z.testbit ir 9 = true ->
             br_taken ir (CC s') = true.
Proof.
  intros Hwf Hstep Hvalid. apply well_formed_wf in Hwf.
  assert (Hc : exists c, CC s' = condition_char c).
  { destruct (dispatch_of_step s w s' w' Hwf Hstep)
      as (ir & s2 & w2 & Hir & Hd & _ & _ & HIR & HCC & _).
    rewrite HIR in Hvalid. rewrite HCC.
    pose proof (dispatch_CC _ _ _ _ _
                  (wf_registers_length _ (wf_fetched s ir Hwf Hir)) Hd) as H.
    destruct (updates_CC (opcode_of ir)).
    - destruct H as (v & _ & ->). apply setcc_is_condition.
    - rewrite H. simpl. destruct Hvalid as [[=]|Hv]. exact Hv. }
  split; [exact Hc|].
  intros ir Hn Hz Hp. apply br_taken_iff. destruct Hc as ([| |] & ->).
  - left. split; [exact Hn | reflexivity].
  - right. left. split; [exact Hz | reflexivity].
  - right. right. split; [exact Hp | reflexivity].
Qed.

Lemma CC_stays_valid_witness :
  exists s' w',
    execute_next (set_CC "x"%char (machine 0x3000 no_registers [(0x3000, 0x5020)])) quiet
    = Ok (s', w') /\
    (exists c, CC s' = condition_char c) /\ br_taken 0x0E00 (CC s') = true.
Proof.
  pose (m := set_CC "x"%char (machine 0x3000 no_registers [(0x3000, 0x5020)])).
  run_machine m quiet s' w' Hstep.
  exists s', w'. split; [exact Hstep|].
  assert (Hwf : well_formed m = true) by (vm_compute; reflexivity).
  destruct (CC_stays_valid m quiet s' w' Hwf Hstep) as [Hc Hbr].
  - left.
    rewrite (execute_next_IR m quiet s' w' 0x5020 (proj1 (well_formed_wf m) Hwf));
      [reflexivity | vm_compute; reflexivity | exact Hstep].
  - split; [exact Hc|]. apply Hbr; reflexivity.
Defined.
